(** * Open-access paper downloader: identifier utilities, content
      validation, provider fallback and batch driver.

    Shallow embedding of [downloader/utils/validation.py],
    [downloader/config/settings.py] (the [doi_regex] default) and
    [downloader/core/downloaders/openaccess.py].

    Conventions.
    - A Python [str] is a Rocq [string]; its characters are the code
      points below 256.  On that range [str.isspace], [\d], [\w] and
      the [re.IGNORECASE] folding are the ones written out below.
    - A Python [bytes] is a [list byte].
    - Python integers are [Z].
    - A Python [set] of strings is a [gset string], the files of an
      output folder are a [gmap string (list byte)].
    - A text file is the list of the strings written to it; reading it
      splits their concatenation into lines again. *)

From Stdlib Require Import ZArith QArith List String Ascii Strings.Byte Bool Lia
  DecimalString.
From stdpp Require Import gmap strings list.

Local Open Scope string_scope.
Local Open Scope Z_scope.

(** ** Python string helpers *)

Module PyStr.

(** [str.isspace] on one character (code points below 256). *)
Definition isspace (c : ascii) : bool :=
  let n := N_of_ascii c in
  ((9 <=? n) && (n <=? 13) || (28 <=? n) && (n <=? 32)
   || (n =? 133) || (n =? 160))%N.

Definition is_empty (s : string) : bool :=
  match s with EmptyString => true | String _ _ => false end.

(** [s.lstrip(chars)], [s.rstrip(chars)] and [s.strip(chars)], the
    character set given as a predicate. *)
Fixpoint lstrip_by (p : ascii -> bool) (s : string) : string :=
  match s with
  | EmptyString => EmptyString
  | String c s' => if p c then lstrip_by p s' else s
  end.

Fixpoint rstrip_by (p : ascii -> bool) (s : string) : string :=
  match s with
  | EmptyString => EmptyString
  | String c s' =>
      match rstrip_by p s' with
      | EmptyString => if p c then EmptyString else String c EmptyString
      | String d r => String c (String d r)
      end
  end.

Definition strip_by (p : ascii -> bool) (s : string) : string :=
  lstrip_by p (rstrip_by p s).

(** [s.strip()] *)
Definition strip (s : string) : string := strip_by isspace s.

(** [c in chars] for a string of characters. *)
Fixpoint char_in (chars : string) (c : ascii) : bool :=
  match chars with
  | EmptyString => false
  | String d r => Ascii.eqb c d || char_in r c
  end.

(** [s.startswith(p)] *)
Fixpoint startswith (s p : string) {struct p} : bool :=
  match p with
  | EmptyString => true
  | String b p' =>
      match s with
      | EmptyString => false
      | String a s' => Ascii.eqb a b && startswith s' p'
      end
  end.

(** [s[n:]] *)
Fixpoint slice_from (n : nat) (s : string) : string :=
  match n with
  | O => s
  | S n' => match s with
            | EmptyString => EmptyString
            | String _ s' => slice_from n' s'
            end
  end.

(** [s[:n]] *)
Fixpoint slice_to (n : nat) (s : string) : string :=
  match n with
  | O => EmptyString
  | S n' => match s with
            | EmptyString => EmptyString
            | String c s' => String c (slice_to n' s')
            end
  end.

(** [p in s] for strings. *)
Fixpoint contains (s p : string) : bool :=
  startswith s p ||
  match s with
  | EmptyString => false
  | String _ s' => contains s' p
  end.

(** [c.lower()] and [c.upper()] on one character; only the ASCII
    letters matter to the code modelled here. *)
Definition lower_char (c : ascii) : ascii :=
  let n := N_of_ascii c in
  if ((65 <=? n) && (n <=? 90))%N then ascii_of_N (n + 32) else c.

Definition upper_char (c : ascii) : ascii :=
  let n := N_of_ascii c in
  if ((97 <=? n) && (n <=? 122))%N then ascii_of_N (n - 32) else c.

Fixpoint map_chars (f : ascii -> ascii) (s : string) : string :=
  match s with
  | EmptyString => EmptyString
  | String c s' => String (f c) (map_chars f s')
  end.

Definition lower (s : string) : string := map_chars lower_char s.

(** [s.replace(a, b)] for single characters. *)
Definition replace_char (a b : ascii) (s : string) : string :=
  map_chars (fun c => if Ascii.eqb c a then b else c) s.

(** All characters of [s] satisfy [p]. *)
Fixpoint all_chars (p : ascii -> bool) (s : string) : bool :=
  match s with
  | EmptyString => true
  | String c s' => p c && all_chars p s'
  end.

(** The first, respectively the last, character of [s], if there is
    one, is outside the set [f]. *)
Definition first_ok (f : ascii -> bool) (s : string) : Prop :=
  match s with
  | EmptyString => True
  | String c _ => f c = false
  end.

Fixpoint last_ok (f : ascii -> bool) (s : string) : Prop :=
  match s with
  | EmptyString => True
  | String c EmptyString => f c = false
  | String _ s' => last_ok f s'
  end.

(** The one-character string of a line feed. *)
Definition newline_str : string := String "010"%char EmptyString.

(** *** Reading a text file

    A text file is kept as the strings written to it, in order, the
    line end of the system being the line feed.  A file opened for
    reading in text mode translates the line ends (a carriage return,
    alone or followed by a line feed, is read as one line feed), and
    iterating over it yields the text line by line, each line with its
    line feed, but for a last line that has none. *)

Definition is_lf (c : ascii) : bool := Ascii.eqb c "010"%char.
Definition is_cr (c : ascii) : bool := Ascii.eqb c "013"%char.

Fixpoint universal_newlines (s : string) : string :=
  match s with
  | EmptyString => EmptyString
  | String c s' =>
      if is_cr c
      then
        match s' with
        | String c' _ =>
            if is_lf c' then universal_newlines s'
            else String "010"%char (universal_newlines s')
        | EmptyString => String "010"%char EmptyString
        end
      else String c (universal_newlines s')
  end.

Fixpoint split_lines (s : string) : list string :=
  match s with
  | EmptyString => []
  | String c s' =>
      if is_lf c then String c EmptyString :: split_lines s'
      else
        match split_lines s' with
        | [] => [String c EmptyString]
        | line :: rest => String c line :: rest
        end
  end.

(** [for line in f], for the file holding the strings [written]. *)
Definition readlines (written : list string) : list string :=
  split_lines
    (universal_newlines (fold_right String.append EmptyString written)).

End PyStr.

(** ** A small regular-expression matcher (Brzozowski derivatives),
    enough for the patterns of the configuration. *)

Module Re.

Inductive regex : Type :=
| Void                                  (* matches nothing *)
| Eps                                   (* the empty string *)
| Chr (p : ascii -> bool)               (* one character of a class *)
| Cat (r1 r2 : regex)
| Alt (r1 r2 : regex)
| Star (r : regex).

Fixpoint nullable (r : regex) : bool :=
  match r with
  | Void => false
  | Eps => true
  | Chr _ => false
  | Cat r1 r2 => nullable r1 && nullable r2
  | Alt r1 r2 => nullable r1 || nullable r2
  | Star _ => true
  end.

Fixpoint deriv (c : ascii) (r : regex) : regex :=
  match r with
  | Void => Void
  | Eps => Void
  | Chr p => if p c then Eps else Void
  | Cat r1 r2 =>
      if nullable r1 then Alt (Cat (deriv c r1) r2) (deriv c r2)
      else Cat (deriv c r1) r2
  | Alt r1 r2 => Alt (deriv c r1) (deriv c r2)
  | Star r1 => Cat (deriv c r1) (Star r1)
  end.

(** The whole string is in the language of [r]. *)
Fixpoint fullmatch (r : regex) (s : string) : bool :=
  match s with
  | EmptyString => nullable r
  | String c s' => fullmatch (deriv c r) s'
  end.

Definition lit (c : ascii) : regex := Chr (Ascii.eqb c).
Definition opt (r : regex) : regex := Alt Eps r.
Definition plus (r : regex) : regex := Cat r (Star r).

(** [r{n}] and [r{n,m}] written as [times n r] and
    [Cat (times n r) (upto (m - n) r)]. *)
Fixpoint times (n : nat) (r : regex) : regex :=
  match n with
  | O => Eps
  | S n' => Cat r (times n' r)
  end.

Fixpoint upto (n : nat) (r : regex) : regex :=
  match n with
  | O => Eps
  | S n' => opt (Cat r (upto n' r))
  end.

(** [re.IGNORECASE] on a character class. *)
Definition ignorecase (p : ascii -> bool) (c : ascii) : bool :=
  p c || p (PyStr.upper_char c) || p (PyStr.lower_char c).

(** [re.compile("^" r "$").match(s)] is truthy: [match] anchors at the
    start, and [$] holds at the end of the string or just before a
    final newline. *)
Definition match_anchored (r : regex) (s : string) : bool :=
  fullmatch (Cat r (opt (lit "010"%char))) s.

(** The strings a pattern stands for. *)
Inductive lang : regex -> string -> Prop :=
| lang_eps : lang Eps EmptyString
| lang_chr (p : ascii -> bool) (c : ascii) :
    p c = true -> lang (Chr p) (String c EmptyString)
| lang_cat (r1 r2 : regex) (s1 s2 : string) :
    lang r1 s1 -> lang r2 s2 -> lang (Cat r1 r2) (s1 ++ s2)
| lang_alt_l (r1 r2 : regex) (s : string) :
    lang r1 s -> lang (Alt r1 r2) s
| lang_alt_r (r1 r2 : regex) (s : string) :
    lang r2 s -> lang (Alt r1 r2) s
| lang_star_nil (r : regex) : lang (Star r) EmptyString
| lang_star_app (r : regex) (s1 s2 : string) :
    lang r s1 -> lang (Star r) s2 -> lang (Star r) (s1 ++ s2).

End Re.

(** ** [downloader/utils/validation.py] *)

Module Validation.
Import PyStr.

Definition is_digit (c : ascii) : bool :=
  let n := N_of_ascii c in ((48 <=? n) && (n <=? 57))%N.

Definition is_upper_AZ (c : ascii) : bool :=
  let n := N_of_ascii c in ((65 <=? n) && (n <=? 90))%N.

(** The class [[-._;()/:A-Z0-9]] of [doi_regex]. *)
Definition doi_suffix_class (c : ascii) : bool :=
  char_in "-._;()/:" c || is_upper_AZ c || is_digit c.

(** [AppConfig.doi_regex = r'^10\.\d{4,9}/[-._;()/:A-Z0-9]+$'], compiled
    with [re.IGNORECASE]. *)
Definition doi_regex : Re.regex :=
  Re.Cat (Re.lit "1")
    (Re.Cat (Re.lit "0")
      (Re.Cat (Re.lit ".")
        (Re.Cat (Re.times 4 (Re.Chr is_digit))
          (Re.Cat (Re.upto 5 (Re.Chr is_digit))
            (Re.Cat (Re.lit "/")
              (Re.plus (Re.Chr (Re.ignorecase doi_suffix_class)))))))).

(** [validate_doi]: the empty string is rejected, otherwise the
    stripped string is matched against [doi_regex]. *)
Definition validate_doi (doi : string) : bool :=
  if is_empty doi then false
  else Re.match_anchored doi_regex (strip doi).

Definition prefixes : list string :=
  ["doi:"; "DOI:"; "https://doi.org/"; "http://dx.doi.org/"].

(** The [for prefix in prefixes: ... break] loop of [normalize_doi]. *)
Fixpoint remove_first_prefix (ps : list string) (doi : string) : string :=
  match ps with
  | [] => doi
  | prefix :: ps' =>
      if startswith doi prefix
      then slice_from (String.length prefix) doi
      else remove_first_prefix ps' doi
  end.

(** The characters removed by the final [doi.strip(...)]: the
    apostrophe (code 39) and the double quote (code 34). *)
Definition is_quote (c : ascii) : bool :=
  let n := N_of_ascii c in ((n =? 39) || (n =? 34))%N.

Definition normalize_doi (doi : string) : string :=
  if is_empty doi then EmptyString
  else
    let doi := strip doi in
    let doi := remove_first_prefix prefixes doi in
    strip_by is_quote doi.

(** The characters of the class [invalid_chars], by code: the double
    quote (34), the star (42), the slash (47), the colon (58), the
    angle brackets (60, 62), the question mark (63), the backslash (92)
    and the vertical bar (124). *)
Definition is_invalid_char (c : ascii) : bool :=
  let n := N_of_ascii c in
  ((n =? 34) || (n =? 42) || (n =? 47) || (n =? 58) || (n =? 60)
   || (n =? 62) || (n =? 63) || (n =? 92) || (n =? 124))%N.

(** [s.rsplit('.', 1)] for a string with a dot: the text before the
    last dot and the text after it; [None] when [s] has no dot. *)
Fixpoint rsplit_dot (s : string) : option (string * string) :=
  match s with
  | EmptyString => None
  | String c s' =>
      match rsplit_dot s' with
      | Some (name, ext) => Some (String c name, ext)
      | None => if Ascii.eqb c "." then Some (EmptyString, s') else None
      end
  end.

(** [s[:k]] for an integer [k]; a negative [k] counts from the end. *)
Definition slice_to_Z (k : Z) (s : string) : string :=
  if k <? 0 then slice_to (Z.to_nat (Z.of_nat (String.length s) + k)) s
  else slice_to (Z.to_nat k) s.

(** The body of [if len(sanitized) > 200]. *)
Definition truncate_filename (sanitized : string) : string :=
  let '(name, ext) :=
    match rsplit_dot sanitized with
    | Some parts => parts
    | None => (sanitized, EmptyString)
    end in
  let name := slice_to_Z (200 - Z.of_nat (String.length ext) - 1) name in
  if is_empty ext then name else name ++ "." ++ ext.

Definition sanitize_filename (filename : string) : string :=
  let sanitized :=
    map_chars (fun c => if is_invalid_char c then "_"%char else c) filename in
  let sanitized := strip_by (char_in ". ") sanitized in
  let sanitized :=
    if is_empty sanitized then "unnamed_file" else sanitized in
  if Z.of_nat (String.length sanitized) >? 200
  then truncate_filename sanitized
  else sanitized.

End Validation.

(** ** Python bytes helpers *)

Module PyBytes.

(** The bytes literal [b"..."] of an ASCII string. *)
Definition b (s : string) : list byte := list_byte_of_string s.

Fixpoint startswith (s p : list byte) {struct p} : bool :=
  match p with
  | [] => true
  | y :: p' =>
      match s with
      | [] => false
      | x :: s' => Byte.eqb x y && startswith s' p'
      end
  end.

(** [p in s] for bytes. *)
Fixpoint contains (s p : list byte) : bool :=
  startswith s p ||
  match s with
  | [] => false
  | _ :: s' => contains s' p
  end.

(** [bytes.lower()]: only the ASCII letters change. *)
Definition lower_byte (x : byte) : byte :=
  byte_of_ascii (PyStr.lower_char (ascii_of_byte x)).

Definition lower (s : list byte) : list byte := map lower_byte s.

(** [len(s)] *)
Definition len (s : list byte) : Z := Z.of_nat (length s).

End PyBytes.

(** ** [downloader/core/downloaders/openaccess.py] *)

Module OpenAccess.
Import PyStr.

(** *** [DownloadProgress] *)

Record DownloadProgress : Type := mkProgress {
  current : Z;
  total : Z;
  downloaded : Z;
  failed : Z;
  skipped : Z;
  current_doi : string;
  status : string;
  output_folder : string;
  start_time : option Z
}.

(** [DownloadProgress()] with the dataclass defaults. *)
Definition DownloadProgress_default : DownloadProgress :=
  {| current := 0; total := 0; downloaded := 0; failed := 0; skipped := 0;
     current_doi := ""; status := "idle"; output_folder := "";
     start_time := None |}.

(** Python's true division [a / b] of integers: it raises
    [ZeroDivisionError] for a zero divisor ([None] here).  The float it
    returns is modelled by the exact quotient. *)
Definition py_truediv (a b : Z) : option Q :=
  if b =? 0 then None else Some (inject_Z a / inject_Z b)%Q.

(** The property [progress_percent]; [None] would be an exception. *)
Definition progress_percent (p : DownloadProgress) : option Q :=
  if total p =? 0 then Some 0%Q
  else
    match py_truediv (current p) (total p) with
    | None => None
    | Some q => Some (q * 100)%Q
    end.

(** *** Content validation *)

Definition pdf_magic : list byte := PyBytes.b "%PDF-".

Definition html_indicators : list (list byte) :=
  map PyBytes.b
    ["<!doctype html"; "<html"; "<head>"; "<title>"; "<body>"; "<h1>";
     "<div>"; "<p>"; "text/html"].

Definition error_indicators : list (list byte) :=
  map PyBytes.b
    ["access denied"; "unauthorized"; "login required";
     "subscription required"; "paywall"; "not available"; "error 403";
     "error 404"].

Definition _is_valid_pdf (content : list byte) : bool :=
  if (PyBytes.len content =? 0) || (PyBytes.len content <? 4) then false
  else if PyBytes.startswith content pdf_magic then true
  else
    let content_lower := PyBytes.lower content in
    if existsb (PyBytes.contains content_lower) html_indicators then false
    else if existsb (PyBytes.contains content_lower) error_indicators
    then false
    else true.

(** *** The outside world of one downloader

    [session.get] answers from a script of replies, consumed in the
    order the requests are made; the URLs requested and the delays
    slept are recorded.  [fs] holds the binary files written under the
    output folders, [textfiles] the text files (identifier lists and
    the ledger), each as the strings written to it. *)

Inductive Exc : Type :=
| HTTPError (status_code : Z) (text : string)
| RequestException (text : string)
| OtherException (text : string).

(** [str(e)] *)
Definition str_exc (e : Exc) : string :=
  match e with
  | HTTPError _ t => t
  | RequestException t => t
  | OtherException t => t
  end.

(** A work of a CORE answer, or the metadata built from an arXiv
    entry; [pdfOrigin] is [repositoryDocument.pdfOrigin]. *)
Record Paper : Type := mkPaper {
  downloadUrl : option string;
  pdfOrigin : option string;
  title : option string;
  authors : list string;
  arxiv_id : option string
}.

(** The JSON document of a CORE search. *)
Record CoreData : Type := mkCoreData {
  totalHits : option Z;
  results : option (list Paper)
}.

Record Response : Type := mkResponse {
  content_type : option string;       (* headers.get('content-type') *)
  json : Exc + CoreData;              (* response.json(), or what it raises *)
  chunks : list (list byte);          (* response.iter_content(...) *)
  stream_error : option Exc           (* raised after the last chunk *)
}.

Inductive Reply : Type :=
| Raises (e : Exc)        (* [get] or [raise_for_status] raises *)
| Responds (r : Response).

Record World : Type := mkWorld {
  net : list Reply;
  requested : list string;
  fs : gmap string (list byte);
  textfiles : gmap string (list string);
  slept : list Z;
  clock : Z
}.

Definition set_net (f : list Reply -> list Reply) (w : World) : World :=
  mkWorld (f (net w)) (requested w) (fs w) (textfiles w) (slept w) (clock w).
Definition set_requested (f : list string -> list string) (w : World) : World :=
  mkWorld (net w) (f (requested w)) (fs w) (textfiles w) (slept w) (clock w).
Definition set_fs (f : gmap string (list byte) -> gmap string (list byte))
    (w : World) : World :=
  mkWorld (net w) (requested w) (f (fs w)) (textfiles w) (slept w) (clock w).
Definition set_textfiles
    (f : gmap string (list string) -> gmap string (list string))
    (w : World) : World :=
  mkWorld (net w) (requested w) (fs w) (f (textfiles w)) (slept w) (clock w).
Definition set_slept (f : list Z -> list Z) (w : World) : World :=
  mkWorld (net w) (requested w) (fs w) (textfiles w) (f (slept w)) (clock w).

(** [self.session.get(url, ...)] followed by [raise_for_status()]; an
    exhausted script answers like a dead connection. *)
Definition session_get (url : string) (w : World) : Reply * World :=
  let w' := set_requested (fun l => (l ++ [url])%list) w in
  match net w with
  | [] => (Raises (RequestException "connection failed"), w')
  | r :: rest => (r, set_net (fun _ => rest) w')
  end.

(** [time.sleep(d)] *)
Definition time_sleep (d : Z) (w : World) : World :=
  set_slept (fun l => (l ++ [d])%list) w.

(** [open(filepath, 'wb')] with everything written before it is closed,
    [filepath.unlink()], [filepath.exists()], [filepath.stat().st_size]. *)
Definition write_file (filepath : string) (data : list byte) (w : World)
    : World :=
  set_fs (fun m => <[filepath := data]> m) w.

Definition unlink (filepath : string) (w : World) : World :=
  set_fs (fun m => delete filepath m) w.

Definition exists_file (filepath : string) (w : World) : bool :=
  match fs w !! filepath with Some _ => true | None => false end.

Definition st_size (filepath : string) (w : World) : Z :=
  match fs w !! filepath with
  | Some data => PyBytes.len data
  | None => 0
  end.

(** [output_folder / filename]; the file names built below never start
    with a slash. *)
Definition path_join (folder filename : string) : string :=
  folder ++ "/" ++ filename.

(** *** Result dictionaries *)

Record Result : Type := mkResult {
  success : bool;
  error : option string;
  res_doi : option string;
  file_path : option string;
  res_title : option string;
  res_authors : list string;
  source : option string;
  ident : option string      (* 'arxiv_id' or 'pmid' *)
}.

(** [{'success': False, 'error': msg, 'doi': doi}] *)
Definition failure (msg doi : string) : Result :=
  mkResult false (Some msg) (Some doi) None None [] None None.

(** [result.get('error', default)] *)
Definition get_error (r : Result) (default : string) : string :=
  match error r with Some e => e | None => default end.

(** Truth value of an optional string ([None] and [''] are false). *)
Definition truthy (o : option string) : bool :=
  match o with
  | Some s => negb (is_empty s)
  | None => false
  end.

Definition get_str (o : option string) (default : string) : string :=
  match o with Some s => s | None => default end.

(** [str(n)] for an integer. *)
Definition str_Z (n : Z) : string := NilZero.string_of_int (Z.to_int n).

(** [\w] on one character: [str.isalnum] or the underscore. *)
Definition is_word_char (c : ascii) : bool :=
  let n := N_of_ascii c in
  ((48 <=? n) && (n <=? 57) || (65 <=? n) && (n <=? 90)
   || (97 <=? n) && (n <=? 122) || (n =? 95)
   || (n =? 170) || (n =? 178) || (n =? 179) || (n =? 181)
   || (n =? 185) || (n =? 186) || (188 <=? n) && (n <=? 190)
   || (192 <=? n) && (n <=? 214) || (216 <=? n) && (n <=? 246)
   || (248 <=? n) && (n <=? 255))%N.

(** [re.sub(r'[^\w\-_\.]', '_', title)] *)
Definition safe_title_of (t : string) : string :=
  map_chars (fun c => if is_word_char c || char_in "-_." c then c
                      else "_"%char) t.

Definition slash_to_underscore (s : string) : string :=
  replace_char "/" "_" s.

(** *** Fetching a body: the streaming loop shared, copy for copy, by
    [_try_download_paper], [_try_ncbi_download] and
    [_download_europepmc_pdf] *)

Definition validation_limit : Z := 1024 * 1024.

(** The [for chunk in iter_content] loop: accumulates the non-empty
    chunks; [Some rest] when the content grew past the limit, with the
    chunks not yet read. *)
Fixpoint buffer_chunks (content : list byte) (cs : list (list byte))
    : list byte * option (list (list byte)) :=
  match cs with
  | [] => (content, None)
  | chunk :: cs' =>
      match chunk with
      | [] => buffer_chunks content cs'
      | _ :: _ =>
          let content' := (content ++ chunk)%list in
          if PyBytes.len content' >? validation_limit
          then (content', Some cs')
          else buffer_chunks content' cs'
      end
  end.

(** The loop and its [else]: the content kept in memory, or the
    exception of a broken stream.  Past the limit the file is opened
    and receives the content and the other chunks before a broken
    stream raises; below it the stream raises before the file is
    opened. *)
Definition store_body (filepath : string) (resp : Response) (w : World)
    : (Exc + list byte) * World :=
  match buffer_chunks [] (chunks resp) with
  | (content, Some rest) =>
      let w' := write_file filepath (content ++ concat rest)%list w in
      match stream_error resp with
      | Some e => (inl e, w')
      | None => (inr content, w')
      end
  | (content, None) =>
      match stream_error resp with
      | Some e => (inl e, w)
      | None => (inr content, write_file filepath content w)
      end
  end.

(** The [except Exception] arm once [filepath] is bound: the file is
    removed if it exists. *)
Definition cleanup (filepath : string) (w : World) : World :=
  if exists_file filepath w then unlink filepath w else w.

(** *** [_try_download_paper] (CORE and arXiv) *)

Definition paper_filename (paper : Paper) (doi source : string) : string :=
  let title := slice_to 50 (get_str (title paper) "unknown") in
  let safe_title := safe_title_of title in
  let source_suffix := "_" ++ source in
  if String.eqb source "arXiv" && truthy (arxiv_id paper)
  then
    let arxiv_id := slash_to_underscore (get_str (arxiv_id paper) "") in
    safe_title ++ "_" ++ arxiv_id ++ "_" ++ slash_to_underscore doi
      ++ source_suffix ++ ".pdf"
  else
    safe_title ++ "_" ++ slash_to_underscore doi ++ source_suffix ++ ".pdf".

Definition paper_url (paper : Paper) : option string :=
  if truthy (downloadUrl paper) then downloadUrl paper else pdfOrigin paper.

Definition _try_download_paper (paper : Paper) (doi output_folder : string)
    (source : string) (w : World) : Result * World :=
  let download_url := paper_url paper in
  if negb (truthy download_url)
  then (failure "No download URL available" doi, w)
  else
    let filepath := path_join output_folder (paper_filename paper doi source) in
    let on_exception (e : Exc) (w : World) :=
      (failure ("PDF download failed: " ++ str_exc e) doi,
       cleanup filepath w) in
    let '(reply, w) := session_get (get_str download_url "") w in
    match reply with
    | Raises e => on_exception e w
    | Responds pdf_response =>
        let content_type := lower (get_str (content_type pdf_response) "") in
        if contains content_type "text/html"
           || contains content_type "text/plain"
        then
          (failure ("Download URL returned HTML/text instead of PDF (Content-Type: "
                    ++ content_type ++ ")") doi, w)
        else
          match store_body filepath pdf_response w with
          | (inl e, w) => on_exception e w
          | (inr content, w) =>
              if negb (_is_valid_pdf (take 1024 content))
              then
                (failure "Downloaded content is not a valid PDF (likely HTML/text from publisher paywall)" doi,
                 if exists_file filepath w then unlink filepath w else w)
              else if exists_file filepath w && (st_size filepath w >? 1000)
              then
                (mkResult true None (Some doi) (Some filepath)
                   (Some (get_str (title paper) "")) (authors paper)
                   (Some source)
                   (Some (if String.eqb source "arXiv"
                          then get_str (arxiv_id paper) "" else "")),
                 w)
              else
                (failure "Downloaded file is empty or too small to be a valid PDF" doi,
                 w)
          end
    end.

(** *** [_try_ncbi_download] *)

Record LinkInfo : Type := mkLinkInfo {
  url : option string;            (* [link_info['url']] raises if absent *)
  link_source : option string
}.

Record PaperInfo : Type := mkPaperInfo {
  info_title : option string;
  info_authors : list string;
  info_pmid : option string
}.

Definition ncbi_filename (paper_info : PaperInfo) (doi : string) : string :=
  let safe_title := safe_title_of (get_str (info_title paper_info) "unknown") in
  let pmid := get_str (info_pmid paper_info) "unknown" in
  safe_title ++ "_" ++ pmid ++ "_" ++ slash_to_underscore doi ++ "_NCBI.pdf".

Definition _try_ncbi_download (link_info : LinkInfo) (doi output_folder : string)
    (paper_info : PaperInfo) (w : World) : Result * World :=
  match url link_info with
  | None =>
      (* KeyError before [filepath] is bound: nothing to clean up *)
      (failure ("NCBI download failed: " ++ "'url'") doi, w)
  | Some download_url =>
      let source_name := get_str (link_source link_info) "NCBI" in
      let filepath := path_join output_folder (ncbi_filename paper_info doi) in
      let on_exception (e : Exc) (w : World) :=
        (failure ("NCBI download failed: " ++ str_exc e) doi,
         cleanup filepath w) in
      let '(reply, w) := session_get download_url w in
      match reply with
      | Raises e => on_exception e w
      | Responds response =>
          let content_type := lower (get_str (content_type response) "") in
          if contains content_type "text/html"
          then
            (failure ("NCBI link returned HTML instead of PDF (Content-Type: "
                      ++ content_type ++ ")") doi, w)
          else
            match store_body filepath response w with
            | (inl e, w) => on_exception e w
            | (inr content, w) =>
                if negb (_is_valid_pdf (take 1024 content))
                then
                  (failure "Downloaded content from NCBI is not a valid PDF" doi,
                   if exists_file filepath w then unlink filepath w else w)
                else if exists_file filepath w && (st_size filepath w >? 1000)
                then
                  (mkResult true None (Some doi) (Some filepath)
                     (Some (get_str (info_title paper_info) ""))
                     (info_authors paper_info)
                     (Some ("NCBI-" ++ source_name))
                     (Some (get_str (info_pmid paper_info) "")),
                   w)
                else
                  (failure "Downloaded NCBI file is empty or too small" doi, w)
            end
      end
  end.

(** *** [_try_core_api] *)

Definition max_retries : Z := 3.
Definition base_delay : Z := 10.
Definition core_base_url : string := "https://api.core.ac.uk/v3".

(** [range(n)] *)
Definition range (n : Z) : list Z := map Z.of_nat (seq 0 (Z.to_nat n)).

(** [for paper in results: ... if download_result['success']: return] *)
Fixpoint try_papers (papers : list Paper) (doi output_folder : string)
    (w : World) : option Result * World :=
  match papers with
  | [] => (None, w)
  | paper :: rest =>
      let '(download_result, w') :=
        _try_download_paper paper doi output_folder "CORE" w in
      if success download_result then (Some download_result, w')
      else try_papers rest doi output_folder w'
  end.

(** One turn of the retry loop either returns or goes on ([continue]). *)
Inductive Turn : Type :=
| Continue (w : World)
| Return (r : Result) (w : World).

Definition core_attempt (attempt : Z) (doi output_folder : string)
    (w : World) : Turn :=
  let '(reply, w) := session_get (core_base_url ++ "/search/works") w in
  let answer : Exc + CoreData :=
    match reply with
    | Raises e => inl e
    | Responds response => json response
    end in
  match answer with
  | inr data =>
      if default 0 (totalHits data) >? 0
      then
        match try_papers (default [] (results data)) doi output_folder w with
        | (Some download_result, w') => Return download_result w'
        | (None, w') =>
            Return (failure "Paper found but no downloadable PDF available" doi) w'
        end
      else Return (failure "Paper not found in CORE database" doi) w
  | inl (HTTPError status text) =>
      if status =? 429
      then
        if attempt <? max_retries
        then Continue (time_sleep (base_delay * 2 ^ attempt) w)
        else Return (failure ("Rate limit exceeded after " ++ str_Z max_retries
                              ++ " retries") doi) w
      else if status =? 500
      then
        if attempt <? max_retries
        then Continue (time_sleep 5 w)
        else Return (failure ("Server error after " ++ str_Z max_retries
                              ++ " retries") doi) w
      else Return (failure ("CORE API HTTP error: " ++ text) doi) w
  | inl (RequestException text) =>
      Return (failure ("CORE API request failed: " ++ text) doi) w
  | inl (OtherException text) =>
      Return (failure ("CORE download error: " ++ text) doi) w
  end.

(** [for attempt in range(max_retries + 1)]; [None] is the value of a
    Python function whose loop ends without a [return]. *)
Fixpoint core_loop (attempts : list Z) (doi output_folder : string)
    (w : World) : option Result * World :=
  match attempts with
  | [] => (None, w)
  | attempt :: rest =>
      match core_attempt attempt doi output_folder w with
      | Continue w' => core_loop rest doi output_folder w'
      | Return r w' => (Some r, w')
      end
  end.

Definition _try_core_api (doi output_folder : string) (w : World)
    : option Result * World :=
  core_loop (range (max_retries + 1)) doi output_folder w.

(** *** [_download_single_paper]: the fallback chain

    The four provider adapters ([_try_core_api], [_try_arxiv_api],
    [_try_ncbi_api], [_try_europepmc_api]) each return a result
    dictionary on every path (their bodies are wrapped in
    [try/except Exception]); here they are any state-passing functions
    over any world. *)

Inductive Provider : Type := CORE | ArXiv | NCBI | EuropePMC.

Section Fallback.
Context {W : Type}.
Variable adapter : Provider -> string -> string -> W -> Result * W.

Definition _download_single_paper (doi output_folder : string) (w : W)
      : Result * W :=
    let '(core_result, w) := adapter CORE doi output_folder w in
    if success core_result then (core_result, w)
    else
      let '(arxiv_result, w) := adapter ArXiv doi output_folder w in
      if success arxiv_result then (arxiv_result, w)
      else
        let '(ncbi_result, w) := adapter NCBI doi output_folder w in
        if success ncbi_result then (ncbi_result, w)
        else
          let '(europepmc_result, w) :=
            adapter EuropePMC doi output_folder w in
          if success europepmc_result then (europepmc_result, w)
          else
            let core_error := get_error core_result "CORE API failed" in
            let arxiv_error := get_error arxiv_result "arXiv API failed" in
            let ncbi_error := get_error ncbi_result "NCBI API failed" in
            let europepmc_error :=
              get_error europepmc_result "Europe PMC API failed" in
            (failure ("All sources failed - CORE: " ++ core_error
                      ++ "; arXiv: " ++ arxiv_error
                      ++ "; NCBI: " ++ ncbi_error
                      ++ "; Europe PMC: " ++ europepmc_error) doi,
             w).
End Fallback.

(** *** The downloader object and the batch driver *)

Record Downloader : Type := mkDownloader {
  progress : DownloadProgress;
  stop_flag : bool;
  downloaded_dois : gset string;
  failed_dois : gset string
}.

Definition set_progress (f : DownloadProgress -> DownloadProgress)
    (d : Downloader) : Downloader :=
  mkDownloader (f (progress d)) (stop_flag d) (downloaded_dois d)
    (failed_dois d).
Definition set_stop (v : bool) (d : Downloader) : Downloader :=
  mkDownloader (progress d) v (downloaded_dois d) (failed_dois d).
Definition set_downloaded_dois (f : gset string -> gset string)
    (d : Downloader) : Downloader :=
  mkDownloader (progress d) (stop_flag d) (f (downloaded_dois d))
    (failed_dois d).
Definition set_failed_dois (f : gset string -> gset string)
    (d : Downloader) : Downloader :=
  mkDownloader (progress d) (stop_flag d) (downloaded_dois d)
    (f (failed_dois d)).

Definition with_status (v : string) (p : DownloadProgress) : DownloadProgress :=
  mkProgress (current p) (total p) (downloaded p) (failed p) (skipped p)
    (current_doi p) v (output_folder p) (start_time p).
Definition with_current (i : Z) (doi : string) (p : DownloadProgress)
    : DownloadProgress :=
  mkProgress i (total p) (downloaded p) (failed p) (skipped p)
    doi (status p) (output_folder p) (start_time p).
Definition incr_downloaded (p : DownloadProgress) : DownloadProgress :=
  mkProgress (current p) (total p) (downloaded p + 1) (failed p) (skipped p)
    (current_doi p) (status p) (output_folder p) (start_time p).
Definition incr_failed (p : DownloadProgress) : DownloadProgress :=
  mkProgress (current p) (total p) (downloaded p) (failed p + 1) (skipped p)
    (current_doi p) (status p) (output_folder p) (start_time p).
Definition incr_skipped (p : DownloadProgress) : DownloadProgress :=
  mkProgress (current p) (total p) (downloaded p) (failed p) (skipped p + 1)
    (current_doi p) (status p) (output_folder p) (start_time p).

(** [set_stop_flag], called by an observer from another thread. *)
Definition set_stop_flag (d : Downloader) : Downloader :=
  set_progress (with_status "stopping") (set_stop true d).

(** [clear_progress] *)
Definition clear_progress (d : Downloader) : Downloader :=
  set_stop false (set_progress (fun _ => DownloadProgress_default) d).

(** [AppConfig.delay_between_downloads] *)
Definition delay_between_downloads : Z := 8.

(** What a resolution gives to the [try] of [_process_dois]. *)
Inductive Outcome : Type :=
| Returned (r : Result)
| Raised (e : Exc).

(** The two places where the driver is blocked and an observer thread
    can run: inside the resolution of an identifier, and inside the
    pacing sleep that follows it. *)
Inductive Phase : Type := Resolving | Pacing.

(** The summary dictionaries returned by [download_papers]. *)
Record Summary : Type := mkSummary {
  sum_success : bool;
  sum_error : option string;
  total_requested : Z;
  sum_downloaded : option Z;
  sum_failed : option Z;
  sum_skipped : option Z
}.

Section Batch.
Context {W : Type}.
  (** [self._download_single_paper] *)
Variable resolve : string -> string -> W -> Outcome * W.
  (** [time.sleep] *)
Variable sleep : Z -> W -> W.
  (** [stop_request ph i]: an observer calls [set_stop_flag] while the
      driver is blocked in phase [ph] of the identifier of index [i]. *)
Variable stop_request : Phase -> nat -> bool.
  (** The lines the iteration over the open file yields before its end
      (or before an exception, which [_load_dois] only logs). *)
Variable read_lines : string -> W -> list string.
  (** [output_folder.mkdir(parents=True, exist_ok=True)] *)
Variable mkdir : string -> W -> Exc + W.
  (** [datetime.now()] *)
Variable now : W -> Z.
  (** [self._save_tracking_data()] *)
Variable save_tracking : Downloader -> W -> W.

Definition observe (ph : Phase) (i : nat) (d : Downloader) : Downloader :=
    if stop_request ph i then set_stop_flag d else d.

  (** The body of the [for line_num, line in enumerate(f, 1)] loop. *)
Fixpoint load_lines (lines : list string) (dois : list string)
      (d : Downloader) : list string * Downloader :=
    match lines with
    | [] => (dois, d)
    | line :: rest =>
        let line := strip line in
        if negb (is_empty line) && negb (startswith line "#")
        then
          let doi := Validation.normalize_doi line in
          if Validation.validate_doi doi
          then
            if bool_decide (doi ∈ downloaded_dois d)
            then load_lines rest dois (set_progress incr_skipped d)
            else load_lines rest (dois ++ [doi])%list d
          else load_lines rest dois d
        else load_lines rest dois d
    end.

Definition _load_dois (doi_file : string) (d : Downloader) (w : W)
      : list string * Downloader :=
    load_lines (read_lines doi_file w) [] d.

  (** The body of the [for i, doi in enumerate(dois)] loop below the
      test of the stop flag; [n] is [len(dois)]. *)
Definition process_one (n : Z) (i : nat) (doi output_folder : string)
      (d : Downloader) (w : W) : Downloader * W :=
    let d := set_progress
               (fun p => with_status "downloading"
                           (with_current (Z.of_nat i + 1) doi p)) d in
    let '(outcome, w) := resolve doi output_folder w in
    let d := observe Resolving i d in
    let d :=
      match outcome with
      | Returned result =>
          if success result
          then set_downloaded_dois (fun s => s ∪ {[doi]})
                 (set_progress incr_downloaded d)
          else set_failed_dois (fun s => s ∪ {[doi]})
                 (set_progress incr_failed d)
      | Raised _ =>
          set_failed_dois (fun s => s ∪ {[doi]})
            (set_progress incr_failed d)
      end in
    if negb (stop_flag d) && (Z.of_nat i <? n - 1)
    then (observe Pacing i d, sleep delay_between_downloads w)
    else (d, w).

  (** The loop itself: the stop flag is tested before each identifier. *)
Fixpoint process_loop (n : Z) (i : nat) (rest : list string)
      (output_folder : string) (d : Downloader) (w : W) : Downloader * W :=
    match rest with
    | [] => (d, w)
    | doi :: rest' =>
        if stop_flag d then (d, w)
        else
          let '(d, w) := process_one n i doi output_folder d w in
          process_loop n (S i) rest' output_folder d w
    end.

Definition _process_dois (dois : list string) (output_folder : string)
      (d : Downloader) (w : W) : Summary * (Downloader * W) :=
    let d := set_progress (with_status "processing") d in
    let '(d, w) :=
      process_loop (Z.of_nat (length dois)) 0 dois output_folder d w in
    (mkSummary true None (Z.of_nat (length dois))
       (Some (downloaded (progress d))) (Some (failed (progress d)))
       (Some (skipped (progress d))),
     (d, w)).

Definition download_papers (doi_file output_folder : string)
      (d : Downloader) (w : W) : Summary * (Downloader * W) :=
    let '(dois, d) := _load_dois doi_file d w in
    match dois with
    | [] =>
        (mkSummary false (Some "No valid DOIs found in file") 0
           None None None, (d, w))
    | _ :: _ =>
        let d := set_progress
                   (fun _ => mkProgress 0 (Z.of_nat (length dois)) 0 0 0 ""
                               "starting" output_folder (Some (now w))) d in
        let d := set_stop false d in
        match mkdir output_folder w with
        | inl e =>
            (mkSummary false (Some (str_exc e)) 0 None None None,
             (set_progress (with_status "error") d, w))
        | inr w =>
            let '(results, (d, w)) := _process_dois dois output_folder d w in
            let w := save_tracking d w in
            let d := set_progress
                       (with_status (if negb (stop_flag d) then "completed"
                                     else "stopped")) d in
            (results, (d, w))
        end
    end.
End Batch.

(** *** The ledger files *)

Definition downloaded_file (data_dir : string) : string :=
  path_join data_dir "downloaded_library.txt".
Definition failed_file (data_dir : string) : string :=
  path_join data_dir "failed_dois.txt".

(** [set(line.strip() for line in f if line.strip())] *)
Fixpoint stripped_lines (lines : list string) : gset string :=
  match lines with
  | [] => ∅
  | line :: rest =>
      if is_empty (strip line) then stripped_lines rest
      else {[strip line]} ∪ stripped_lines rest
  end.

Definition _load_tracking_data (data_dir : string) (d : Downloader)
    (w : World) : Downloader :=
  let d :=
    match textfiles w !! downloaded_file data_dir with
    | Some written =>
        set_downloaded_dois (fun _ => stripped_lines (readlines written)) d
    | None => d
    end in
  match textfiles w !! failed_file data_dir with
  | Some written =>
      set_failed_dois (fun _ => stripped_lines (readlines written)) d
  | None => d
  end.

(** [OpenAccessDownloader(config)] *)
Definition new_downloader (data_dir : string) (w : World) : Downloader :=
  _load_tracking_data data_dir
    (mkDownloader DownloadProgress_default false ∅ ∅) w.

(** [sorted(...)] on strings, by insertion. *)
Fixpoint insert_sorted (x : string) (l : list string) : list string :=
  match l with
  | [] => [x]
  | y :: l' => if String.leb x y then x :: l else y :: insert_sorted x l'
  end.

Definition sorted (s : gset string) : list string :=
  foldr insert_sorted [] (elements s).

Definition _save_tracking_data (data_dir : string) (d : Downloader)
    (w : World) : World :=
  let w := set_textfiles
             (fun m => <[downloaded_file data_dir :=
                          map (fun doi => doi ++ newline_str)
                            (sorted (downloaded_dois d))]> m) w in
  set_textfiles
    (fun m => <[failed_file data_dir :=
                 map (fun doi => doi ++ newline_str) (sorted (failed_dois d))]> m)
    w.

(** [clear_all_tracking] *)
Definition clear_all_tracking (data_dir : string) (d : Downloader)
    (w : World) : Z * (Downloader * World) :=
  let total_cleared :=
    Z.of_nat (size (downloaded_dois d)) + Z.of_nat (size (failed_dois d)) in
  let d := set_failed_dois (fun _ => ∅) (set_downloaded_dois (fun _ => ∅) d) in
  (total_cleared, (d, _save_tracking_data data_dir d w)).

End OpenAccess.

(** ** [downloader/core/extractors/base.py] *)

Module Extractors.
Import PyStr OpenAccess.

(** The loop of [_remove_duplicates], with its set [seen] and its list
    [unique_dois]. *)
Fixpoint remove_loop (dois : list string) (seen : gset string)
    (unique_dois : list string) : list string :=
  match dois with
  | [] => unique_dois
  | doi :: rest =>
      if bool_decide (doi ∈ seen) then remove_loop rest seen unique_dois
      else remove_loop rest (seen ∪ {[doi]}) (unique_dois ++ [doi])%list
  end.

Definition _remove_duplicates (dois : list string) : list string :=
  remove_loop dois ∅ [].

(** [_save_dois]: one stripped identifier per line; the file can be
    written. *)
Definition _save_dois (dois : list string) (output_path : string)
    (w : World) : bool * World :=
  (true,
   set_textfiles
     (fun m => <[output_path := map (fun doi => strip doi ++ newline_str) dois]> m)
     w).

(** The lines read from a text file of the world, none when the file
    cannot be opened: what [_load_dois] iterates over. *)
Definition read_text_lines (path : string) (w : World) : list string :=
  readlines (default [] (textfiles w !! path)).

End Extractors.

(** ** [downloader/web/routes/download.py] *)

Module Routes.
Import PyStr.

(** The identifiers counted by [download_papers_custom] in the uploaded
    file: [[line.strip() for line in f if line.strip() and not
    line.startswith('#')]]. *)
Fixpoint uploaded_dois (lines : list string) : list string :=
  match lines with
  | [] => []
  | line :: rest =>
      if negb (is_empty (strip line)) && negb (startswith line "#")
      then strip line :: uploaded_dois rest
      else uploaded_dois rest
  end.

(** [doi_count] *)
Definition doi_count (lines : list string) : Z :=
  Z.of_nat (length (uploaded_dois lines)).

End Routes.


(** * Vocabulary of the statements *)

Module Spec.
Import PyStr OpenAccess.


(** A world with a script of replies and nothing else. *)
Definition world_with (replies : list Reply) : World :=
  mkWorld replies [] ∅ ∅ [] 0.

(** The HTTP errors [_try_core_api] retries. *)
Definition retryable (e : Exc) : bool :=
  match e with
  | HTTPError status _ => (status =? 429) || (status =? 500)
  | _ => false
  end.

(** The delay slept after the failed attempt of index [attempt]. *)
Definition retry_delay (attempt : Z) (e : Exc) : Z :=
  match e with
  | HTTPError status _ =>
      if status =? 429 then base_delay * 2 ^ attempt else 5
  | _ => 5
  end.

Fixpoint retry_delays (attempt : Z) (es : list Exc) : list Z :=
  match es with
  | [] => []
  | e :: es' => retry_delay attempt e :: retry_delays (attempt + 1) es'
  end.

(** The message once the retries are used up. *)
Definition exhausted_message (e : Exc) : string :=
  match e with
  | HTTPError status _ =>
      if status =? 429 then "Rate limit exceeded after 3 retries"
      else "Server error after 3 retries"
  | _ => "Server error after 3 retries"
  end.

Definition search_url : string := core_base_url ++ "/search/works".

(** The world after one answered search request. *)
Definition answered (rest : list Reply) (w : World) : World :=
  set_net (fun _ => rest) (set_requested (fun l => (l ++ [search_url])%list) w).

(** The world after the retried attempts [attempt], [attempt + 1], ...
    answered by the errors [es]. *)
Fixpoint after_retries (attempt : Z) (es : list Exc) (w : World) : World :=
  match es with
  | [] => w
  | e :: es' =>
      after_retries (attempt + 1) es'
        (time_sleep (retry_delay attempt e) (answered (tail (net w)) w))
  end.

(** The priority order of the providers. *)
Definition priority : list Provider := [CORE; ArXiv; NCBI; EuropePMC].

(** One invocation of an adapter: the provider, the arguments it was
    given and the result it returned. *)
Record Call : Type := mkCall {
  provider : Provider;
  call_doi : string;
  call_folder : string;
  outcome : Result
}.

(** Stub providers: any behaviours [beh] over any state, wrapped so that
    every invocation is appended, with its arguments and its result, to
    a trace. *)
Definition traced {S : Type}
    (beh : Provider -> string -> string -> S -> Result * S)
    (p : Provider) (doi output_folder : string)
    (st : S * list Call) : Result * (S * list Call) :=
  let '(r, s') := beh p doi output_folder (fst st) in
  (r, (s', (snd st ++ [mkCall p doi output_folder r])%list)).

(** The failure reason an adapter contributes: the [error] entry of its
    result, and for a result without one the text that stands for it. *)
Definition reason (r : Result) (missing : string) : string :=
  match error r with
  | Some e => e
  | None => missing
  end.

(** The composite message of an identifier no provider resolved: the
    four reasons, each after the name of its provider. *)
Definition composite_error (r1 r2 r3 r4 : Result) : string :=
  "All sources failed - CORE: " ++ reason r1 "CORE API failed"
  ++ "; arXiv: " ++ reason r2 "arXiv API failed"
  ++ "; NCBI: " ++ reason r3 "NCBI API failed"
  ++ "; Europe PMC: " ++ reason r4 "Europe PMC API failed".

(** A stub that fails everywhere except at provider [winner]. *)
Definition stub_only (winner : Provider)
    (p : Provider) (doi output_folder : string) (n : nat) : Result * nat :=
  let ok := match winner, p with
            | CORE, CORE | ArXiv, ArXiv | NCBI, NCBI
            | EuropePMC, EuropePMC => true
            | _, _ => false
            end in
  (if ok
   then mkResult true None (Some doi) (Some (output_folder ++ "/paper.pdf"))
          None [] None None
   else failure "not found in provider" doi,
   S n).

(** A stub that fails everywhere, each provider with a reason of its
    own; the last one returns a failure without any [error] entry. *)
Definition stub_none (p : Provider) (doi output_folder : string) (n : nat)
    : Result * nat :=
  (match p with
   | CORE => failure "Paper not found in CORE database" doi
   | ArXiv => failure "Paper not found in arXiv" doi
   | NCBI => failure "Paper not found in PubMed" doi
   | EuropePMC => mkResult false None (Some doi) None None [] None None
   end,
   S n).

(** A served document: a status 200 answer with one content type and a
    body sent in the given chunks. *)
Definition served (ctype : string) (body : list (list byte)) : Reply :=
  Responds (mkResponse (Some ctype) (inl (OtherException "not JSON")) body
              None).

Definition paper_at (link : string) : Paper :=
  mkPaper (Some link) None (Some "A paper") [] None.

Definition too_small : string :=
  "Downloaded file is empty or too small to be a valid PDF".

Definition too_small_ncbi : string :=
  "Downloaded NCBI file is empty or too small".

(** *** A stub runtime for the batch driver

    The world is the list of the identifiers whose resolution was
    started, in order. *)

Definition resolved_at (doi output_folder : string) : Result :=
  mkResult true None (Some doi) (Some (output_folder ++ "/paper.pdf"))
    None [] (Some "CORE") None.

(** The outcome of a resolution counts as a success when a result was
    returned and its [success] entry is true. *)
Definition succeeded (o : Outcome) : bool :=
  match o with
  | Returned r => success r
  | Raised _ => false
  end.

(** A resolution that succeeds exactly on the identifiers accepted by
    [ok]. *)
Definition stub_resolve (ok : string -> list string -> bool)
    (doi output_folder : string) (attempts : list string)
    : Outcome * list string :=
  (Returned (if ok doi attempts then resolved_at doi output_folder
             else failure "not found in provider" doi),
   (attempts ++ [doi])%list).

Definition stub_sleep (delay : Z) (attempts : list string) : list string :=
  attempts.
Definition stub_read (lines : list string) (doi_file : string)
    (attempts : list string) : list string := lines.
Definition stub_mkdir (folder : string) (attempts : list string)
    : Exc + list string := inr attempts.
Definition stub_now (attempts : list string) : Z := 0.
Definition stub_save (d : Downloader) (attempts : list string)
    : list string := attempts.

(** No observer ever asks to stop. *)
Definition never_stop (ph : Phase) (i : nat) : bool := false.

(** The observer asks to stop during the pacing sleep that follows the
    identifier of index [k]. *)
Definition stop_after (k : nat) (ph : Phase) (i : nat) : bool :=
  match ph with
  | Pacing => Nat.eqb i k
  | Resolving => false
  end.

(** One batch over the lines of an identifier file. *)
Definition run_batch (ok : string -> list string -> bool)
    (stop : Phase -> nat -> bool) (lines : list string)
    (d : Downloader) (attempts : list string)
    : Summary * (Downloader * list string) :=
  download_papers (stub_resolve ok) stub_sleep stop (stub_read lines)
    stub_mkdir stub_now stub_save "dois.txt" "out" d attempts.

(** A freshly constructed downloader with an empty ledger. *)
Definition fresh : Downloader :=
  mkDownloader DownloadProgress_default false ∅ ∅.

(** Every resolution succeeds. *)
Definition always_ok (doi : string) (attempts : list string) : bool := true.

(** The first resolution of an identifier fails, the later ones
    succeed. *)
Definition second_time_ok (doi : string) (attempts : list string) : bool :=
  bool_decide (doi ∈ attempts).

(** Only the given identifier resolves. *)
Definition only_ok (good : string) (doi : string) (attempts : list string)
    : bool := String.eqb doi good.

Definition five_lines : list string :=
  ["10.1000/a1" ++ newline_str; "10.1000/a2" ++ newline_str;
   "10.1000/a3" ++ newline_str; "10.1000/a4" ++ newline_str;
   "10.1000/a5" ++ newline_str].

(** The world after the identifiers [pre] were resolved one after the
    other, each resolution followed by the pacing sleep. *)
Fixpoint paced {W : Type} (resolve : string -> string -> W -> Outcome * W)
    (sleep : Z -> W -> W) (pre : list string) (output_folder : string)
    (w : W) : W :=
  match pre with
  | [] => w
  | doi :: pre' =>
      paced resolve sleep pre' output_folder
        (sleep delay_between_downloads (resolve doi output_folder w).2)
  end.

(** The sum of the two outcome counters. *)
Definition processed (d : Downloader) : Z :=
  downloaded (progress d) + failed (progress d).

(** Every identifier the ledger holds. *)
Definition ledger (d : Downloader) : gset string :=
  downloaded_dois d ∪ failed_dois d.

(** The downloader with which [download_papers] enters the loop. *)
Definition started {W : Type} (now : W -> Z) (dois : list string)
    (output_folder : string) (w : W) (d0 : Downloader) : Downloader :=
  set_progress (with_status "processing")
    (set_stop false
       (set_progress
          (fun _ => mkProgress 0 (Z.of_nat (length dois)) 0 0 0 ""
                      "starting" output_folder (Some (now w))) d0)).

Definition five_dois : list string :=
  ["10.1000/a1"; "10.1000/a2"; "10.1000/a3"; "10.1000/a4"; "10.1000/a5"].

Definition line_a1 : string := "10.1000/a1" ++ newline_str.
Definition line_a2 : string := "10.1000/a2" ++ newline_str.

(** Two batches of the same session over the same lines. *)
Definition two_batches (ok : string -> list string -> bool)
    (lines : list string)
    : (Summary * (Downloader * list string))
      * (Summary * (Downloader * list string)) :=
  let first := run_batch ok never_stop lines fresh [] in
  (first, run_batch ok never_stop lines first.2.1 first.2.2).

(** A downloader whose ledger records one identifier as exhausted. *)
Definition exhausted_a1 : Downloader :=
  mkDownloader DownloadProgress_default false ∅ {["10.1000/a1"]}.

End Spec.

(** * Vocabulary of the further statements *)

Module More.
Import PyStr OpenAccess.

(** The shape of an identifier: [10.], a registrant code of four to nine
    digits, a slash and a suffix, not empty, of the characters of the
    pattern taken without regard to case. *)
Definition doi_shaped (t : string) : Prop :=
  exists reg suf,
    t = "10." ++ reg ++ "/" ++ suf
    /\ (4 <= String.length reg <= 9)%nat
    /\ all_chars Validation.is_digit reg = true
    /\ suf <> EmptyString
    /\ all_chars (Re.ignorecase Validation.doi_suffix_class) suf = true.

(** The file name before [sanitize_filename] considers its length: the
    invalid characters replaced, the dots and spaces at both ends
    removed, and [unnamed_file] if nothing is left. *)
Definition cleaned (filename : string) : string :=
  let s := strip_by (char_in ". ")
             (map_chars (fun c => if Validation.is_invalid_char c
                                  then "_"%char else c) filename) in
  if is_empty s then "unnamed_file" else s.

(** No character of [s] is one of the invalid characters. *)
Definition filesystem_safe (s : string) : bool :=
  all_chars (fun c => negb (Validation.is_invalid_char c)) s.

(** The target path of [_try_download_paper]. *)
Definition paper_path (paper : Paper) (doi output_folder source : string)
    : string :=
  path_join output_folder (paper_filename paper doi source).

(** The target path of [_try_ncbi_download]. *)
Definition ncbi_path (paper_info : PaperInfo) (doi output_folder : string)
    : string :=
  path_join output_folder (ncbi_filename paper_info doi).

(** A stored file that is a document: larger than 1000 bytes, and its
    first 1024 bytes pass the content validation. *)
Definition stored_document (path : string) (w : World) : Prop :=
  exists data,
    fs w !! path = Some data
    /\ 1000 < PyBytes.len data
    /\ _is_valid_pdf (take 1024 data) = true.

(** A body of 1200 bytes that begins with the signature. *)
Definition pdf_body : list byte :=
  (PyBytes.b "%PDF-1.4" ++ repeat "x"%byte 1192)%list.

(** From [w] to [w'] no file but the one at [path] changed, no text
    file changed, nothing was slept, and at most one request was made. *)
Definition only_touches (path : string) (w w' : World) : Prop :=
  (forall q, q <> path -> fs w' !! q = fs w !! q)
  /\ textfiles w' = textfiles w
  /\ slept w' = slept w
  /\ (length (requested w') <= length (requested w) + 1)%nat
  /\ (length (net w) <= length (net w') + 1)%nat.

(** A line [_load_dois] passes over: blank, a comment, or not a valid
    identifier once normalised. *)
Definition ignored_line (line : string) : bool :=
  is_empty (strip line)
  || startswith (strip line) "#"
  || negb (Validation.validate_doi (Validation.normalize_doi (strip line))).

(** The summary of a batch that found nothing to attempt. *)
Definition nothing_to_do : Summary :=
  mkSummary false (Some "No valid DOIs found in file") 0 None None None.

(** An output folder that cannot be made. *)
Definition failing_mkdir (folder : string) (attempts : list string)
    : Exc + list string :=
  inl (OtherException "Permission denied").

(** Identifiers without white space around them, none of them empty. *)
Definition stripped_ids (ids : gset string) : Prop :=
  forall x, x ∈ ids -> strip x = x /\ x <> EmptyString.

(** No line feed and no carriage return occurs in [s]. *)
Definition single_line (s : string) : bool :=
  all_chars (fun c => negb (is_lf c || is_cr c)) s.

(** Identifiers that hold no line break. *)
Definition single_line_ids (ids : gset string) : Prop :=
  forall x, x ∈ ids -> single_line x = true.

(** The elements of a list, each at its first occurrence: the head
    stays, and is removed from what the rest gives. *)
Fixpoint first_occurrences (l : list string) : list string :=
  match l with
  | [] => []
  | x :: l' => x :: filter (fun y => y <> x) (first_occurrences l')
  end.

(** No slash occurs in [s]. *)
Definition slash_free (s : string) : bool :=
  all_chars (fun c => negb (Ascii.eqb c "/")) s.

(** Each element is at most the next one. *)
Fixpoint ascending (l : list string) : Prop :=
  match l with
  | [] => True
  | x :: l' =>
      match l' with
      | [] => True
      | y :: _ => String.leb x y = true
      end /\ ascending l'
  end.

End More.

(** * Properties *)

Import PyStr.

(** ** Identifier normalisation and validation *)

Lemma append_nil_l (t : string) : EmptyString ++ t = t.
Proof. reflexivity. Qed.

Lemma append_cons (c : ascii) (a t : string) :
  String c a ++ t = String c (a ++ t).
Proof. reflexivity. Qed.

Section StripLemmas.
Variable f : ascii -> bool.

Lemma rstrip_by_all (w : string) :
    all_chars f w = true -> rstrip_by f w = EmptyString.
  Proof.
    induction w as [|c w IH]; simpl; [reflexivity|].
    intros H. apply andb_true_iff in H as [Hc Hw].
    rewrite (IH Hw), Hc. reflexivity.
  Qed.

Lemma rstrip_by_app (a t : string) :
    rstrip_by f (a ++ t) =
    match rstrip_by f t with
    | EmptyString => rstrip_by f a
    | String d r => a ++ String d r
    end.
  Proof.
    induction a as [|c a IH].
    - rewrite append_nil_l. destruct (rstrip_by f t); reflexivity.
    - rewrite append_cons. simpl. rewrite IH.
      destruct (rstrip_by f t) as [|d r]; [reflexivity|].
      rewrite append_cons. destruct a; reflexivity.
  Qed.

Lemma rstrip_by_app_ws (s w : string) :
    all_chars f w = true -> rstrip_by f (s ++ w) = rstrip_by f s.
  Proof.
    intros H. rewrite rstrip_by_app, (rstrip_by_all w H). reflexivity.
  Qed.

Lemma lstrip_by_app_ws (w s : string) :
    all_chars f w = true -> lstrip_by f (w ++ s) = lstrip_by f s.
  Proof.
    induction w as [|c w IH]; [reflexivity|].
    rewrite append_cons. simpl.
    intros H. apply andb_true_iff in H as [Hc Hw].
    rewrite Hc. exact (IH Hw).
  Qed.

Lemma strip_by_surrounded (w1 s w2 : string) :
    all_chars f w1 = true -> all_chars f w2 = true ->
    strip_by f (w1 ++ s ++ w2) = strip_by f s.
  Proof.
    intros H1 H2. unfold strip_by.
    rewrite rstrip_by_app, (rstrip_by_app_ws s w2 H2).
    destruct (rstrip_by f s) as [|d r].
    - rewrite (rstrip_by_all w1 H1). reflexivity.
    - apply lstrip_by_app_ws, H1.
  Qed.

Lemma lstrip_by_first (s : string) : first_ok f (lstrip_by f s).
  Proof.
    induction s as [|c s IH]; simpl; [exact I|].
    destruct (f c) eqn:E; [exact IH | exact E].
  Qed.

Lemma rstrip_by_last (s : string) : last_ok f (rstrip_by f s).
  Proof.
    induction s as [|c s IH]; simpl; [exact I|].
    destruct (rstrip_by f s) as [|d r].
    - destruct (f c) eqn:E; simpl; [exact I | exact E].
    - exact IH.
  Qed.

Lemma lstrip_by_last (s : string) : last_ok f s -> last_ok f (lstrip_by f s).
  Proof.
    induction s as [|c s IH]; [trivial|].
    intros H. cbn [lstrip_by]. destruct (f c) eqn:E.
    - apply IH. destruct s; [exact I | exact H].
    - exact H.
  Qed.
End StripLemmas.

Lemma normalize_doi_prefix (p t : string) :
  In p Validation.prefixes ->
  Validation.normalize_doi (p ++ t) =
  strip_by Validation.is_quote (rstrip_by isspace t).
Proof.
  intros Hp. unfold Validation.normalize_doi, strip.
  assert (Hne : is_empty (p ++ t) = false).
  { simpl in Hp. destruct Hp as [<-|[<-|[<-|[<-|[]]]]]; reflexivity. }
  rewrite Hne. unfold strip_by at 2. rewrite rstrip_by_app.
  simpl in Hp.
  destruct (rstrip_by isspace t) as [|d r];
    destruct Hp as [<-|[<-|[<-|[<-|[]]]]]; reflexivity.
Qed.

Lemma normalize_doi_surrounded (w1 s w2 : string) :
  all_chars isspace w1 = true -> all_chars isspace w2 = true ->
  Validation.normalize_doi (w1 ++ s ++ w2) = Validation.normalize_doi s.
Proof.
  intros H1 H2. unfold Validation.normalize_doi, strip.
  rewrite (strip_by_surrounded isspace w1 s w2 H1 H2).
  destruct s as [|c s].
  - rewrite append_nil_l.
    destruct (is_empty (w1 ++ w2)); reflexivity.
  - destruct w1; reflexivity.
Qed.

Lemma remove_first_prefix_last (f : ascii -> bool) (ps : list string)
    (s : string) :
  last_ok f s -> last_ok f (Validation.remove_first_prefix ps s).
Proof.
  assert (Hslice : forall n u, last_ok f u -> last_ok f (slice_from n u)).
  { induction n as [|n IH]; intros u Hu; simpl; [exact Hu|].
    destruct u as [|c u]; [exact I|].
    apply IH. destruct u; [exact I | exact Hu]. }
  induction ps as [|p ps IH]; intros H; simpl; [exact H|].
  destruct (startswith s p); [apply Hslice, H | apply IH, H].
Qed.

Lemma normalize_doi_unquoted (s : string) :
  first_ok Validation.is_quote (Validation.normalize_doi s)
  /\ last_ok Validation.is_quote (Validation.normalize_doi s).
Proof.
  unfold Validation.normalize_doi.
  destruct (is_empty s); [split; exact I|].
  unfold strip_by. split.
  - apply lstrip_by_first.
  - apply lstrip_by_last, rstrip_by_last.
Qed.

Lemma remove_first_prefix_none (ps : list string) (t : string) :
  (forall p, In p ps -> startswith t p = false) ->
  Validation.remove_first_prefix ps t = t.
Proof.
  induction ps as [|p ps IH]; intros H; cbn [Validation.remove_first_prefix];
    [reflexivity|].
  rewrite (H p (or_introl eq_refl)). apply IH.
  intros q Hq. apply H. right. exact Hq.
Qed.

Lemma normalize_doi_bare (s : string) :
  (forall p, In p Validation.prefixes -> startswith (strip s) p = false) ->
  Validation.normalize_doi s = strip_by Validation.is_quote (strip s).
Proof.
  intros H. unfold Validation.normalize_doi.
  destruct s as [|c s]; [reflexivity|]. cbn [is_empty].
  rewrite (remove_first_prefix_none _ _ H). reflexivity.
Qed.

Lemma normalize_doi_prefixed (s p t : string) :
  In p Validation.prefixes -> strip s = p ++ t ->
  Validation.normalize_doi s = strip_by Validation.is_quote t.
Proof.
  intros Hp Hs. unfold Validation.normalize_doi.
  destruct s as [|c s].
  { cbn in Hp. destruct Hp as [<-|[<-|[<-|[<-|[]]]]]; discriminate Hs. }
  cbn [is_empty]. rewrite Hs.
  cbn in Hp. destruct Hp as [<-|[<-|[<-|[<-|[]]]]]; reflexivity.
Qed.

(** C8 (as amended): [normalize_doi] is a total function on strings.
    It removes the white space around its argument, then the first of
    the exact prefixes [doi:], [DOI:], [https://doi.org/] and
    [http://dx.doi.org/] the string starts with (the comparison is case
    sensitive), then the apostrophes and double quotes at both ends of
    what is left.  A string that, once stripped, starts with none of
    the four prefixes as they are written only loses the white space
    and the quotes around it. *)
Theorem normalize_doi_strips :
  (forall w1 s w2,
     all_chars isspace w1 = true -> all_chars isspace w2 = true ->
     Validation.normalize_doi (w1 ++ s ++ w2) = Validation.normalize_doi s)
  /\ (forall p t,
        In p ["doi:"; "DOI:"; "https://doi.org/"; "http://dx.doi.org/"] ->
        Validation.normalize_doi (p ++ t) =
        strip_by Validation.is_quote (rstrip_by isspace t))
  /\ (forall s,
        first_ok Validation.is_quote (Validation.normalize_doi s)
        /\ last_ok Validation.is_quote (Validation.normalize_doi s))
  /\ (forall s, exists r, Validation.normalize_doi s = r)
  /\ Validation.normalize_doi EmptyString = EmptyString
  /\ (forall s p t,
        In p ["doi:"; "DOI:"; "https://doi.org/"; "http://dx.doi.org/"] ->
        strip s = p ++ t ->
        Validation.normalize_doi s = strip_by Validation.is_quote t)
  /\ (forall s,
        (forall p,
           In p ["doi:"; "DOI:"; "https://doi.org/"; "http://dx.doi.org/"] ->
           startswith (strip s) p = false) ->
        Validation.normalize_doi s = strip_by Validation.is_quote (strip s)).
Proof.
  split; [|split; [|split; [|split; [|split; [|split]]]]].
  - exact normalize_doi_surrounded.
  - exact normalize_doi_prefix.
  - exact normalize_doi_unquoted.
  - intros s. exists (Validation.normalize_doi s). reflexivity.
  - reflexivity.
  - exact normalize_doi_prefixed.
  - exact normalize_doi_bare.
Qed.

Lemma normalize_doi_strips_witness :
  Validation.normalize_doi (" " ++ "doi:10.1000/xyz123" ++ newline_str)
  = Validation.normalize_doi "doi:10.1000/xyz123"
  /\ Validation.normalize_doi ("DOI:" ++ "'10.1000/xyz123' ")
     = "10.1000/xyz123"
  /\ Validation.normalize_doi " '10.1000/xyz123' " = "10.1000/xyz123"
  /\ Validation.normalize_doi "Https://doi.org/10.1000/xyz123 "
     = "Https://doi.org/10.1000/xyz123".
Proof.
  destruct normalize_doi_strips as (Hws & Hpre & _ & _ & _ & _ & Hbare).
  split; [|split; [|split]].
  - apply Hws; reflexivity.
  - rewrite (Hpre "DOI:" "'10.1000/xyz123' "); [reflexivity|].
    simpl. auto.
  - rewrite (Hbare " '10.1000/xyz123' "); [reflexivity|].
    intros p [<-|[<-|[<-|[<-|[]]]]]; reflexivity.
  - rewrite (Hbare "Https://doi.org/10.1000/xyz123 "); [reflexivity|].
    intros p [<-|[<-|[<-|[<-|[]]]]]; reflexivity.
Defined.

(** C8 (as stated) fails: the prefixes are compared case sensitively, so
    a resolver URL in capitals is returned unchanged. *)
Lemma normalize_doi_case_sensitive :
  Validation.normalize_doi "HTTPS://DOI.ORG/10.1000/xyz123"
  = "HTTPS://DOI.ORG/10.1000/xyz123"
  /\ Validation.normalize_doi "Doi:10.1000/xyz123" = "Doi:10.1000/xyz123"
  /\ Validation.normalize_doi "https://doi.org/10.1000/xyz123"
     = "10.1000/xyz123".
Proof. repeat split; vm_compute; reflexivity. Qed.

(** C9: the three documented examples of normalisation and validation. *)
Theorem normalize_validate_examples :
  Validation.normalize_doi "https://doi.org/10.1000/xyz123" = "10.1000/xyz123"
  /\ Validation.validate_doi "10.1000/xyz123" = true
  /\ Validation.validate_doi "not-a-doi" = false.
Proof. repeat split; vm_compute; reflexivity. Qed.

(** ** Progress *)

(** C10: [progress_percent] never raises: it is [0.0] when [total] is
    zero and [current / total * 100] otherwise. *)
Theorem progress_percent_total (p : OpenAccess.DownloadProgress) :
  OpenAccess.progress_percent p =
  Some (if OpenAccess.total p =? 0 then 0%Q
        else (inject_Z (OpenAccess.current p)
              / inject_Z (OpenAccess.total p) * 100)%Q)
  /\ OpenAccess.progress_percent OpenAccess.DownloadProgress_default
     = Some 0%Q.
Proof.
  split; [|reflexivity].
  unfold OpenAccess.progress_percent, OpenAccess.py_truediv.
  destruct (OpenAccess.total p =? 0); reflexivity.
Qed.

(** ** Content validation *)












(** ** The rate-limited adapter *)

Import OpenAccess.

Lemma core_attempt_retry (attempt : Z) (doi out : string) (w : World)
    (e : Exc) (rest : list Reply) :
  net w = Raises e :: rest -> Spec.retryable e = true ->
  attempt < max_retries ->
  core_attempt attempt doi out w =
  Continue (time_sleep (Spec.retry_delay attempt e) (Spec.answered rest w)).
Proof.
  intros Hnet Hr Hlt. unfold core_attempt, session_get. rewrite Hnet.
  destruct e as [status text| |]; try discriminate Hr.
  apply Z.ltb_lt in Hlt. simpl in Hr |- *. rewrite Hlt.
  destruct (status =? 429) eqn:E; [reflexivity|].
  simpl in Hr. rewrite Hr. reflexivity.
Qed.

Lemma core_attempt_exhausted (attempt : Z) (doi out : string) (w : World)
    (e : Exc) (rest : list Reply) :
  net w = Raises e :: rest -> Spec.retryable e = true ->
  max_retries <= attempt ->
  core_attempt attempt doi out w =
  Return (failure (Spec.exhausted_message e) doi) (Spec.answered rest w).
Proof.
  intros Hnet Hr Hge. unfold core_attempt, session_get. rewrite Hnet.
  destruct e as [status text| |]; try discriminate Hr.
  apply Z.ltb_ge in Hge. simpl in Hr |- *. rewrite Hge.
  destruct (status =? 429) eqn:E; [reflexivity|].
  simpl in Hr. rewrite Hr. reflexivity.
Qed.

Lemma core_attempt_fatal (attempt : Z) (doi out : string) (w : World)
    (status : Z) (text : string) (rest : list Reply) :
  net w = Raises (HTTPError status text) :: rest ->
  status <> 429 -> status <> 500 ->
  core_attempt attempt doi out w =
  Return (failure ("CORE API HTTP error: " ++ text) doi) (Spec.answered rest w).
Proof.
  intros Hnet H1 H2. unfold core_attempt, session_get. rewrite Hnet.
  apply Z.eqb_neq in H1, H2. simpl. rewrite H1, H2. reflexivity.
Qed.

Lemma after_retries_facts (es : list Exc) :
  forall (a : Z) (w : World) (rest : list Reply),
    net w = (map Raises es ++ rest)%list ->
    net (Spec.after_retries a es w) = rest
    /\ slept (Spec.after_retries a es w)
       = (slept w ++ Spec.retry_delays a es)%list
    /\ fs (Spec.after_retries a es w) = fs w
    /\ length (requested (Spec.after_retries a es w))
       = (length (requested w) + length es)%nat.
Proof.
  induction es as [|e es IH]; intros a w rest Hnet; simpl.
  - rewrite app_nil_r. repeat split; [exact Hnet | lia].
  - simpl in Hnet.
    destruct (IH (a + 1)
                (time_sleep (Spec.retry_delay a e)
                   (Spec.answered (tail (net w)) w)) rest)
      as (H1 & H2 & H3 & H4).
    { rewrite Hnet. reflexivity. }
    rewrite H1, H2, H3, H4. simpl.
    rewrite <- app_assoc, length_app. simpl. repeat split. lia.
Qed.

Lemma core_loop_retries (doi out : string) (es : list Exc) :
  forall (a : nat) (attempts : list Z) (w : World) (rest : list Reply),
    Forall (fun e => Spec.retryable e = true) es ->
    (a + length es <= 3)%nat ->
    net w = (map Raises es ++ rest)%list ->
    core_loop (map Z.of_nat (seq a (length es)) ++ attempts)%list doi out w
    = core_loop attempts doi out (Spec.after_retries (Z.of_nat a) es w).
Proof.
  induction es as [|e es IH]; intros a attempts w rest Hall Hlen Hnet;
    [reflexivity|].
  simpl in Hnet, Hlen. inversion Hall as [|? ? He Hes]; subst.
  cbn [length seq map app core_loop].
  rewrite (core_attempt_retry (Z.of_nat a) doi out w e
             (map Raises es ++ rest)%list Hnet He)
    by (unfold max_retries; lia).
  rewrite (IH (S a) attempts _ rest Hes) by (try lia; reflexivity).
  cbn [Spec.after_retries]. rewrite Hnet. cbn [tail].
  replace (Z.of_nat (S a)) with (Z.of_nat a + 1) by lia. reflexivity.
Qed.

(** C6 (as amended): in [_try_core_api] a 429 answer is retried after
    an exponential backoff ([base_delay * 2 ^ attempt], 10 s, 20 s and
    40 s) and a 500 answer after a fixed 5 s, both at most
    [max_retries = 3] times, after which the adapter fails with
    [Rate limit exceeded after 3 retries], respectively
    [Server error after 3 retries]; every other HTTP error, the other
    5xx statuses included, fails at once with [CORE API HTTP error]
    followed by the detail, without any further wait. *)
Theorem core_api_retry_policy (doi out : string) (w : World)
    (es : list Exc) (rest : list Reply) :
  Forall (fun e => Spec.retryable e = true) es ->
  (forall e,
     length es = 3%nat -> Spec.retryable e = true ->
     net w = (map Raises es ++ Raises e :: rest)%list ->
     exists w',
       _try_core_api doi out w
       = (Some (failure (Spec.exhausted_message e) doi), w')
       /\ slept w' = (slept w ++ Spec.retry_delays 0 es)%list
       /\ net w' = rest /\ fs w' = fs w
       /\ length (requested w') = (length (requested w) + 4)%nat)
  /\ (forall status text,
        (length es <= 3)%nat -> status <> 429 -> status <> 500 ->
        net w = (map Raises es ++ Raises (HTTPError status text) :: rest)%list ->
        exists w',
          _try_core_api doi out w
          = (Some (failure ("CORE API HTTP error: " ++ text) doi), w')
          /\ slept w' = (slept w ++ Spec.retry_delays 0 es)%list
          /\ net w' = rest /\ fs w' = fs w
          /\ length (requested w')
             = (length (requested w) + length es + 1)%nat)
  /\ (forall t1 t2 t3,
        Spec.retry_delays 0
          [HTTPError 429 t1; HTTPError 429 t2; HTTPError 429 t3]
        = [10; 20; 40])
  /\ (forall t1 t2 t3,
        Spec.retry_delays 0
          [HTTPError 500 t1; HTTPError 500 t2; HTTPError 500 t3]
        = [5; 5; 5]).
Proof.
  intros Hall. split; [|split; [|split; reflexivity]].
  - intros e Hlen He Hnet.
    destruct (after_retries_facts es 0 w (Raises e :: rest) Hnet)
      as (H1 & H2 & H3 & H4).
    exists (Spec.answered rest (Spec.after_retries 0 es w)).
    split.
    + unfold _try_core_api.
      change (range (max_retries + 1))
        with (map Z.of_nat (seq 0 3) ++ [3])%list.
      rewrite <- Hlen.
      rewrite (core_loop_retries doi out es 0 [3] w (Raises e :: rest))
        by (try assumption; lia).
      cbn [core_loop]. change (Z.of_nat 0) with 0.
      rewrite (core_attempt_exhausted 3 doi out _ e rest H1 He)
        by (unfold max_retries; lia).
      reflexivity.
    + cbn. rewrite length_app, H2, H3, H4, Hlen. cbn.
      repeat split; lia.
  - intros status text Hlen Hs1 Hs2 Hnet.
    destruct (after_retries_facts es 0 w
                (Raises (HTTPError status text) :: rest) Hnet)
      as (H1 & H2 & H3 & H4).
    exists (Spec.answered rest (Spec.after_retries 0 es w)).
    split.
    + unfold _try_core_api.
      assert (Hrange : range (max_retries + 1)
                = (map Z.of_nat (seq 0 (length es))
                   ++ Z.of_nat (length es)
                      :: map Z.of_nat (seq (S (length es)) (3 - length es)))%list).
      { destruct (length es) as [|[|[|[|n]]]]; try lia; reflexivity. }
      rewrite Hrange.
      rewrite (core_loop_retries doi out es 0 _ w
                 (Raises (HTTPError status text) :: rest))
        by (try assumption; lia).
      cbn [core_loop]. change (Z.of_nat 0) with 0.
      rewrite (core_attempt_fatal _ doi out _ status text rest H1 Hs1 Hs2).
      reflexivity.
    + cbn. rewrite length_app, H2, H3, H4. cbn. repeat split; lia.
Qed.

Lemma core_api_retry_policy_witness :
  exists w',
    _try_core_api "10.1000/xyz123" "out"
      (Spec.world_with
         [Raises (HTTPError 429 "429"); Raises (HTTPError 500 "500");
          Raises (HTTPError 429 "429"); Raises (HTTPError 429 "429")])
    = (Some (failure "Rate limit exceeded after 3 retries" "10.1000/xyz123"),
       w')
    /\ slept w' = [10; 5; 40].
Proof.
  destruct (core_api_retry_policy "10.1000/xyz123" "out"
              (Spec.world_with
                 [Raises (HTTPError 429 "429"); Raises (HTTPError 500 "500");
                  Raises (HTTPError 429 "429"); Raises (HTTPError 429 "429")])
              [HTTPError 429 "429"; HTTPError 500 "500"; HTTPError 429 "429"]
              [])
    as [Hex _].
  { repeat constructor. }
  destruct (Hex (HTTPError 429 "429") eq_refl eq_refl eq_refl)
    as (w' & Hrun & Hslept & _).
  exists w'. split; [exact Hrun | exact Hslept].
Defined.

(** C6 (as stated) fails: of the server-side errors only the status 500
    is retried; a 503 answer fails at once, nothing is slept and the
    next answer of the server is never asked for. *)
Lemma core_api_503_not_retried :
  exists w',
    _try_core_api "10.1000/xyz123" "out"
      (Spec.world_with
         [Raises (HTTPError 503 "503 Server Error: Service Unavailable");
          Raises (HTTPError 503 "503 Server Error: Service Unavailable")])
    = (Some (failure "CORE API HTTP error: 503 Server Error: Service Unavailable"
               "10.1000/xyz123"), w')
    /\ slept w' = []
    /\ length (requested w') = 1%nat
    /\ length (net w') = 1%nat.
Proof.
  eexists. split; [vm_compute; reflexivity|].
  repeat split.
Qed.

(** ** The fallback chain *)

Ltac chain_case :=
  repeat split;
  try lia; try reflexivity;
  try solve [repeat constructor; assumption];
  try (intros; congruence).

(** C1: [_download_single_paper] invokes the adapters in the order CORE,
    arXiv, NCBI, Europe PMC, each with the identifier and the output
    folder it was given; it stops at the first adapter that succeeds and
    returns that adapter's result; when all four fail it returns a
    failure whose message gives, each after the name of its provider,
    the four failure reasons.  The adapters are any stubs, their
    invocations traced. *)
Theorem fallback_order (S : Type)
    (beh : Provider -> string -> string -> S -> Result * S)
    (doi out : string) (s : S) :
  exists (k : nat) (r : Result) (s' : S) (trace : list Spec.Call),
    _download_single_paper (Spec.traced beh) doi out (s, []) = (r, (s', trace))
    /\ (1 <= k <= 4)%nat
    /\ map Spec.provider trace = take k Spec.priority
    /\ Forall (fun c => Spec.call_doi c = doi /\ Spec.call_folder c = out)
         trace
    /\ Forall (fun c => success (Spec.outcome c) = false) (removelast trace)
    /\ (success r = true -> Spec.outcome <$> last trace = Some r)
    /\ (success r = false ->
        exists r1 r2 r3 r4,
          trace = [Spec.mkCall CORE doi out r1; Spec.mkCall ArXiv doi out r2;
                   Spec.mkCall NCBI doi out r3;
                   Spec.mkCall EuropePMC doi out r4]
          /\ success r1 = false /\ success r2 = false
          /\ success r3 = false /\ success r4 = false
          /\ r = failure (Spec.composite_error r1 r2 r3 r4) doi
          /\ (forall e1 e2 e3 e4,
                error r1 = Some e1 -> error r2 = Some e2 ->
                error r3 = Some e3 -> error r4 = Some e4 ->
                error r = Some ("All sources failed - CORE: " ++ e1
                                ++ "; arXiv: " ++ e2
                                ++ "; NCBI: " ++ e3
                                ++ "; Europe PMC: " ++ e4))).
Proof.
  unfold _download_single_paper, Spec.traced. cbn [fst snd app].
  destruct (beh CORE doi out s) as [r1 s1] eqn:E1.
  destruct (success r1) eqn:S1.
  { exists 1%nat, r1, s1, [Spec.mkCall CORE doi out r1]. cbn.
    chain_case. }
  cbn [fst snd app].
  destruct (beh ArXiv doi out s1) as [r2 s2] eqn:E2.
  destruct (success r2) eqn:S2.
  { exists 2%nat, r2, s2,
      [Spec.mkCall CORE doi out r1; Spec.mkCall ArXiv doi out r2]. cbn.
    chain_case. }
  cbn [fst snd app].
  destruct (beh NCBI doi out s2) as [r3 s3] eqn:E3.
  destruct (success r3) eqn:S3.
  { exists 3%nat, r3, s3,
      [Spec.mkCall CORE doi out r1; Spec.mkCall ArXiv doi out r2;
       Spec.mkCall NCBI doi out r3]. cbn.
    chain_case. }
  cbn [fst snd app].
  destruct (beh EuropePMC doi out s3) as [r4 s4] eqn:E4.
  destruct (success r4) eqn:S4.
  { exists 4%nat, r4, s4,
      [Spec.mkCall CORE doi out r1; Spec.mkCall ArXiv doi out r2;
       Spec.mkCall NCBI doi out r3; Spec.mkCall EuropePMC doi out r4]. cbn.
    chain_case. }
  exists 4%nat, (failure (Spec.composite_error r1 r2 r3 r4) doi), s4,
    [Spec.mkCall CORE doi out r1; Spec.mkCall ArXiv doi out r2;
     Spec.mkCall NCBI doi out r3; Spec.mkCall EuropePMC doi out r4].
  split; [reflexivity|]. split; [lia|]. split; [reflexivity|].
  split; [repeat constructor|].
  split; [repeat constructor; assumption|].
  split; [discriminate|].
  intros _. exists r1, r2, r3, r4.
  split; [reflexivity|]. repeat (split; [assumption|]).
  split; [reflexivity|].
  intros e1 e2 e3 e4 H1 H2 H3 H4. cbn [error failure].
  unfold Spec.composite_error, Spec.reason. rewrite H1, H2, H3, H4.
  reflexivity.
Qed.

(** The documented checks of the chain: with only the third stub
    succeeding exactly the first three are invoked, with the first stub
    succeeding no other is; and with no stub succeeding all four are
    invoked and the message quotes each reason after its provider, with
    the text standing for the reason the last stub did not give. *)
Lemma fallback_order_witness :
  (exists r n,
     _download_single_paper (Spec.traced (Spec.stub_only NCBI))
       "10.1000/xyz123" "out" (0%nat, [])
     = (r, (n, [Spec.mkCall CORE "10.1000/xyz123" "out"
                  (failure "not found in provider" "10.1000/xyz123");
                Spec.mkCall ArXiv "10.1000/xyz123" "out"
                  (failure "not found in provider" "10.1000/xyz123");
                Spec.mkCall NCBI "10.1000/xyz123" "out" r]))
     /\ success r = true /\ n = 3%nat)
  /\ (exists r,
        _download_single_paper (Spec.traced (Spec.stub_only CORE))
          "10.1000/xyz123" "out" (0%nat, [])
        = (r, (1%nat, [Spec.mkCall CORE "10.1000/xyz123" "out" r]))
        /\ success r = true)
  /\ (exists trace,
        _download_single_paper (Spec.traced Spec.stub_none)
          "10.1000/xyz123" "out" (0%nat, [])
        = (failure
             "All sources failed - CORE: Paper not found in CORE database; arXiv: Paper not found in arXiv; NCBI: Paper not found in PubMed; Europe PMC: Europe PMC API failed"
             "10.1000/xyz123", (4%nat, trace))
        /\ map Spec.provider trace = [CORE; ArXiv; NCBI; EuropePMC]).
Proof.
  split; [|split].
  - destruct (fallback_order nat (Spec.stub_only NCBI) "10.1000/xyz123" "out"
                0%nat) as (k & r & n & trace & Hrun & _).
    vm_compute in Hrun. injection Hrun as <- <- <-.
    eexists _, _. split; [vm_compute; reflexivity|]. split; reflexivity.
  - destruct (fallback_order nat (Spec.stub_only CORE) "10.1000/xyz123" "out"
                0%nat) as (k & r & n & trace & Hrun & _).
    vm_compute in Hrun. injection Hrun as <- <- <-.
    eexists. split; [vm_compute; reflexivity|]. reflexivity.
  - destruct (fallback_order nat Spec.stub_none "10.1000/xyz123" "out"
                0%nat) as (k & r & n & trace & Hrun & _ & _ & _ & _ & _ & Hall).
    exists trace. rewrite Hrun.
    destruct Hall as (r1 & r2 & r3 & r4 & Ht & _ & _ & _ & _ & Hr & _).
    { vm_compute in Hrun. injection Hrun as <- _ _. reflexivity. }
    vm_compute in Hrun. injection Hrun as <- <- <-.
    split; reflexivity.
Defined.

(** ** Cleaning up after a failed fetch *)

(** C4 fails on the code: a body that passes the content validation but
    is not larger than 1000 bytes is reported as a failure and its file
    is left at the target path, in [_try_download_paper] and in
    [_try_ncbi_download] alike; the target path was free before. *)
Theorem too_small_file_is_left :
  (let w := Spec.world_with
              [Spec.served "application/pdf" [PyBytes.b "%PDF-1.4"]] in
   let path := "out/A_paper_10.1000_xyz123_CORE.pdf" in
   let '(r, w') :=
     _try_download_paper (Spec.paper_at "https://example.org/a.pdf")
       "10.1000/xyz123" "out" "CORE" w in
   fs w !! path = None
   /\ r = failure Spec.too_small "10.1000/xyz123"
   /\ fs w' !! path = Some (PyBytes.b "%PDF-1.4"))
  /\ (let w := Spec.world_with
                 [Spec.served "application/pdf" [PyBytes.b "%PDF-1.4"]] in
      let path := "out/A_paper_123_10.1000_xyz123_NCBI.pdf" in
      let '(r, w') :=
        _try_ncbi_download
          (mkLinkInfo (Some "https://example.org/a.pdf") (Some "PMC"))
          "10.1000/xyz123" "out"
          (mkPaperInfo (Some "A paper") [] (Some "123")) w in
      fs w !! path = None
      /\ r = failure Spec.too_small_ncbi "10.1000/xyz123"
      /\ fs w' !! path = Some (PyBytes.b "%PDF-1.4")).
Proof. split; vm_compute; repeat split. Qed.

Lemma cleanup_absent (p : string) (w : World) : fs (cleanup p w) !! p = None.
Proof.
  unfold cleanup, exists_file.
  destruct (fs w !! p) eqn:E; [|exact E].
  cbn. apply lookup_delete_eq.
Qed.

Lemma session_get_fs (u : string) (w w1 : World) (reply : Reply) :
  session_get u w = (reply, w1) -> fs w1 = fs w.
Proof.
  unfold session_get. destruct (net w); intros H; inversion H; reflexivity.
Qed.

(** What does hold of C4: from a free target path, every failure of
    [_try_download_paper] other than the too-small one leaves no file
    at the target path. *)
Lemma download_paper_cleanup (paper : Paper) (doi out source : string)
    (w w' : World) (r : Result) :
  fs w !! path_join out (paper_filename paper doi source) = None ->
  _try_download_paper paper doi out source w = (r, w') ->
  success r = false -> error r <> Some Spec.too_small ->
  fs w' !! path_join out (paper_filename paper doi source) = None.
Proof.
  intros Hfree Hrun Hfail Hmsg. unfold _try_download_paper in Hrun.
  destruct (negb (truthy (paper_url paper))).
  { inversion Hrun; subst. exact Hfree. }
  destruct (session_get _ w) as [reply w1] eqn:Hget.
  pose proof (session_get_fs _ _ _ _ Hget) as Hfs1.
  destruct reply as [e|resp].
  { inversion Hrun; subst. apply cleanup_absent. }
  destruct (contains _ "text/html" || contains _ "text/plain").
  { inversion Hrun; subst. rewrite Hfs1. exact Hfree. }
  destruct (store_body _ resp w1) as [[e|content] w2].
  { inversion Hrun; subst. apply cleanup_absent. }
  destruct (negb (_is_valid_pdf (take 1024 content))).
  { inversion Hrun; subst. apply cleanup_absent. }
  destruct (exists_file _ w2 && (st_size _ w2 >? 1000)).
  - inversion Hrun; subst. discriminate Hfail.
  - inversion Hrun; subst. exfalso. apply Hmsg. reflexivity.
Qed.

(** ** The batch driver *)

Section BatchFacts.
Context {W : Type}.
Variable resolve : string -> string -> W -> Outcome * W.
Variable sleep : Z -> W -> W.
Variable stop_request : Phase -> nat -> bool.


  (** What one turn of the loop does to the downloader. *)
Lemma process_one_facts (n : Z) (i : nat) (doi out : string)
      (d d' : Downloader) (w w' : W) :
    process_one resolve sleep stop_request n i doi out d w = (d', w') ->
    skipped (progress d') = skipped (progress d)
    /\ current (progress d') = Z.of_nat i + 1
    /\ downloaded (progress d') + failed (progress d')
       = downloaded (progress d) + failed (progress d) + 1
    /\ downloaded_dois d ⊆ downloaded_dois d'
    /\ failed_dois d ⊆ failed_dois d'
    /\ downloaded_dois d' ∪ failed_dois d'
       ⊆ downloaded_dois d ∪ failed_dois d ∪ {[doi]}
    /\ (stop_flag d = false ->
        stop_flag d' = stop_request Resolving i
                       || (Z.of_nat i <? n - 1) && stop_request Pacing i).
  Proof.
    unfold process_one, observe. intros H.
    destruct (resolve doi out w) as [outcome w1].
    destruct outcome as [r|e]; [destruct (success r)|];
      destruct (stop_request Resolving i), (stop_request Pacing i),
        (Z.of_nat i <? n - 1); cbn in H;
      try (destruct (stop_flag d) eqn:Ef; cbn in H);
      injection H as <- <-; cbn.
    all: repeat split; try lia.
    all: try first [ reflexivity | apply union_subseteq_l ].
    all: try (intros Hf; first [discriminate Hf | reflexivity | exact Hf]).
    all: set_solver.
  Qed.

  (** The world after one turn: the resolution ran, and the pacing sleep
      too unless a stop request came in meanwhile or the identifier was
      the last one. *)
Lemma process_one_world (n : Z) (i : nat) (doi out : string)
      (d : Downloader) (w : W) :
    stop_flag d = false ->
    (process_one resolve sleep stop_request n i doi out d w).2 =
    if negb (stop_request Resolving i) && (Z.of_nat i <? n - 1)
    then sleep delay_between_downloads (resolve doi out w).2
    else (resolve doi out w).2.
  Proof.
    unfold process_one, observe. intros Ef.
    destruct (resolve doi out w) as [outcome w1].
    destruct (stop_request Resolving i), (Z.of_nat i <? n - 1),
      outcome as [r|e]; try destruct (success r);
      cbn; rewrite ?Ef; reflexivity.
  Qed.

  (** Once the flag is set the loop starts nothing any more. *)
Lemma process_loop_stopped (n : Z) (i : nat) (rest : list string)
      (out : string) (d : Downloader) (w : W) :
    stop_flag d = true -> process_loop resolve sleep stop_request n i rest out d w = (d, w).
  Proof. intros H. destruct rest; cbn; rewrite ?H; reflexivity. Qed.

  (** The loop never touches the skipped counter and only adds to the
      two ledger sets, and only identifiers of its list. *)
Lemma process_loop_facts (n : Z) (out : string) (rest : list string) :
    forall (i : nat) (d d' : Downloader) (w w' : W),
      process_loop resolve sleep stop_request n i rest out d w = (d', w') ->
      skipped (progress d') = skipped (progress d)
      /\ downloaded_dois d ⊆ downloaded_dois d'
      /\ failed_dois d ⊆ failed_dois d'
      /\ downloaded_dois d' ∪ failed_dois d'
         ⊆ downloaded_dois d ∪ failed_dois d ∪ list_to_set rest.
  Proof.
    induction rest as [|doi rest IH]; intros i d d' w w' H; cbn in H.
    - injection H as <- <-. repeat split; set_solver.
    - destruct (stop_flag d).
      + injection H as <- <-. repeat split; set_solver.
      + destruct (process_one resolve sleep stop_request n i doi out d w) as [d1 w1] eqn:E1.
        apply process_one_facts in E1 as (Hs & _ & _ & Hd & Hf & Hu & _).
        apply IH in H as (Hs' & Hd' & Hf' & Hu').
        split; [congruence|].
        split; [etransitivity; eassumption|].
        split; [etransitivity; eassumption|].
        clear -Hu Hu'. set_solver.
  Qed.
End BatchFacts.

Section StopFacts.
Context {W : Type}.
Variable resolve : string -> string -> W -> Outcome * W.
Variable sleep : Z -> W -> W.
Variable stop_request : Phase -> nat -> bool.


  (** As long as no stop request comes in, the loop goes through the
      identifiers one by one. *)
Lemma process_loop_running (n : Z) (out : string) (pre : list string) :
    forall (i : nat) (rest : list string) (d : Downloader) (w : W),
      stop_flag d = false ->
      (forall ph j, (i <= j < i + length pre)%nat ->
                    stop_request ph j = false) ->
      Z.of_nat (i + length pre) <= n - 1 ->
      exists d1,
        process_loop resolve sleep stop_request n i (pre ++ rest)%list out d w
        = process_loop resolve sleep stop_request n (i + length pre) rest out d1
            (Spec.paced resolve sleep pre out w)
        /\ stop_flag d1 = false
        /\ skipped (progress d1) = skipped (progress d)
        /\ Spec.processed d1 = Spec.processed d + Z.of_nat (length pre)
        /\ (pre <> [] ->
            current (progress d1) = Z.of_nat (i + length pre))
        /\ (pre = [] -> d1 = d)
        /\ Spec.ledger d1 ⊆ Spec.ledger d ∪ list_to_set pre.
  Proof.
    unfold Spec.processed, Spec.ledger.
    induction pre as [|doi pre IH]; intros i rest d w Hf Hq Hn.
    - exists d. cbn. rewrite Nat.add_0_r.
      repeat split; try lia; try congruence. set_solver.
    - cbn [app process_loop]. rewrite Hf.
      pose proof (process_one_world resolve sleep stop_request n i doi out
                    d w Hf) as Hw.
      destruct (process_one resolve sleep stop_request n i doi out d w) as [d1 w1] eqn:E1.
      apply process_one_facts in E1
        as (Hs & Hc & Hp & _ & _ & Hu & Hflag).
      specialize (Hflag Hf).
      cbn [length] in Hq, Hn.
      rewrite (Hq Resolving i), (Hq Pacing i) in Hflag by lia.
      rewrite (Hq Resolving i) in Hw by lia.
      assert (Hlt : (Z.of_nat i <? n - 1) = true) by (apply Z.ltb_lt; lia).
      rewrite Hlt in Hflag, Hw. cbn in Hflag, Hw. subst w1.
      destruct (IH (S i) rest d1
                  (sleep delay_between_downloads (resolve doi out w).2))
        as (d2 & Hrun & Hf2 & Hs2 & Hp2 & Hc2 & He2 & Hu2).
      { exact Hflag. }
      { intros ph j Hj. apply Hq. lia. }
      { lia. }
      exists d2. cbn [length Spec.paced].
      replace (i + S (length pre))%nat with (S i + length pre)%nat by lia.
      split; [exact Hrun|]. split; [exact Hf2|].
      split; [congruence|]. split; [lia|].
      split.
      { intros _. destruct pre as [|y pre].
        - rewrite (He2 eq_refl). cbn. lia.
        - apply Hc2. discriminate. }
      split; [discriminate|].
      clear -Hu Hu2. set_solver.
  Qed.

  (** The turn during which the stop request comes in is the last. *)
Lemma process_loop_stop_at (n : Z) (out : string) (i : nat)
      (doi : string) (post : list string) (d : Downloader) (w : W) :
    stop_flag d = false ->
    stop_request Resolving i = true \/ stop_request Pacing i = true ->
    Z.of_nat i < n - 1 ->
    exists d1,
      process_loop resolve sleep stop_request n i (doi :: post) out d w
      = (d1, if stop_request Resolving i then (resolve doi out w).2
             else sleep delay_between_downloads (resolve doi out w).2)
      /\ stop_flag d1 = true
      /\ skipped (progress d1) = skipped (progress d)
      /\ Spec.processed d1 = Spec.processed d + 1
      /\ current (progress d1) = Z.of_nat i + 1
      /\ Spec.ledger d1 ⊆ Spec.ledger d ∪ {[doi]}.
  Proof.
    unfold Spec.processed, Spec.ledger. intros Hf Hstop Hlt.
    cbn [process_loop]. rewrite Hf.
    pose proof (process_one_world resolve sleep stop_request n i doi out
                  d w Hf) as Hw.
    destruct (process_one resolve sleep stop_request n i doi out d w) as [d1 w1] eqn:E1.
    apply process_one_facts in E1 as (Hs & Hc & Hp & _ & _ & Hu & Hflag).
    specialize (Hflag Hf). apply Z.ltb_lt in Hlt. rewrite Hlt in Hflag, Hw.
    cbn in Hw. subst w1.
    assert (Hset : stop_flag d1 = true).
    { rewrite Hflag. destruct Hstop as [-> | ->];
        [reflexivity | apply orb_true_r]. }
    exists d1. rewrite (process_loop_stopped _ _ _ _ _ _ _ _ _ Hset).
    split.
    { destruct (stop_request Resolving i); reflexivity. }
    repeat split; try assumption; lia.
  Qed.
End StopFacts.

Lemma load_lines_facts (lines : list string) :
  forall (acc dois : list string) (d d' : Downloader),
    load_lines lines acc d = (dois, d') ->
    stop_flag d' = stop_flag d
    /\ downloaded_dois d' = downloaded_dois d
    /\ failed_dois d' = failed_dois d
    /\ skipped (progress d) <= skipped (progress d')
    /\ (forall x, x ∈ dois -> x ∈ acc \/ x ∉ downloaded_dois d).
Proof.
  induction lines as [|line lines IH]; intros acc dois d d' H;
    cbn [load_lines] in H.
  - injection H as <- <-. repeat split; try lia. intros x Hx. left. exact Hx.
  - destruct (negb _ && negb _); [|exact (IH _ _ _ _ H)].
    destruct (Validation.validate_doi _); [|exact (IH _ _ _ _ H)].
    destruct (bool_decide _) eqn:Ein.
    + apply IH in H as (H1 & H2 & H3 & H4 & H5). cbn in *.
      repeat split; try assumption. lia.
    + apply IH in H as (H1 & H2 & H3 & H4 & H5).
      repeat split; try assumption.
      intros x Hx. destruct (H5 x Hx) as [Hacc | Hn]; [|right; exact Hn].
      apply elem_of_app in Hacc as [Hacc | Hnew]; [left; exact Hacc|].
      right. apply list_elem_of_singleton in Hnew. subst x.
      apply bool_decide_eq_false in Ein. exact Ein.
Qed.

Section DriverFacts.
Context {W : Type}.
Variable resolve : string -> string -> W -> Outcome * W.
Variable sleep : Z -> W -> W.
Variable stop_request : Phase -> nat -> bool.
Variable read_lines : string -> W -> list string.
Variable mkdir : string -> W -> Exc + W.
Variable now : W -> Z.
Variable save_tracking : Downloader -> W -> W.

  (** [download_papers] on a list that is not empty, in a folder that
      can be made. *)
Lemma download_papers_run (doi_file out : string) (d d0 d2 : Downloader)
      (w w0 w2 : W) (dois : list string) :
    _load_dois read_lines doi_file d w = (dois, d0) ->
    dois <> [] ->
    mkdir out w = inr w0 ->
    process_loop resolve sleep stop_request (Z.of_nat (length dois)) 0 dois
      out (Spec.started now dois out w d0) w0 = (d2, w2) ->
    download_papers resolve sleep stop_request read_lines mkdir now
      save_tracking doi_file out d w =
    (mkSummary true None (Z.of_nat (length dois))
       (Some (downloaded (progress d2))) (Some (failed (progress d2)))
       (Some (skipped (progress d2))),
     (set_progress
        (with_status (if negb (stop_flag d2) then "completed" else "stopped"))
        d2,
      save_tracking d2 w2)).
  Proof.
    intros Hload Hne Hmk Hloop. unfold download_papers. rewrite Hload.
    destruct dois as [|y ys] eqn:Ed; [congruence|]. rewrite <- Ed in *.
    rewrite Hmk. unfold _process_dois. fold (Spec.started now dois out w d0).
    rewrite Hloop. reflexivity.
  Qed.
End DriverFacts.

Section TotalFacts.
Context {W : Type}.
Variable resolve : string -> string -> W -> Outcome * W.
Variable sleep : Z -> W -> W.
Variable stop_request : Phase -> nat -> bool.

Lemma process_one_total (n : Z) (i : nat) (doi out : string)
      (d : Downloader) (w : W) :
    total (progress (process_one resolve sleep stop_request n i doi out d w).1)
    = total (progress d).
  Proof.
    unfold process_one, observe.
    destruct (resolve doi out w) as [outcome w1].
    destruct outcome as [r|e]; [destruct (success r)|];
      destruct (stop_request Resolving i), (stop_request Pacing i),
        (Z.of_nat i <? n - 1); cbn;
      try (destruct (stop_flag d); cbn); reflexivity.
  Qed.

Lemma process_loop_total (n : Z) (out : string) (rest : list string) :
    forall (i : nat) (d d' : Downloader) (w w' : W),
      process_loop resolve sleep stop_request n i rest out d w = (d', w') ->
      total (progress d') = total (progress d).
  Proof.
    induction rest as [|doi rest IH]; intros i d d' w w' H; cbn in H.
    - injection H as <- <-. reflexivity.
    - destruct (stop_flag d); [injection H as <- <-; reflexivity|].
      pose proof (process_one_total n i doi out d w) as Ht.
      destruct (process_one resolve sleep stop_request n i doi out d w)
        as [d1 w1].
      apply IH in H. cbn in Ht. congruence.
  Qed.
End TotalFacts.

Section StopSemantics.
Context {W : Type}.
Variable resolve : string -> string -> W -> Outcome * W.
Variable sleep : Z -> W -> W.
Variable stop_request : Phase -> nat -> bool.
Variable read_lines : string -> W -> list string.
Variable mkdir : string -> W -> Exc + W.
Variable now : W -> Z.
Variable save_tracking : Downloader -> W -> W.

  (** C7: the stop flag is tested before each identifier.  When the
      first stop request comes in while the identifier of index [k] is
      being resolved, or during the pacing sleep that follows it, and
      identifiers remain after it, the batch ends in status [stopped]
      with exactly [k + 1] identifiers processed: the resolutions run are
      those of the first [k + 1] identifiers, the two outcome counters
      add up to [k + 1], nothing is counted as skipped, and the ledger
      gains no other identifier. *)
Theorem stop_semantics (doi_file out : string) (d d0 : Downloader)
      (w w0 : W) (dois : list string) (k : nat) :
    _load_dois read_lines doi_file d w = (dois, d0) ->
    mkdir out w = inr w0 ->
    (k + 1 < length dois)%nat ->
    (forall ph j, (j < k)%nat -> stop_request ph j = false) ->
    stop_request Resolving k = true \/ stop_request Pacing k = true ->
    exists summary d' dx doi,
      dois !! k = Some doi
      /\ download_papers resolve sleep stop_request read_lines mkdir now
           save_tracking doi_file out d w
         = (summary,
            (d',
             save_tracking dx
               (let wk := (resolve doi out
                             (Spec.paced resolve sleep (take k dois) out w0)).2
                in if stop_request Resolving k then wk
                   else sleep delay_between_downloads wk)))
      /\ status (progress d') = "stopped"
      /\ current (progress d') = Z.of_nat k + 1
      /\ total (progress d') = Z.of_nat (length dois)
      /\ Spec.processed d' = Z.of_nat k + 1
      /\ skipped (progress d') = 0
      /\ sum_success summary = true
      /\ total_requested summary = Z.of_nat (length dois)
      /\ sum_downloaded summary = Some (downloaded (progress d'))
      /\ sum_failed summary = Some (failed (progress d'))
      /\ sum_skipped summary = Some 0
      /\ Spec.ledger d' ⊆ Spec.ledger d ∪ list_to_set (take (k + 1) dois).
  Proof.
    intros Hload Hmk Hlen Hquiet Hstop.
    destruct (lookup_lt_is_Some_2 dois k) as [doi Hk]; [lia|].
    pose proof (take_drop_middle dois k doi Hk) as Hsplit.
    assert (Hpre : length (take k dois) = k) by (rewrite length_take; lia).
    apply load_lines_facts in Hload as Hl.
    destruct Hl as (_ & Hld & Hlf & _ & _).
    set (ds := Spec.started now dois out w d0).
    destruct (process_loop_running resolve sleep stop_request
                (Z.of_nat (length dois)) out (take k dois) 0
                (doi :: drop (S k) dois) ds w0)
      as (d1 & Hrun & Hf1 & Hs1 & Hp1 & _ & _ & Hu1).
    { reflexivity. }
    { intros ph j Hj. apply Hquiet. lia. }
    { lia. }
    rewrite Hsplit, Hpre in Hrun. cbn [Nat.add] in Hrun.
    destruct (process_loop_stop_at resolve sleep stop_request
                (Z.of_nat (length dois)) out k doi (drop (S k) dois) d1
                (Spec.paced resolve sleep (take k dois) out w0))
      as (d2 & Hend & Hf2 & Hs2 & Hp2 & Hc2 & Hu2).
    { exact Hf1. }
    { exact Hstop. }
    { lia. }
    rewrite Hend in Hrun.
    assert (Hne : dois <> []) by (intros ->; cbn in Hlen; lia).
    pose proof (download_papers_run resolve sleep stop_request read_lines
                  mkdir now save_tracking doi_file out d d0 d2 w w0 _ dois
                  Hload Hne Hmk Hrun) as Hbatch.
    eexists _, _, d2, doi. split; [exact Hk|].
    split; [exact Hbatch|].
    assert (Htot : total (progress d2) = Z.of_nat (length dois)).
    { exact (process_loop_total resolve sleep stop_request _ out dois 0
               ds d2 w0 _ Hrun). }
    unfold Spec.processed, Spec.ledger in *. cbn. rewrite Hf2. cbn.
    rewrite Hs2, Hs1, Hp2, Hp1, Hpre in *. cbn.
    repeat split; try lia; try congruence.
    replace (k + 1)%nat with (S k) by lia.
    rewrite (take_S_r dois k doi Hk), list_to_set_app_L.
    clear -Hu1 Hu2 Hld Hlf. cbn in Hu1. set_solver.
  Qed.
End StopSemantics.

Lemma not_elem_of_computed (x : string) (X : gset string) :
  bool_decide (x ∈ X) = false -> x ∉ X.
Proof. apply bool_decide_eq_false_1. Qed.

(** The documented check of the stop semantics: five identifiers, the
    stop request coming in after the second one completed. *)
Lemma stop_semantics_witness :
  exists summary d',
    Spec.run_batch Spec.always_ok (Spec.stop_after 1) Spec.five_lines
      Spec.fresh []
    = (summary, (d', ["10.1000/a1"; "10.1000/a2"]))
    /\ status (progress d') = "stopped"
    /\ current (progress d') = 2
    /\ Spec.processed d' = 2
    /\ skipped (progress d') = 0
    /\ total_requested summary = 5
    /\ Forall (fun x => x ∉ Spec.ledger d') ["10.1000/a3"; "10.1000/a4"; "10.1000/a5"].
Proof.
  destruct (stop_semantics (Spec.stub_resolve Spec.always_ok) Spec.stub_sleep
              (Spec.stop_after 1) (Spec.stub_read Spec.five_lines)
              Spec.stub_mkdir Spec.stub_now Spec.stub_save
              "dois.txt" "out" Spec.fresh Spec.fresh [] [] Spec.five_dois 1)
    as (summary & d' & dx & doi & Hk & Hrun & Hst & Hcur & _ & Hproc & Hsk
        & _ & Hreq & _ & _ & _ & Hled).
  { vm_compute. reflexivity. }
  { reflexivity. }
  { cbn. lia. }
  { intros ph j Hj. destruct ph; [reflexivity|].
    destruct j as [|[|j]]; [reflexivity | lia | lia]. }
  { right. reflexivity. }
  injection Hk as <-.
  exists summary, d'. split; [exact Hrun|].
  repeat split; try assumption.
  repeat constructor; intros Hin; apply Hled in Hin;
    revert Hin; apply not_elem_of_computed; vm_compute; reflexivity.
Defined.

(** ** The ledger *)

Lemma elem_of_computed (x : string) (X : gset string) :
  bool_decide (x ∈ X) = true -> x ∈ X.
Proof. apply bool_decide_eq_true_1. Qed.

Section LedgerFacts.
Context {W : Type}.
Variable resolve : string -> string -> W -> Outcome * W.
Variable sleep : Z -> W -> W.
Variable stop_request : Phase -> nat -> bool.
Variable read_lines : string -> W -> list string.
Variable mkdir : string -> W -> Exc + W.
Variable now : W -> Z.
Variable save_tracking : Downloader -> W -> W.

Lemma process_one_success (n : Z) (i : nat) (doi out : string)
      (d : Downloader) (w w1 : W) (r : Result) :
    resolve doi out w = (Returned r, w1) -> success r = true ->
    doi ∈ downloaded_dois
            (process_one resolve sleep stop_request n i doi out d w).1.
  Proof.
    intros Hr Hs. unfold process_one, observe. rewrite Hr, Hs.
    destruct (stop_request Resolving i), (stop_request Pacing i),
      (Z.of_nat i <? n - 1); cbn;
      try (destruct (stop_flag d); cbn); set_solver.
  Qed.

  (** A batch only adds to the two sets of the ledger. *)
Lemma download_papers_grows (doi_file out : string) (d d' : Downloader)
      (w w' : W) (summary : Summary) :
    download_papers resolve sleep stop_request read_lines mkdir now
      save_tracking doi_file out d w = (summary, (d', w')) ->
    downloaded_dois d ⊆ downloaded_dois d'
    /\ failed_dois d ⊆ failed_dois d'.
  Proof.
    unfold download_papers. intros H.
    destruct (_load_dois read_lines doi_file d w) as [dois d0] eqn:Hload.
    apply load_lines_facts in Hload as (_ & Hd & Hf & _ & _).
    destruct dois as [|y ys].
    { injection H as _ <- _. rewrite Hd, Hf. split; reflexivity. }
    destruct (mkdir out w) as [e|w0].
    { injection H as _ <- _. cbn. rewrite Hd, Hf. split; reflexivity. }
    unfold _process_dois in H.
    destruct (process_loop _ _ _ _ _ _ _ _ _) as [d2 w2] eqn:Hloop.
    injection H as _ <- _.
    apply process_loop_facts in Hloop as (_ & Hd2 & Hf2 & _).
    cbn in Hd2, Hf2 |- *. rewrite <- Hd, <- Hf. split; assumption.
  Qed.

(** One identifier: a successful resolution adds it to the resolved set
    and leaves the exhausted set alone; a failed or raising one adds it
    to the exhausted set and leaves the resolved set alone. *)
Lemma process_one_ledger (n : Z) (i : nat) (doi out : string)
    (d : Downloader) (w : W) :
  let d' := (process_one resolve sleep stop_request n i doi out d w).1 in
  if Spec.succeeded (resolve doi out w).1
  then downloaded_dois d' = downloaded_dois d ∪ {[doi]}
       /\ failed_dois d' = failed_dois d
  else downloaded_dois d' = downloaded_dois d
       /\ failed_dois d' = failed_dois d ∪ {[doi]}.
Proof.
  cbn zeta. unfold process_one, observe, Spec.succeeded.
  destruct (resolve doi out w) as [[r|e] w1]; cbn [fst].
  - destruct (success r);
      destruct (stop_request Resolving i), (stop_request Pacing i),
        (Z.of_nat i <? n - 1); cbn;
        try (destruct (stop_flag d); cbn); split; reflexivity.
  - destruct (stop_request Resolving i), (stop_request Pacing i),
      (Z.of_nat i <? n - 1); cbn;
      try (destruct (stop_flag d); cbn); split; reflexivity.
Qed.

Lemma process_loop_sound (n : Z) (out : string) (rest : list string) :
  forall (i : nat) (d d' : Downloader) (w w' : W) (x : string),
    process_loop resolve sleep stop_request n i rest out d w = (d', w') ->
    (x ∈ downloaded_dois d' ->
     x ∈ downloaded_dois d
     \/ (x ∈ rest /\ exists w0, Spec.succeeded (resolve x out w0).1 = true))
    /\ (x ∈ failed_dois d' ->
        x ∈ failed_dois d
        \/ (x ∈ rest /\ exists w0, Spec.succeeded (resolve x out w0).1 = false)).
Proof.
  induction rest as [|doi rest IH]; intros i d d' w w' x H; cbn in H.
  - injection H as <- _. split; intros Hx; left; exact Hx.
  - destruct (stop_flag d).
    { injection H as <- _. split; intros Hx; left; exact Hx. }
    pose proof (process_one_ledger n i doi out d w) as Hone.
    destruct (process_one resolve sleep stop_request n i doi out d w)
      as [d1 w1].
    cbn zeta in Hone. cbn [fst] in Hone.
    destruct (IH _ _ _ _ _ x H) as [Hd Hf].
    destruct (Spec.succeeded (resolve doi out w).1) eqn:Hok;
      destruct Hone as [Hd1 Hf1]; rewrite Hd1 in Hd; rewrite Hf1 in Hf.
    + split; intros Hx.
      * destruct (Hd Hx) as [Hin|[Hin Hw]].
        -- apply elem_of_union in Hin as [Hin|Hin]; [left; exact Hin|].
           apply elem_of_singleton in Hin as ->.
           right. split; [left|]. exists w. exact Hok.
        -- right. split; [right; exact Hin | exact Hw].
      * destruct (Hf Hx) as [Hin|[Hin Hw]]; [left; exact Hin|].
        right. split; [right; exact Hin | exact Hw].
    + split; intros Hx.
      * destruct (Hd Hx) as [Hin|[Hin Hw]]; [left; exact Hin|].
        right. split; [right; exact Hin | exact Hw].
      * destruct (Hf Hx) as [Hin|[Hin Hw]].
        -- apply elem_of_union in Hin as [Hin|Hin]; [left; exact Hin|].
           apply elem_of_singleton in Hin as ->.
           right. split; [left|]. exists w. exact Hok.
        -- right. split; [right; exact Hin | exact Hw].
Qed.

Lemma download_papers_sound (doi_file out : string) (d d' : Downloader)
    (w w' : W) (summary : Summary) (x : string) :
  download_papers resolve sleep stop_request read_lines mkdir now
    save_tracking doi_file out d w = (summary, (d', w')) ->
  (x ∈ downloaded_dois d' ->
   x ∈ downloaded_dois d
   \/ (x ∈ (_load_dois read_lines doi_file d w).1
       /\ exists w0, Spec.succeeded (resolve x out w0).1 = true))
  /\ (x ∈ failed_dois d' ->
      x ∈ failed_dois d
      \/ (x ∈ (_load_dois read_lines doi_file d w).1
          /\ exists w0, Spec.succeeded (resolve x out w0).1 = false)).
Proof.
  unfold download_papers. intros H.
  destruct (_load_dois read_lines doi_file d w) as [dois d0] eqn:Hload.
  apply load_lines_facts in Hload as (_ & Hd & Hf & _ & _).
  destruct dois as [|y ys].
  { injection H as _ <- _. rewrite Hd, Hf. split; intros Hx; left; exact Hx. }
  destruct (mkdir out w) as [e|w0].
  { injection H as _ <- _. cbn. rewrite Hd, Hf.
    split; intros Hx; left; exact Hx. }
  unfold _process_dois in H.
  destruct (process_loop _ _ _ _ _ _ _ _ _) as [d2 w2] eqn:Hloop.
  injection H as _ <- _.
  destruct (process_loop_sound _ _ _ _ _ _ _ _ x Hloop) as [Hd2 Hf2].
  cbn in Hd2, Hf2 |- *. rewrite <- Hd, <- Hf.
  split; intros Hx;
    [destruct (Hd2 Hx) as [?|?] | destruct (Hf2 Hx) as [?|?]]; auto.
Qed.

(** C5 (as amended): the two sets of the ledger are not kept apart.
    A batch only ever adds to them, an identifier to the resolved set
    (and to it alone) when its resolution succeeds and to the exhausted
    set (and to it alone) when it fails or raises, and removes nothing:
    an identifier recorded as exhausted that resolves later is then a
    member of both sets. *)
Theorem ledger_only_grows (doi_file out : string) (d : Downloader)
      (w : W) :
    (forall summary d' w',
       download_papers resolve sleep stop_request read_lines mkdir now
         save_tracking doi_file out d w = (summary, (d', w')) ->
       downloaded_dois d ⊆ downloaded_dois d'
       /\ failed_dois d ⊆ failed_dois d')
    /\ (forall n i doi rest r w1,
          stop_flag d = false ->
          doi ∈ failed_dois d ->
          resolve doi out w = (Returned r, w1) -> success r = true ->
          let d' := (process_loop resolve sleep stop_request n i
                       (doi :: rest) out d w).1 in
          doi ∈ downloaded_dois d' /\ doi ∈ failed_dois d')
    /\ (forall n i doi,
          let d' := (process_one resolve sleep stop_request n i doi out
                       d w).1 in
          if Spec.succeeded (resolve doi out w).1
          then downloaded_dois d' = downloaded_dois d ∪ {[doi]}
               /\ failed_dois d' = failed_dois d
          else downloaded_dois d' = downloaded_dois d
               /\ failed_dois d' = failed_dois d ∪ {[doi]})
    /\ (forall summary d' w' x,
          download_papers resolve sleep stop_request read_lines mkdir now
            save_tracking doi_file out d w = (summary, (d', w')) ->
          (x ∈ downloaded_dois d' ->
           x ∈ downloaded_dois d
           \/ (x ∈ (_load_dois read_lines doi_file d w).1
               /\ exists w0, Spec.succeeded (resolve x out w0).1 = true))
          /\ (x ∈ failed_dois d' ->
              x ∈ failed_dois d
              \/ (x ∈ (_load_dois read_lines doi_file d w).1
                  /\ exists w0,
                       Spec.succeeded (resolve x out w0).1 = false))).
Proof.
  split; [|split; [|split]].
  - intros summary d' w'. apply download_papers_grows.
  - intros n i doi rest r w1 Hflag Hin Hr Hs. cbn [process_loop].
    rewrite Hflag.
    pose proof (process_one_success n i doi out d w w1 r Hr Hs) as Hd.
    destruct (process_one resolve sleep stop_request n i doi out d w)
      as [d1 w2] eqn:E1.
    apply process_one_facts in E1 as (_ & _ & _ & _ & Hf & _).
    destruct (process_loop resolve sleep stop_request n (S i) rest out d1 w2)
      as [d2 w3] eqn:E2.
    apply process_loop_facts in E2 as (_ & Hd2 & Hf2 & _).
    cbn in Hd |- *. split; [apply Hd2, Hd | apply Hf2, Hf, Hin].
  - intros n i doi. apply process_one_ledger.
  - intros summary d' w' x. apply download_papers_sound.
Qed.
End LedgerFacts.

Lemma ledger_only_grows_witness :
  let d' := (process_loop (Spec.stub_resolve Spec.second_time_ok)
               Spec.stub_sleep Spec.never_stop 1 0 ["10.1000/a1"] "out"
               Spec.exhausted_a1 ["10.1000/a1"]).1 in
  "10.1000/a1" ∈ downloaded_dois d' /\ "10.1000/a1" ∈ failed_dois d'.
Proof.
  destruct (ledger_only_grows (Spec.stub_resolve Spec.second_time_ok)
              Spec.stub_sleep Spec.never_stop (Spec.stub_read [])
              Spec.stub_mkdir Spec.stub_now Spec.stub_save "dois.txt" "out"
              Spec.exhausted_a1 ["10.1000/a1"]) as (_ & Hboth & _).
  apply (Hboth 1 0%nat "10.1000/a1" []
           (Spec.resolved_at "10.1000/a1" "out")
           ["10.1000/a1"; "10.1000/a1"]).
  - reflexivity.
  - apply elem_of_computed. vm_compute. reflexivity.
  - vm_compute. reflexivity.
  - reflexivity.
Defined.

(** C5 (as stated) fails: an identifier that fails in one batch and
    resolves in the next is a member of both sets afterwards, and stays
    in both when the ledger is saved and loaded again. *)
Lemma ledger_sets_overlap :
  let d1 := (Spec.two_batches Spec.second_time_ok [Spec.line_a1]).1.2.1 in
  let d2 := (Spec.two_batches Spec.second_time_ok [Spec.line_a1]).2.2.1 in
  let d3 := new_downloader "data"
              (_save_tracking_data "data" d2 (Spec.world_with [])) in
  ("10.1000/a1" ∈ failed_dois d1 /\ "10.1000/a1" ∉ downloaded_dois d1)
  /\ ("10.1000/a1" ∈ downloaded_dois d2 /\ "10.1000/a1" ∈ failed_dois d2)
  /\ ("10.1000/a1" ∈ downloaded_dois d3 /\ "10.1000/a1" ∈ failed_dois d3).
Proof.
  cbv zeta.
  repeat split;
    first [ apply elem_of_computed | apply not_elem_of_computed ];
    vm_compute; reflexivity.
Qed.

(** ** Identifiers already resolved *)

Section SkipFacts.
Context {W : Type}.
Variable resolve : string -> string -> W -> Outcome * W.
Variable sleep : Z -> W -> W.
Variable stop_request : Phase -> nat -> bool.
Variable read_lines : string -> W -> list string.
Variable mkdir : string -> W -> Exc + W.
Variable now : W -> Z.
Variable save_tracking : Downloader -> W -> W.

  (** An identifier of the resolved set is never put on the list of a
      batch, hence never attempted by it. *)
Lemma resolved_never_listed (doi_file : string) (d : Downloader) (w : W)
      (x : string) :
    x ∈ downloaded_dois d -> x ∉ (_load_dois read_lines doi_file d w).1.
  Proof.
    intros Hin Hx. unfold _load_dois in Hx.
    destruct (load_lines (read_lines doi_file w) [] d) as [dois d0] eqn:E.
    apply load_lines_facts in E as (_ & _ & _ & _ & Hl).
    destruct (Hl x Hx) as [Hnil | Hn]; [|exact (Hn Hin)].
    apply elem_of_nil in Hnil. exact Hnil.
  Qed.

  (** Whatever was skipped while the list was loaded, the summary of a
      batch that ran reports no skipped identifier: the progress record
      that counted them is replaced before the loop starts. *)
Lemma summary_skipped_zero (doi_file out : string) (d d' : Downloader)
      (w w' : W) (summary : Summary) :
    download_papers resolve sleep stop_request read_lines mkdir now
      save_tracking doi_file out d w = (summary, (d', w')) ->
    sum_success summary = true ->
    sum_skipped summary = Some 0 /\ skipped (progress d') = 0.
  Proof.
    unfold download_papers. intros H Hok.
    destruct (_load_dois read_lines doi_file d w) as [dois d0].
    destruct dois as [|y ys].
    { injection H as <- _ _. discriminate Hok. }
    destruct (mkdir out w) as [e|w0].
    { injection H as <- _ _. discriminate Hok. }
    unfold _process_dois in H.
    destruct (process_loop _ _ _ _ _ _ _ _ _) as [d2 w2] eqn:Hloop.
    injection H as <- <- _.
    apply process_loop_facts in Hloop as (Hs & _).
    cbn in Hs |- *. rewrite Hs. split; reflexivity.
  Qed.
End SkipFacts.

(** C3 fails on the code: with [10.1000/a1] in the resolved set, a
    second batch over the lines [10.1000/a1], [10.1000/a2] does not
    attempt [10.1000/a1] again, but its summary and its progress report
    no skipped identifier at all. *)
Theorem skipped_count_is_lost :
  let runs := Spec.two_batches (Spec.only_ok "10.1000/a1")
                [Spec.line_a1; Spec.line_a2] in
  let d1 := runs.1.2.1 in
  let attempts1 := runs.1.2.2 in
  let summary2 := runs.2.1 in
  let d2 := runs.2.2.1 in
  let attempts2 := runs.2.2.2 in
  "10.1000/a1" ∈ downloaded_dois d1
  /\ attempts1 = ["10.1000/a1"; "10.1000/a2"]
  /\ attempts2 = (attempts1 ++ ["10.1000/a2"])%list
  /\ total_requested summary2 = 1
  /\ sum_skipped summary2 = Some 0
  /\ skipped (progress d2) = 0.
Proof.
  cbv zeta. split; [apply elem_of_computed|];
    vm_compute; repeat split; reflexivity.
Qed.

(** * Further properties *)

(** ** Patterns and the strings they stand for *)

Lemma append_nil_r (s : string) : s ++ EmptyString = s.
Proof.
  induction s as [|c s IH]; [reflexivity|].
  rewrite append_cons, IH. reflexivity.
Qed.

Lemma append_assoc (a b c : string) : (a ++ b) ++ c = a ++ (b ++ c).
Proof.
  induction a as [|x a IH]; [reflexivity|].
  rewrite !append_cons, IH. reflexivity.
Qed.

Lemma append_eq_nil (a b : string) :
  a ++ b = EmptyString -> a = EmptyString /\ b = EmptyString.
Proof.
  destruct a; [rewrite append_nil_l; auto|].
  rewrite append_cons. discriminate.
Qed.

Lemma append_eq_cons (a b : string) (c : ascii) (s : string) :
  a ++ b = String c s ->
  (a = EmptyString /\ b = String c s)
  \/ exists a', a = String c a' /\ s = a' ++ b.
Proof.
  destruct a as [|x a]; [rewrite append_nil_l; auto|].
  rewrite append_cons. intros H. injection H as -> <-. right. eauto.
Qed.

Lemma length_append (a b : string) :
  String.length (a ++ b) = (String.length a + String.length b)%nat.
Proof.
  induction a as [|x a IH]; [reflexivity|].
  rewrite append_cons. simpl. rewrite IH. reflexivity.
Qed.

Lemma all_chars_app (p : ascii -> bool) (a b : string) :
  all_chars p (a ++ b) = all_chars p a && all_chars p b.
Proof.
  induction a as [|x a IH]; [reflexivity|].
  rewrite append_cons. simpl. rewrite IH, andb_assoc. reflexivity.
Qed.

Lemma nullable_lang (r : Re.regex) :
  Re.nullable r = true <-> Re.lang r EmptyString.
Proof.
  split.
  - induction r; simpl; intros H; try discriminate.
    + constructor.
    + apply andb_true_iff in H as [H1 H2].
      change EmptyString with (EmptyString ++ EmptyString).
      constructor; auto.
    + apply orb_true_iff in H as [H|H];
        [apply Re.lang_alt_l | apply Re.lang_alt_r]; auto.
    + constructor.
  - intros H. remember EmptyString as s eqn:Es.
    induction H; simpl; try reflexivity; try discriminate.
    + apply append_eq_nil in Es as [-> ->].
      rewrite IHlang1, IHlang2; reflexivity.
    + rewrite IHlang; [reflexivity | exact Es].
    + rewrite IHlang; [apply orb_true_r | exact Es].
Qed.

Lemma deriv_lang_1 (c : ascii) (r : Re.regex) :
  forall s, Re.lang (Re.deriv c r) s -> Re.lang r (String c s).
Proof.
  induction r; simpl; intros s H.
  - inversion H.
  - inversion H.
  - destruct (p c) eqn:E; inversion H; subst. constructor. exact E.
  - destruct (Re.nullable r1) eqn:N.
    + inversion H as [| |? ? ? ? ? ?|? ? ? Hl|? ? ? Hr| |]; subst.
      * inversion Hl; subst. rewrite <- append_cons. constructor; auto.
      * rewrite <- (append_nil_l (String c s)). constructor; auto.
        apply nullable_lang. exact N.
    + inversion H; subst. rewrite <- append_cons. constructor; auto.
  - inversion H; subst; [apply Re.lang_alt_l | apply Re.lang_alt_r]; auto.
  - inversion H; subst. rewrite <- append_cons. constructor; auto.
Qed.

Lemma deriv_lang_2 (c : ascii) (r : Re.regex) (t : string) :
  Re.lang r t -> forall s, t = String c s -> Re.lang (Re.deriv c r) s.
Proof.
  induction 1 as [|p x Hp|r1 r2 s1 s2 H1 IH1 H2 IH2|r1 r2 u H1 IH1
                  |r1 r2 u H2 IH2|r1|r1 s1 s2 H1 IH1 H2 IH2];
    intros s Es; simpl.
  - discriminate.
  - injection Es as -> <-. rewrite Hp. constructor.
  - apply append_eq_cons in Es as [[-> ->] | (a' & -> & ->)].
    + apply nullable_lang in H1. rewrite H1.
      apply Re.lang_alt_r. apply IH2. reflexivity.
    + destruct (Re.nullable r1);
        [apply Re.lang_alt_l|]; constructor; auto.
  - apply Re.lang_alt_l. auto.
  - apply Re.lang_alt_r. auto.
  - discriminate.
  - apply append_eq_cons in Es as [[-> ->] | (a' & -> & ->)].
    + apply IH2. reflexivity.
    + constructor; auto.
Qed.

(** The matcher decides membership in the language of a pattern. *)
Lemma fullmatch_lang (s : string) :
  forall r, Re.fullmatch r s = true <-> Re.lang r s.
Proof.
  induction s as [|c s IH]; intros r; simpl.
  - apply nullable_lang.
  - rewrite IH. split.
    + apply deriv_lang_1.
    + intros H. exact (deriv_lang_2 c r _ H s eq_refl).
Qed.

Lemma lang_cat_inv (r1 r2 : Re.regex) (s : string) :
  Re.lang (Re.Cat r1 r2) s <->
  exists s1 s2, s = s1 ++ s2 /\ Re.lang r1 s1 /\ Re.lang r2 s2.
Proof.
  split.
  - intros H. inversion H; subst. eauto.
  - intros (s1 & s2 & -> & H1 & H2). constructor; assumption.
Qed.

Lemma lang_chr_inv (p : ascii -> bool) (s : string) :
  Re.lang (Re.Chr p) s <-> exists c, s = String c EmptyString /\ p c = true.
Proof.
  split.
  - intros H. inversion H; subst. eauto.
  - intros (c & -> & H). constructor. exact H.
Qed.

Lemma lang_lit (c : ascii) (s : string) :
  Re.lang (Re.lit c) s <-> s = String c EmptyString.
Proof.
  unfold Re.lit. rewrite lang_chr_inv. split.
  - intros (x & -> & H). apply Ascii.eqb_eq in H. subst. reflexivity.
  - intros ->. exists c. split; [reflexivity | apply Ascii.eqb_refl].
Qed.

Lemma lang_star_chr (p : ascii -> bool) (s : string) :
  Re.lang (Re.Star (Re.Chr p)) s <-> all_chars p s = true.
Proof.
  split.
  - intros H. remember (Re.Star (Re.Chr p)) as r eqn:Er.
    induction H; try discriminate; [reflexivity|].
    injection Er as ->. rewrite all_chars_app.
    apply lang_chr_inv in H as (c & -> & Hc). simpl. rewrite Hc. simpl.
    apply IHlang2. reflexivity.
  - induction s as [|c s IH]; simpl; intros H; [constructor|].
    apply andb_true_iff in H as [Hc Hs].
    change (String c s) with (String c EmptyString ++ s).
    constructor; [constructor; exact Hc | auto].
Qed.

Lemma lang_plus_chr (p : ascii -> bool) (s : string) :
  Re.lang (Re.plus (Re.Chr p)) s <-> s <> EmptyString /\ all_chars p s = true.
Proof.
  unfold Re.plus. rewrite lang_cat_inv. split.
  - intros (s1 & s2 & -> & H1 & H2).
    apply lang_chr_inv in H1 as (c & -> & Hc). apply lang_star_chr in H2.
    rewrite append_cons, append_nil_l. simpl. rewrite Hc, H2.
    split; [discriminate | reflexivity].
  - intros [Hne H]. destruct s as [|c s]; [congruence|].
    simpl in H. apply andb_true_iff in H as [Hc Hs].
    exists (String c EmptyString), s. split; [reflexivity|].
    split; [constructor; exact Hc | apply lang_star_chr, Hs].
Qed.

Lemma lang_times_chr (p : ascii -> bool) (n : nat) :
  forall s, Re.lang (Re.times n (Re.Chr p)) s <->
            String.length s = n /\ all_chars p s = true.
Proof.
  induction n as [|n IH]; intros s; simpl.
  - split.
    + intros H. inversion H. split; reflexivity.
    + intros [H _]. destruct s; [constructor | discriminate].
  - rewrite lang_cat_inv. split.
    + intros (s1 & s2 & -> & H1 & H2).
      apply lang_chr_inv in H1 as (c & -> & Hc). apply IH in H2 as [Hl Ha].
      rewrite append_cons, append_nil_l. simpl. rewrite Hc, Ha, Hl.
      split; reflexivity.
    + intros [Hl Ha]. destruct s as [|c s]; [discriminate|].
      simpl in Hl, Ha. apply andb_true_iff in Ha as [Hc Hs].
      exists (String c EmptyString), s. split; [reflexivity|].
      split; [constructor; exact Hc | apply IH; split; [lia | exact Hs]].
Qed.

Lemma lang_upto_chr (p : ascii -> bool) (n : nat) :
  forall s, Re.lang (Re.upto n (Re.Chr p)) s <->
            (String.length s <= n)%nat /\ all_chars p s = true.
Proof.
  induction n as [|n IH]; intros s; simpl.
  - split.
    + intros H. inversion H. split; [simpl; lia | reflexivity].
    + intros [H _]. destruct s; [constructor | simpl in H; lia].
  - unfold Re.opt. split.
    + intros H. inversion H as [| | |? ? ? Hl|? ? ? Hr| |]; subst.
      * inversion Hl. split; [simpl; lia | reflexivity].
      * apply lang_cat_inv in Hr as (s1 & s2 & -> & H1 & H2).
        apply lang_chr_inv in H1 as (c & -> & Hc). apply IH in H2 as [Hl Ha].
        rewrite append_cons, append_nil_l. simpl. rewrite Hc, Ha.
        split; [lia | reflexivity].
    + intros [Hl Ha]. destruct s as [|c s]; [apply Re.lang_alt_l; constructor|].
      simpl in Hl, Ha. apply andb_true_iff in Ha as [Hc Hs].
      apply Re.lang_alt_r.
      change (String c s) with (String c EmptyString ++ s).
      constructor; [constructor; exact Hc | apply IH; split; [lia | exact Hs]].
Qed.

(** ** The shape of a valid identifier *)

Lemma slice_to_from (n : nat) :
  forall s, s = slice_to n s ++ slice_from n s.
Proof.
  induction n as [|n IH]; intros s; [reflexivity|].
  destruct s as [|c s]; [reflexivity|].
  simpl. rewrite append_cons, <- IH. reflexivity.
Qed.

Lemma length_slice_to (n : nat) :
  forall s, String.length (slice_to n s) = Nat.min n (String.length s).
Proof.
  induction n as [|n IH]; intros s; [reflexivity|].
  destruct s as [|c s]; [reflexivity|]. simpl. rewrite IH. reflexivity.
Qed.

Lemma doi_regex_lang (t : string) :
  Re.lang Validation.doi_regex t <-> More.doi_shaped t.
Proof.
  unfold Validation.doi_regex, More.doi_shaped. split.
  - intros H.
    apply lang_cat_inv in H as (a1 & t1 & -> & Ha1 & H).
    apply lang_lit in Ha1 as ->.
    apply lang_cat_inv in H as (a2 & t2 & -> & Ha2 & H).
    apply lang_lit in Ha2 as ->.
    apply lang_cat_inv in H as (a3 & t3 & -> & Ha3 & H).
    apply lang_lit in Ha3 as ->.
    apply lang_cat_inv in H as (s4 & t4 & -> & H4 & H).
    apply lang_times_chr in H4 as [L4 D4].
    apply lang_cat_inv in H as (s5 & t5 & -> & H5 & H).
    apply lang_upto_chr in H5 as [L5 D5].
    apply lang_cat_inv in H as (a6 & suf & -> & Ha6 & H).
    apply lang_lit in Ha6 as ->.
    apply lang_plus_chr in H as [Hne Hsuf].
    exists (s4 ++ s5), suf.
    rewrite length_append, all_chars_app, D4, D5, append_assoc.
    repeat split; try assumption; lia.
  - intros (reg & suf & -> & [Hlo Hhi] & Hd & Hne & Hsuf).
    rewrite (slice_to_from 4 reg) in Hd |- *.
    rewrite all_chars_app in Hd. apply andb_true_iff in Hd as [D4 D5].
    rewrite append_assoc.
    change ("10." ++ slice_to 4 reg ++ slice_from 4 reg ++ "/" ++ suf)
      with ("1" ++ "0" ++ "." ++ slice_to 4 reg ++ slice_from 4 reg
            ++ "/" ++ suf).
    pose proof (length_slice_to 4 reg) as L4.
    pose proof (f_equal String.length (slice_to_from 4 reg)) as Lsum.
    rewrite length_append in Lsum.
    repeat (constructor; [apply lang_lit; reflexivity|]).
    constructor; [apply lang_times_chr; split; [lia | exact D4]|].
    constructor; [apply lang_upto_chr; split; [lia | exact D5]|].
    constructor; [apply lang_lit; reflexivity|].
    apply lang_plus_chr. split; assumption.
Qed.

Lemma last_ok_app_char (f : ascii -> bool) (a : string) (c : ascii) :
  last_ok f (a ++ String c EmptyString) -> f c = false.
Proof.
  induction a as [|x a IH]; [rewrite append_nil_l; simpl; trivial|].
  rewrite append_cons. simpl.
  destruct (a ++ String c EmptyString) eqn:E; [|exact IH].
  apply append_eq_nil in E as [_ E]. discriminate E.
Qed.

Lemma strip_last_ok (s : string) : last_ok isspace (strip s).
Proof. unfold strip, strip_by. apply lstrip_by_last, rstrip_by_last. Qed.

Lemma strip_first_ok (s : string) : first_ok isspace (strip s).
Proof. unfold strip, strip_by. apply lstrip_by_first. Qed.

Lemma validate_doi_iff_shape (s : string) :
  Validation.validate_doi s = true <-> More.doi_shaped (strip s).
Proof.
  unfold Validation.validate_doi, Re.match_anchored.
  rewrite <- doi_regex_lang. split.
  - destruct (is_empty s); [discriminate|]. intros H.
    apply fullmatch_lang, lang_cat_inv in H as (t & nl & E & Ht & Hnl).
    inversion Hnl as [| | |? ? ? Hl|? ? ? Hr| |]; subst.
    + inversion Hl; subst. rewrite append_nil_r in E. rewrite E. exact Ht.
    + apply lang_lit in Hr as ->.
      pose proof (strip_last_ok s) as Hlast. rewrite E in Hlast.
      apply last_ok_app_char in Hlast. discriminate Hlast.
  - intros H. destruct s as [|c s].
    + apply doi_regex_lang in H as (reg & suf & E & _). discriminate E.
    + cbn [is_empty]. apply fullmatch_lang.
      rewrite <- (append_nil_r (strip (String c s))).
      constructor; [exact H | apply Re.lang_alt_l; constructor].
Qed.

(** On the strings of the model, whose characters are the code points
    below 256, [validate_doi] accepts exactly the strings that, once
    the white space around them is removed, have the shape of an
    identifier.  (Beyond them the pattern also takes the decimal
    digits and the few letters of other scripts that the digit class
    and the matching without regard to case let through.) *)
Theorem validate_doi_shape (s : string) :
  Validation.validate_doi s = true <-> More.doi_shaped (strip s).
Proof. exact (validate_doi_iff_shape s). Qed.

Lemma bool_eq_iff (a b : bool) : (a = true <-> b = true) -> a = b.
Proof.
  destruct a, b; intros [H1 H2]; try reflexivity;
    [symmetry; apply H1 | apply H2]; reflexivity.
Qed.

(** White space around a string does not change the verdict of
    [validate_doi]. *)
Theorem validate_doi_surrounded (w1 s w2 : string) :
  all_chars isspace w1 = true -> all_chars isspace w2 = true ->
  Validation.validate_doi (w1 ++ s ++ w2) = Validation.validate_doi s.
Proof.
  intros H1 H2. apply bool_eq_iff. rewrite !validate_doi_iff_shape.
  unfold strip. rewrite (strip_by_surrounded isspace w1 s w2 H1 H2).
  reflexivity.
Qed.

Lemma validate_doi_surrounded_witness :
  Validation.validate_doi ("  " ++ "10.1000/xyz123" ++ newline_str) = true.
Proof.
  rewrite (validate_doi_surrounded "  " "10.1000/xyz123" newline_str);
    reflexivity.
Defined.

Section StripFixed.
Variable f : ascii -> bool.

Lemma lstrip_by_fixed (s : string) : first_ok f s -> lstrip_by f s = s.
Proof. destruct s as [|c s]; simpl; [reflexivity|]. intros ->. reflexivity. Qed.

Lemma rstrip_by_fixed (s : string) : last_ok f s -> rstrip_by f s = s.
Proof.
  induction s as [|c s IH]; [reflexivity|]. intros H.
  cbn [rstrip_by]. destruct s as [|d s].
  - simpl in H |- *. rewrite H. reflexivity.
  - rewrite (IH H). reflexivity.
Qed.

Lemma strip_by_fixed (s : string) :
  first_ok f s -> last_ok f s -> strip_by f s = s.
Proof.
  intros H1 H2. unfold strip_by. rewrite (rstrip_by_fixed s H2).
  apply lstrip_by_fixed, H1.
Qed.

Lemma last_ok_app (a b : string) :
  b <> EmptyString -> last_ok f b -> last_ok f (a ++ b).
Proof.
  intros Hne Hb. induction a as [|x a IH]; [exact Hb|].
  rewrite append_cons. simpl.
  destruct (a ++ b) eqn:E; [|exact IH].
  apply append_eq_nil in E as [_ E]. congruence.
Qed.

Lemma all_chars_last_ok (s : string) :
  all_chars (fun c => negb (f c)) s = true -> last_ok f s.
Proof.
  induction s as [|c s IH]; [intros _; exact I|]. simpl. intros H.
  apply andb_true_iff in H as [Hc Hs]. apply negb_true_iff in Hc.
  destruct s; [exact Hc | exact (IH Hs)].
Qed.
End StripFixed.

Lemma all_chars_impl (p q : ascii -> bool) (s : string) :
  (forall c, p c = true -> q c = true) ->
  all_chars p s = true -> all_chars q s = true.
Proof.
  intros Hpq. induction s as [|c s IH]; [reflexivity|]. simpl. intros H.
  apply andb_true_iff in H as [Hc Hs]. rewrite (Hpq c Hc), (IH Hs).
  reflexivity.
Qed.

Lemma suffix_char_plain (c : ascii) :
  Re.ignorecase Validation.doi_suffix_class c = true ->
  negb (Validation.is_quote c) = true /\ negb (isspace c) = true.
Proof.
  destruct c as [[] [] [] [] [] [] [] []]; vm_compute; intros H;
    first [discriminate H | split; reflexivity].
Qed.

Lemma doi_shaped_plain (t : string) :
  More.doi_shaped t ->
  first_ok Validation.is_quote t /\ last_ok Validation.is_quote t
  /\ first_ok isspace t /\ last_ok isspace t
  /\ Validation.remove_first_prefix Validation.prefixes t = t
  /\ is_empty t = false /\ startswith t "#" = false.
Proof.
  intros (reg & suf & -> & _ & _ & Hne & Hsuf).
  assert (Hq : last_ok Validation.is_quote suf).
  { apply all_chars_last_ok. revert Hsuf. apply all_chars_impl.
    intros c Hc. apply suffix_char_plain, Hc. }
  assert (Hw : last_ok isspace suf).
  { apply all_chars_last_ok. revert Hsuf. apply all_chars_impl.
    intros c Hc. apply suffix_char_plain, Hc. }
  repeat split; try reflexivity.
  - rewrite <- !append_assoc. apply last_ok_app; assumption.
  - rewrite <- !append_assoc. apply last_ok_app; assumption.
Qed.

Lemma normalize_doi_valid_facts (s : string) :
  Validation.validate_doi s = true ->
  Validation.normalize_doi s = strip s
  /\ Validation.validate_doi (Validation.normalize_doi s) = true
  /\ Validation.normalize_doi (Validation.normalize_doi s)
     = Validation.normalize_doi s.
Proof.
  intros Hv. pose proof Hv as Hshape. apply validate_doi_iff_shape in Hshape.
  destruct (doi_shaped_plain _ Hshape)
    as (Hq1 & Hq2 & Hw1 & Hw2 & Hpre & Hne & _).
  assert (Hstrip2 : strip (strip s) = strip s)
    by (apply strip_by_fixed; assumption).
  assert (Hnorm : forall u, is_empty u = false -> strip u = strip s ->
                            Validation.normalize_doi u = strip s).
  { intros u Hu Eu. unfold Validation.normalize_doi. rewrite Hu, Eu, Hpre.
    apply strip_by_fixed; assumption. }
  assert (Hs : is_empty s = false).
  { destruct s; [discriminate Hv | reflexivity]. }
  rewrite (Hnorm s Hs eq_refl). split; [reflexivity|]. split.
  - apply validate_doi_iff_shape. rewrite Hstrip2. exact Hshape.
  - apply Hnorm; assumption.
Qed.

(** An identifier that [validate_doi] accepts is left alone by
    [normalize_doi], apart from the white space around it: normalising
    it again changes nothing and it is still accepted. *)
Theorem normalize_doi_of_valid (s : string) :
  Validation.validate_doi s = true ->
  Validation.normalize_doi s = strip s
  /\ Validation.validate_doi (Validation.normalize_doi s) = true
  /\ Validation.normalize_doi (Validation.normalize_doi s)
     = Validation.normalize_doi s.
Proof. exact (normalize_doi_valid_facts s). Qed.

Lemma normalize_doi_of_valid_witness :
  Validation.normalize_doi (" 10.1000/xyz123" ++ newline_str)
  = "10.1000/xyz123".
Proof.
  destruct (normalize_doi_of_valid (" 10.1000/xyz123" ++ newline_str))
    as [H _]; [reflexivity|].
  rewrite H. reflexivity.
Defined.

(** ** File names *)

Section AllChars.
Variable q : ascii -> bool.

Lemma all_chars_map (g : ascii -> ascii) (s : string) :
  (forall c, q (g c) = true) -> all_chars q (map_chars g s) = true.
Proof.
  intros H. induction s as [|c s IH]; [reflexivity|].
  simpl. rewrite H, IH. reflexivity.
Qed.

Lemma all_chars_lstrip (f : ascii -> bool) (s : string) :
  all_chars q s = true -> all_chars q (lstrip_by f s) = true.
Proof.
  induction s as [|c s IH]; [reflexivity|]. intros H. cbn [lstrip_by].
  destruct (f c); [|exact H].
  simpl in H. apply andb_true_iff in H as [_ H]. exact (IH H).
Qed.

Lemma all_chars_rstrip (f : ascii -> bool) (s : string) :
  all_chars q s = true -> all_chars q (rstrip_by f s) = true.
Proof.
  induction s as [|c s IH]; [reflexivity|]. intros H. cbn [rstrip_by].
  simpl in H. apply andb_true_iff in H as [Hc Hs]. specialize (IH Hs).
  destruct (rstrip_by f s) as [|d r].
  - destruct (f c); [reflexivity|]. simpl. rewrite Hc. reflexivity.
  - cbn [all_chars] in IH |- *. rewrite Hc. exact IH.
Qed.

Lemma all_chars_slice_to (n : nat) :
  forall s, all_chars q s = true -> all_chars q (slice_to n s) = true.
Proof.
  induction n as [|n IH]; intros s H; [reflexivity|].
  destruct s as [|c s]; [reflexivity|]. simpl in H |- *.
  apply andb_true_iff in H as [Hc Hs]. rewrite Hc, (IH s Hs). reflexivity.
Qed.
End AllChars.

Lemma rsplit_dot_spec (s : string) :
  forall name ext, Validation.rsplit_dot s = Some (name, ext) ->
                   s = name ++ "." ++ ext.
Proof.
  induction s as [|c s IH]; intros name ext H; [discriminate|].
  cbn [Validation.rsplit_dot] in H.
  destruct (Validation.rsplit_dot s) as [[n e]|].
  - injection H as <- <-. rewrite append_cons, <- (IH n e eq_refl).
    reflexivity.
  - destruct (Ascii.eqb c ".") eqn:E; [|discriminate].
    apply Ascii.eqb_eq in E. injection H as <- <-. subst c. reflexivity.
Qed.

Lemma slice_to_Z_facts (q : ascii -> bool) (k : Z) (s : string) :
  (all_chars q s = true -> all_chars q (Validation.slice_to_Z k s) = true)
  /\ (0 <= k ->
      Z.of_nat (String.length (Validation.slice_to_Z k s))
      = Z.min k (Z.of_nat (String.length s))).
Proof.
  unfold Validation.slice_to_Z. split.
  - intros H. destruct (k <? 0); apply all_chars_slice_to, H.
  - intros Hk. destruct (k <? 0) eqn:E; [apply Z.ltb_lt in E; lia|].
    rewrite length_slice_to. lia.
Qed.

Lemma sanitize_filename_unfold (filename : string) :
  Validation.sanitize_filename filename =
  if Z.of_nat (String.length (More.cleaned filename)) >? 200
  then Validation.truncate_filename (More.cleaned filename)
  else More.cleaned filename.
Proof. reflexivity. Qed.

Lemma cleaned_facts (filename : string) :
  More.filesystem_safe (More.cleaned filename) = true
  /\ More.cleaned filename <> EmptyString.
Proof.
  unfold More.cleaned, More.filesystem_safe.
  destruct (is_empty (strip_by _ _)) eqn:E.
  - split; [reflexivity | discriminate].
  - split.
    + unfold strip_by. apply all_chars_lstrip, all_chars_rstrip.
      apply all_chars_map. intros c.
      destruct (Validation.is_invalid_char c) eqn:Ec; [reflexivity|].
      rewrite Ec. reflexivity.
    + intros H. rewrite H in E. discriminate E.
Qed.

(** [sanitize_filename] never returns the empty string, and none of the
    characters that are invalid in a file name occurs in its result. *)
Theorem sanitize_filename_safe (filename : string) :
  More.filesystem_safe (Validation.sanitize_filename filename) = true
  /\ Validation.sanitize_filename filename <> EmptyString.
Proof.
  rewrite sanitize_filename_unfold.
  destruct (cleaned_facts filename) as [Hsafe Hne].
  set (s := More.cleaned filename) in *.
  destruct (Z.of_nat (String.length s) >? 200) eqn:E; [|split; assumption].
  apply Z.gtb_lt in E. unfold Validation.truncate_filename.
  unfold More.filesystem_safe in *.
  destruct (Validation.rsplit_dot s) as [[name ext]|] eqn:R.
  - apply rsplit_dot_spec in R. rewrite R in Hsafe, E.
    rewrite !all_chars_app in Hsafe.
    apply andb_true_iff in Hsafe as [Hn Hx].
    apply andb_true_iff in Hx as [_ Hx].
    rewrite !length_append in E. cbn [String.length] in E.
    destruct (slice_to_Z_facts (fun c => negb (Validation.is_invalid_char c))
                (200 - Z.of_nat (String.length ext) - 1) name) as [Hs Hl].
    destruct ext as [|x ext]; cbn [is_empty].
    + split; [apply Hs, Hn|].
      intros H. apply (f_equal String.length) in H.
      cbn [String.length] in *. specialize (Hl ltac:(lia)). lia.
    + split.
      * rewrite !all_chars_app, (Hs Hn), Hx. reflexivity.
      * intros H. apply append_eq_nil in H as [_ H]. discriminate H.
  - cbn [is_empty].
    destruct (slice_to_Z_facts (fun c => negb (Validation.is_invalid_char c))
                (200 - Z.of_nat (String.length EmptyString) - 1) s)
      as [Hs Hl].
    split; [apply Hs, Hsafe|].
    intros H. apply (f_equal String.length) in H.
    cbn [String.length] in *. specialize (Hl ltac:(lia)). lia.
Qed.

(** The limit of 200 characters holds exactly when the text after the
    last dot of the cleaned name is shorter than 200 characters: a
    longer extension makes the slice bound negative and the result
    longer than the limit. *)
Theorem sanitize_filename_length (filename : string) :
  (String.length (Validation.sanitize_filename filename) <= 200)%nat
  <-> (forall name ext,
         Validation.rsplit_dot (More.cleaned filename) = Some (name, ext) ->
         (String.length ext < 200)%nat).
Proof.
  rewrite sanitize_filename_unfold.
  set (s := More.cleaned filename).
  destruct (Z.of_nat (String.length s) >? 200) eqn:E.
  - apply Z.gtb_lt in E. unfold Validation.truncate_filename.
    destruct (Validation.rsplit_dot s) as [[name ext]|] eqn:R.
    + pose proof (rsplit_dot_spec s name ext R) as Hs.
      destruct (slice_to_Z_facts isspace
                  (200 - Z.of_nat (String.length ext) - 1) name) as [_ Hl].
      split.
      * intros Hlen n e H. injection H as <- <-.
        destruct ext as [|x ext]; [simpl; lia|].
        cbn [is_empty] in Hlen. rewrite !length_append in Hlen.
        cbn [String.length] in Hlen |- *. lia.
      * intros Hext. specialize (Hext name ext eq_refl).
        specialize (Hl ltac:(lia)).
        destruct ext as [|x ext]; cbn [is_empty].
        -- cbn [String.length] in *. lia.
        -- rewrite !length_append. cbn [String.length] in *. lia.
    + split; [intros _ n e H; discriminate H|]. intros _.
      cbn [is_empty].
      destruct (slice_to_Z_facts isspace
                  (200 - Z.of_nat (String.length EmptyString) - 1) s)
        as [_ Hl].
      cbn [String.length] in *. specialize (Hl ltac:(lia)). lia.
  - rewrite Z.gtb_ltb in E. apply Z.ltb_ge in E. split; [|lia].
    intros _ name ext R. apply rsplit_dot_spec in R.
    apply (f_equal String.length) in R. rewrite !length_append in R.
    cbn [String.length] in R. lia.
Qed.

(** ** Extracted identifier lists *)

Lemma remove_loop_spec (dois : list string) :
  forall (seen : gset string) (u : list string),
    seen = list_to_set u -> NoDup u ->
    NoDup (Extractors.remove_loop dois seen u)
    /\ (forall x, x ∈ Extractors.remove_loop dois seen u <-> x ∈ u \/ x ∈ dois)
    /\ (exists v, Extractors.remove_loop dois seen u = (u ++ v)%list
                  /\ sublist v dois)
    /\ (NoDup (u ++ dois) -> Extractors.remove_loop dois seen u = (u ++ dois)%list).
Proof.
  induction dois as [|doi rest IH]; intros seen u Hseen Hu; cbn.
  - split; [exact Hu|]. split; [set_solver|].
    split; [exists []; rewrite app_nil_r; split; [reflexivity | constructor]|].
    intros _. rewrite app_nil_r. reflexivity.
  - destruct (bool_decide (doi ∈ seen)) eqn:E.
    + apply bool_decide_eq_true in E.
      destruct (IH seen u Hseen Hu) as (H1 & H2 & (v & H3 & H3') & H4).
      split; [exact H1|]. split.
      { intros x. rewrite H2. subst seen. set_solver. }
      split.
      { exists v. split; [exact H3 | apply sublist_cons, H3']. }
      intros Hnd. exfalso. apply NoDup_app in Hnd as (_ & Hdis & _).
      subst seen. apply elem_of_list_to_set in E.
      apply (Hdis doi E). left.
    + apply bool_decide_eq_false in E.
      destruct (IH (seen ∪ {[doi]}) (u ++ [doi])%list)
        as (H1 & H2 & (v & H3 & H3') & H4).
      { subst seen. rewrite list_to_set_app_L. set_solver. }
      { apply NoDup_app. split; [exact Hu|]. split.
        - intros x Hx Hx'. apply list_elem_of_singleton in Hx'. subst x.
          apply E. subst seen. apply elem_of_list_to_set. exact Hx.
        - apply NoDup_singleton. }
      split; [exact H1|]. split.
      { intros x. rewrite H2. set_solver. }
      split.
      { exists (doi :: v). rewrite H3, <- app_assoc. split; [reflexivity|].
        apply sublist_skip, H3'. }
      intros Hnd. rewrite H4; rewrite <- app_assoc; [reflexivity | exact Hnd].
Qed.

Lemma remove_loop_first (dois : list string) :
  forall (seen : gset string) (u : list string),
    Extractors.remove_loop dois seen u
    = (u ++ filter (fun y => y ∉ seen) (More.first_occurrences dois))%list.
Proof.
  induction dois as [|doi rest IH]; intros seen u;
    cbn [Extractors.remove_loop More.first_occurrences].
  - rewrite filter_nil, app_nil_r. reflexivity.
  - destruct (bool_decide (doi ∈ seen)) eqn:E.
    + apply bool_decide_eq_true in E. rewrite IH.
      rewrite filter_cons_False by (intros H; exact (H E)).
      rewrite list_filter_filter. f_equal.
      apply list_filter_iff. intros y. split; [|intros [H _]; exact H].
      intros H. split; [exact H|]. intros ->. exact (H E).
    + apply bool_decide_eq_false in E. rewrite IH.
      rewrite filter_cons_True by exact E.
      rewrite <- app_assoc. cbn [app]. do 2 f_equal.
      rewrite list_filter_filter. apply list_filter_iff. intros y.
      rewrite not_elem_of_union, not_elem_of_singleton. reflexivity.
Qed.

Lemma remove_duplicates_first (dois : list string) :
  Extractors._remove_duplicates dois = More.first_occurrences dois.
Proof.
  unfold Extractors._remove_duplicates. rewrite remove_loop_first.
  cbn [app]. induction (More.first_occurrences dois) as [|x l IH];
    [reflexivity|].
  rewrite filter_cons_True by set_solver. rewrite IH. reflexivity.
Qed.

(** [_remove_duplicates] returns a list without repetition that holds
    the same identifiers, each at the place of its first occurrence:
    the head of the list stays the head, and what follows it is what
    the rest of the list gives, without the head.  A list without
    repetition is returned as it is. *)
Theorem remove_duplicates_spec (dois : list string) :
  NoDup (Extractors._remove_duplicates dois)
  /\ (forall x, x ∈ Extractors._remove_duplicates dois <-> x ∈ dois)
  /\ sublist (Extractors._remove_duplicates dois) dois
  /\ (NoDup dois -> Extractors._remove_duplicates dois = dois)
  /\ Extractors._remove_duplicates (Extractors._remove_duplicates dois)
     = Extractors._remove_duplicates dois
  /\ Extractors._remove_duplicates dois = More.first_occurrences dois
  /\ (forall x rest,
        Extractors._remove_duplicates (x :: rest)
        = x :: filter (fun y => y <> x) (Extractors._remove_duplicates rest)).
Proof.
  split; [|split; [|split; [|split; [|split; [|split]]]]];
    try apply remove_duplicates_first.
  all: unfold Extractors._remove_duplicates.
  all: destruct (remove_loop_spec dois ∅ [] eq_refl (@NoDup_nil_2 string))
         as (H1 & H2 & (v & H3 & H3') & H4).
  - exact H1.
  - intros x; rewrite H2; set_solver.
  - rewrite H3; exact H3'.
  - exact H4.
  - destruct (remove_loop_spec (Extractors.remove_loop dois ∅ []) ∅ []
                eq_refl (@NoDup_nil_2 string)) as (_ & _ & _ & H5).
    apply H5. exact H1.
  - intros x rest.
    change (Extractors._remove_duplicates (x :: rest)
            = x :: filter (fun y => y <> x)
                     (Extractors._remove_duplicates rest)).
    rewrite !remove_duplicates_first. reflexivity.
Qed.

Lemma remove_duplicates_spec_witness :
  Extractors._remove_duplicates ["10.1000/a1"; "10.1000/a2"; "10.1000/a1"]
  = ["10.1000/a1"; "10.1000/a2"]
  /\ Extractors._remove_duplicates ["10.1000/a1"; "10.1000/a2"]
     = ["10.1000/a1"; "10.1000/a2"].
Proof.
  split.
  - destruct (remove_duplicates_spec
                ["10.1000/a1"; "10.1000/a2"; "10.1000/a1"])
      as (_ & _ & _ & _ & _ & H & _).
    rewrite H. vm_compute. reflexivity.
  - destruct (remove_duplicates_spec ["10.1000/a1"; "10.1000/a2"])
      as (_ & _ & _ & H & _).
    apply H. repeat constructor; set_solver.
Defined.

Lemma strip_strip (s : string) : strip (strip s) = strip s.
Proof.
  apply strip_by_fixed; [apply strip_first_ok | apply strip_last_ok].
Qed.

Lemma strip_saved_line (s : string) :
  strip (strip s ++ newline_str) = strip s.
Proof.
  rewrite <- (append_nil_l (strip s ++ newline_str)). unfold strip at 1.
  rewrite (strip_by_surrounded isspace EmptyString (strip s) newline_str)
    by reflexivity.
  apply strip_strip.
Qed.

Lemma validate_doi_strip (s : string) :
  Validation.validate_doi s = true -> Validation.validate_doi (strip s) = true.
Proof.
  intros H. apply validate_doi_iff_shape. rewrite strip_strip.
  apply validate_doi_iff_shape, H.
Qed.

Lemma load_lines_saved (dois : list string) :
  forall (acc : list string) (d : Downloader),
    Forall (fun x => Validation.validate_doi x = true) dois ->
    let listed := filter (fun x => x ∉ downloaded_dois d) (map strip dois) in
    let run := load_lines (map (fun doi => strip doi ++ newline_str) dois)
                 acc d in
    run.1 = (acc ++ listed)%list
    /\ skipped (progress run.2)
       = skipped (progress d) + Z.of_nat (length dois)
         - Z.of_nat (length listed).
Proof.
  induction dois as [|doi rest IH]; intros acc d Hall; cbn zeta.
  - cbn. rewrite app_nil_r. split; [reflexivity | lia].
  - inversion Hall as [|? ? Hv Hrest]; subst.
    apply validate_doi_strip in Hv.
    pose proof Hv as Hshape. apply validate_doi_iff_shape in Hshape.
    rewrite strip_strip in Hshape.
    destruct (doi_shaped_plain _ Hshape) as (_ & _ & _ & _ & _ & Hne & Hhash).
    destruct (normalize_doi_valid_facts _ Hv) as (Hnorm & _ & _).
    rewrite strip_strip in Hnorm.
    cbn [map load_lines]. rewrite strip_saved_line, Hne, Hhash, Hnorm, Hv.
    cbn [negb andb].
    destruct (bool_decide (strip doi ∈ downloaded_dois d)) eqn:E.
    + apply bool_decide_eq_true in E.
      rewrite filter_cons_False by (intros Hn; exact (Hn E)).
      destruct (IH acc (set_progress incr_skipped d) Hrest) as [H1 H2].
      cbn in H1, H2. rewrite H1, H2. cbn. split; [reflexivity | lia].
    + apply bool_decide_eq_false in E.
      rewrite filter_cons_True by exact E.
      destruct (IH (acc ++ [strip doi])%list d Hrest) as [H1 H2].
      rewrite H1, H2, <- app_assoc. cbn. split; [reflexivity | lia].
Qed.

(** ** Reading back what was written *)

Lemma universal_newlines_line (y rest : string) :
  More.single_line y = true ->
  universal_newlines (y ++ newline_str ++ rest)
  = y ++ newline_str ++ universal_newlines rest.
Proof.
  unfold More.single_line. induction y as [|c y IH]; intros H.
  - rewrite !append_nil_l. reflexivity.
  - cbn [all_chars] in H. apply andb_true_iff in H as [Hc Hy].
    apply negb_true_iff, orb_false_iff in Hc as [_ Hcr].
    rewrite !append_cons. cbn [universal_newlines]. rewrite Hcr.
    rewrite (IH Hy). reflexivity.
Qed.

Lemma split_lines_line (y rest : string) :
  More.single_line y = true ->
  split_lines (y ++ newline_str ++ rest)
  = (y ++ newline_str) :: split_lines rest.
Proof.
  unfold More.single_line. induction y as [|c y IH]; intros H.
  - rewrite !append_nil_l. reflexivity.
  - cbn [all_chars] in H. apply andb_true_iff in H as [Hc Hy].
    apply negb_true_iff, orb_false_iff in Hc as [Hlf _].
    rewrite !append_cons. cbn [split_lines]. rewrite Hlf.
    rewrite (IH Hy). reflexivity.
Qed.

(** Lines written one by one, none holding a line break of its own, are
    the lines read back. *)
Lemma readlines_written (l : list string) :
  Forall (fun y => More.single_line y = true) l ->
  readlines (map (fun y => y ++ newline_str) l)
  = map (fun y => y ++ newline_str) l.
Proof.
  unfold readlines. induction l as [|y l IH]; intros H; [reflexivity|].
  inversion H as [|? ? Hy Hl]; subst. cbn [map fold_right].
  rewrite append_assoc, (universal_newlines_line _ _ Hy),
    (split_lines_line _ _ Hy), (IH Hl).
  reflexivity.
Qed.

Lemma suffix_char_no_break (c : ascii) :
  Re.ignorecase Validation.doi_suffix_class c = true ->
  negb (is_lf c || is_cr c) = true.
Proof.
  destruct c as [[] [] [] [] [] [] [] []]; vm_compute; intros H;
    first [discriminate H | reflexivity].
Qed.

Lemma digit_no_break (c : ascii) :
  Validation.is_digit c = true -> negb (is_lf c || is_cr c) = true.
Proof.
  destruct c as [[] [] [] [] [] [] [] []]; vm_compute; intros H;
    first [discriminate H | reflexivity].
Qed.

Lemma doi_shaped_single_line (t : string) :
  More.doi_shaped t -> More.single_line t = true.
Proof.
  intros (reg & suf & -> & _ & Hreg & _ & Hsuf). unfold More.single_line.
  rewrite !all_chars_app.
  rewrite (all_chars_impl _ _ _ digit_no_break Hreg),
    (all_chars_impl _ _ _ suffix_char_no_break Hsuf).
  reflexivity.
Qed.

(** The identifier file written by [_save_dois] is read back by
    [_load_dois] as the same identifiers, stripped and in the same
    order, less the ones already resolved, which are counted as
    skipped. *)
Theorem saved_list_loads (dois : list string) (path : string)
    (d : Downloader) (w : World) :
  Forall (fun x => Validation.validate_doi x = true) dois ->
  let listed := filter (fun x => x ∉ downloaded_dois d) (map strip dois) in
  let loaded := _load_dois Extractors.read_text_lines path d
                  (Extractors._save_dois dois path w).2 in
  loaded.1 = listed
  /\ skipped (progress loaded.2)
     = skipped (progress d) + Z.of_nat (length dois)
       - Z.of_nat (length listed).
Proof.
  intros Hall. cbn zeta. unfold _load_dois, Extractors.read_text_lines.
  cbn [Extractors._save_dois snd textfiles set_textfiles].
  rewrite lookup_insert_eq. cbn [default id].
  assert (Hread : readlines (map (fun doi => strip doi ++ newline_str) dois)
                  = map (fun doi => strip doi ++ newline_str) dois).
  { rewrite <- (map_map strip (fun y => y ++ newline_str)).
    apply readlines_written, Forall_map.
    eapply Forall_impl; [exact Hall|]. intros x Hx.
    apply doi_shaped_single_line, validate_doi_iff_shape, Hx. }
  rewrite Hread.
  exact (load_lines_saved dois [] d Hall).
Qed.

Lemma saved_list_loads_witness :
  (_load_dois Extractors.read_text_lines "dois.txt" Spec.fresh
     (Extractors._save_dois ["10.1000/a1"; " 10.1000/a2 "] "dois.txt"
        (Spec.world_with [])).2).1
  = ["10.1000/a1"; "10.1000/a2"].
Proof.
  destruct (saved_list_loads ["10.1000/a1"; " 10.1000/a2 "] "dois.txt"
              Spec.fresh (Spec.world_with [])) as [H _].
  { repeat constructor. }
  rewrite H. vm_compute. reflexivity.
Defined.

(** ** Fetching one document *)

Lemma buffer_chunks_over (cs : list (list byte)) :
  forall content content' rest,
    buffer_chunks content cs = (content', Some rest) ->
    validation_limit < PyBytes.len content'.
Proof.
  induction cs as [|chunk cs IH]; intros content content' rest H;
    cbn [buffer_chunks] in H; [discriminate|].
  destruct chunk as [|x chunk]; [exact (IH _ _ _ H)|].
  destruct (PyBytes.len (content ++ x :: chunk) >? validation_limit) eqn:E.
  - injection H as <- _. apply Z.gtb_lt in E. exact E.
  - exact (IH _ _ _ H).
Qed.

Lemma only_touches_refl (p : string) (w : World) : More.only_touches p w w.
Proof. unfold More.only_touches. repeat split; auto; lia. Qed.

Lemma only_touches_trans (p : string) (w1 w2 w3 : World) :
  fs w2 = fs w1 -> textfiles w2 = textfiles w1 -> slept w2 = slept w1 ->
  (length (requested w2) <= length (requested w1) + 1)%nat ->
  (length (net w1) <= length (net w2) + 1)%nat ->
  (forall q, q <> p -> fs w3 !! q = fs w2 !! q) ->
  textfiles w3 = textfiles w2 -> slept w3 = slept w2 ->
  requested w3 = requested w2 -> net w3 = net w2 ->
  More.only_touches p w1 w3.
Proof.
  intros H1 H2 H3 H4 H5 H6 H7 H8 H9 H10. unfold More.only_touches.
  rewrite H7, H8, H9, H10, H2, H3. repeat split; auto.
  intros q Hq. rewrite (H6 q Hq), H1. reflexivity.
Qed.

Lemma session_get_facts (u : string) (w w1 : World) (reply : Reply) :
  session_get u w = (reply, w1) ->
  fs w1 = fs w /\ textfiles w1 = textfiles w /\ slept w1 = slept w
  /\ (length (requested w1) <= length (requested w) + 1)%nat
  /\ (length (net w) <= length (net w1) + 1)%nat.
Proof.
  unfold session_get. destruct (net w) eqn:E; intros H; inversion H; subst;
    cbn; rewrite ?length_app, ?E; cbn; repeat split; lia.
Qed.

(** The files besides [p], and everything that is not a file, after the
    steps that follow the request. *)
Lemma cleanup_frame (p : string) (w : World) :
  (forall q, q <> p -> fs (cleanup p w) !! q = fs w !! q)
  /\ textfiles (cleanup p w) = textfiles w /\ slept (cleanup p w) = slept w
  /\ requested (cleanup p w) = requested w /\ net (cleanup p w) = net w.
Proof.
  unfold cleanup. destruct (exists_file p w); cbn; repeat split; auto.
  intros q Hq. apply lookup_delete_ne. congruence.
Qed.

Lemma store_body_frame (p : string) (resp : Response) (w w' : World)
    (res : Exc + list byte) :
  store_body p resp w = (res, w') ->
  (forall q, q <> p -> fs w' !! q = fs w !! q)
  /\ textfiles w' = textfiles w /\ slept w' = slept w
  /\ requested w' = requested w /\ net w' = net w
  /\ (forall content, res = inr content ->
      exists data, fs w' !! p = Some data
                   /\ take 1024 data = take 1024 content
                   /\ PyBytes.len content <= PyBytes.len data).
Proof.
  unfold store_body.
  destruct (buffer_chunks [] (chunks resp)) as [content [rest|]] eqn:B;
    destruct (stream_error resp); intros H; injection H as <- <-; cbn;
    repeat split; auto;
    try (intros q Hq; apply lookup_insert_ne; congruence);
    try discriminate.
  - intros c Hc. injection Hc as <-. eexists. rewrite lookup_insert_eq.
    split; [reflexivity|]. apply buffer_chunks_over in B.
    unfold PyBytes.len, validation_limit in *. rewrite length_app.
    split; [apply take_app_le; lia | lia].
  - intros c Hc. injection Hc as <-. eexists. rewrite lookup_insert_eq.
    split; [reflexivity|]. split; [reflexivity | lia].
Qed.

Lemma download_paper_stored (paper : Paper) (doi out tag : string)
    (w w' : World) (r : Result) :
  _try_download_paper paper doi out tag w = (r, w') ->
  success r = true ->
  file_path r = Some (More.paper_path paper doi out tag)
  /\ More.stored_document (More.paper_path paper doi out tag) w'
  /\ res_doi r = Some doi /\ source r = Some tag /\ error r = None.
Proof.
  intros Hrun Hok. unfold _try_download_paper in Hrun.
  fold (More.paper_path paper doi out tag) in Hrun.
  set (p := More.paper_path paper doi out tag) in *.
  destruct (negb (truthy (paper_url paper)));
    [inversion Hrun; subst; discriminate Hok|].
  destruct (session_get _ w) as [reply w1].
  destruct reply as [e|resp]; [inversion Hrun; subst; discriminate Hok|].
  destruct (contains _ "text/html" || contains _ "text/plain");
    [inversion Hrun; subst; discriminate Hok|].
  destruct (store_body p resp w1) as [[e|content] w2] eqn:Hs;
    [inversion Hrun; subst; discriminate Hok|].
  apply store_body_frame in Hs as (_ & _ & _ & _ & _ & Hdata).
  destruct (Hdata content eq_refl) as (data & Hfile & Htake & _).
  destruct (_is_valid_pdf (take 1024 content)) eqn:Hv; cbn [negb] in Hrun;
    [|inversion Hrun; subst; discriminate Hok].
  destruct (exists_file p w2 && (st_size p w2 >? 1000)) eqn:Hbig;
    [|inversion Hrun; subst; discriminate Hok].
  inversion Hrun; subst. cbn. repeat split.
  apply andb_true_iff in Hbig as [_ Hbig]. unfold st_size in Hbig.
  rewrite Hfile in Hbig. apply Z.gtb_lt in Hbig.
  exists data. rewrite Htake. auto.
Qed.

Lemma download_paper_touches (paper : Paper) (doi out tag : string)
    (w w' : World) (r : Result) :
  _try_download_paper paper doi out tag w = (r, w') ->
  More.only_touches (More.paper_path paper doi out tag) w w'
  /\ res_doi r = Some doi
  /\ (success r = false -> exists msg, error r = Some msg).
Proof.
  intros Hrun. unfold _try_download_paper in Hrun.
  fold (More.paper_path paper doi out tag) in Hrun.
  set (p := More.paper_path paper doi out tag) in *.
  destruct (negb (truthy (paper_url paper))).
  { inversion Hrun; subst. split; [apply only_touches_refl|]. cbn. eauto. }
  destruct (session_get _ w) as [reply w1] eqn:Hget.
  apply session_get_facts in Hget as (G1 & G2 & G3 & G4 & G5).
  destruct (cleanup_frame p w1) as (C1 & C2 & C3 & C4 & C5).
  destruct reply as [e|resp].
  { inversion Hrun; subst. cbn.
    split; [eapply only_touches_trans; eauto | eauto]. }
  destruct (contains _ "text/html" || contains _ "text/plain").
  { inversion Hrun; subst. cbn.
    split; [eapply only_touches_trans; eauto | eauto]. }
  destruct (store_body p resp w1) as [[e|content] w2] eqn:Hs;
    apply store_body_frame in Hs as (S1 & S2 & S3 & S4 & S5 & _);
    destruct (cleanup_frame p w2) as (D1 & D2 & D3 & D4 & D5).
  { inversion Hrun; subst. cbn. split; [|eauto].
    eapply only_touches_trans; eauto; try congruence.
    intros q Hq. rewrite (D1 q Hq). auto. }
  destruct (negb (_is_valid_pdf (take 1024 content))).
  { change (if exists_file p w2 then unlink p w2 else w2)
      with (cleanup p w2) in Hrun.
    inversion Hrun; subst. cbn. split; [|eauto].
    eapply only_touches_trans; eauto; try congruence.
    intros q Hq. rewrite (D1 q Hq). auto. }
  destruct (exists_file p w2 && (st_size p w2 >? 1000));
    inversion Hrun; subst; cbn;
    (split; [eapply only_touches_trans; eauto | split; [reflexivity|]]);
    [discriminate | eauto].
Qed.

(** Whatever its outcome, [_try_download_paper] touches no file but its
    target, writes no text file, never sleeps and makes at most one
    request; its result names the identifier, and a failure carries a
    reason. *)
Theorem download_paper_frame (paper : Paper) (doi out tag : string)
    (w w' : World) (r : Result) :
  _try_download_paper paper doi out tag w = (r, w') ->
  More.only_touches (More.paper_path paper doi out tag) w w'
  /\ res_doi r = Some doi
  /\ (success r = false -> exists msg, error r = Some msg).
Proof. exact (download_paper_touches paper doi out tag w w' r). Qed.

Lemma download_paper_frame_witness :
  More.only_touches "out/A_paper_10.1000_xyz123_CORE.pdf"
    (Spec.world_with
       [Spec.served "application/pdf"
          [PyBytes.b "<html>Access Denied</html>"]])
    (_try_download_paper (Spec.paper_at "https://example.org/a.pdf")
       "10.1000/xyz123" "out" "CORE"
       (Spec.world_with
          [Spec.served "application/pdf"
             [PyBytes.b "<html>Access Denied</html>"]])).2.
Proof.
  destruct (_try_download_paper (Spec.paper_at "https://example.org/a.pdf")
              "10.1000/xyz123" "out" "CORE"
              (Spec.world_with
                 [Spec.served "application/pdf"
                    [PyBytes.b "<html>Access Denied</html>"]]))
    as [r w'] eqn:E.
  exact (proj1 (download_paper_frame _ _ _ _ _ _ _ E)).
Defined.

(** A successful [_try_download_paper] has stored a document at the path
    it reports: a file larger than 1000 bytes whose head passes the
    content validation. *)
Theorem download_paper_success (paper : Paper) (doi out tag : string)
    (w w' : World) (r : Result) :
  _try_download_paper paper doi out tag w = (r, w') ->
  success r = true ->
  file_path r = Some (More.paper_path paper doi out tag)
  /\ More.stored_document (More.paper_path paper doi out tag) w'
  /\ res_doi r = Some doi /\ source r = Some tag /\ error r = None.
Proof. exact (download_paper_stored paper doi out tag w w' r). Qed.

Lemma download_paper_success_witness :
  More.stored_document "out/A_paper_10.1000_xyz123_CORE.pdf"
    (_try_download_paper (Spec.paper_at "https://example.org/a.pdf")
       "10.1000/xyz123" "out" "CORE"
       (Spec.world_with [Spec.served "application/pdf" [More.pdf_body]])).2.
Proof.
  destruct (_try_download_paper (Spec.paper_at "https://example.org/a.pdf")
              "10.1000/xyz123" "out" "CORE"
              (Spec.world_with [Spec.served "application/pdf" [More.pdf_body]]))
    as [r w'] eqn:E.
  destruct (download_paper_success _ _ _ _ _ _ _ E) as (_ & H & _).
  - vm_compute in E. injection E as <- _. reflexivity.
  - exact H.
Defined.

Lemma download_paper_cleanup_witness :
  fs (_try_download_paper (Spec.paper_at "https://example.org/a.pdf")
        "10.1000/xyz123" "out" "CORE"
        (Spec.world_with
           [Spec.served "application/pdf"
              [PyBytes.b "<html>Access Denied</html>"]])).2
  !! "out/A_paper_10.1000_xyz123_CORE.pdf" = None.
Proof.
  destruct (_try_download_paper (Spec.paper_at "https://example.org/a.pdf")
              "10.1000/xyz123" "out" "CORE"
              (Spec.world_with
                 [Spec.served "application/pdf"
                    [PyBytes.b "<html>Access Denied</html>"]]))
    as [r w'] eqn:E.
  apply (download_paper_cleanup (Spec.paper_at "https://example.org/a.pdf")
           "10.1000/xyz123" "out" "CORE"
           (Spec.world_with
              [Spec.served "application/pdf"
                 [PyBytes.b "<html>Access Denied</html>"]]) w' r).
  - reflexivity.
  - exact E.
  - vm_compute in E. injection E as <- _. reflexivity.
  - vm_compute in E. injection E as <- _. discriminate.
Defined.

(** A successful [_try_ncbi_download] has stored a document at the path
    it reports, and tags it with the source of the link. *)
Theorem ncbi_download_success (link_info : LinkInfo) (doi out : string)
    (paper_info : PaperInfo) (w w' : World) (r : Result) :
  _try_ncbi_download link_info doi out paper_info w = (r, w') ->
  success r = true ->
  file_path r = Some (More.ncbi_path paper_info doi out)
  /\ More.stored_document (More.ncbi_path paper_info doi out) w'
  /\ res_doi r = Some doi
  /\ source r = Some ("NCBI-" ++ get_str (link_source link_info) "NCBI")
  /\ is_Some (url link_info).
Proof.
  intros Hrun Hok. unfold _try_ncbi_download in Hrun.
  fold (More.ncbi_path paper_info doi out) in Hrun.
  set (p := More.ncbi_path paper_info doi out) in *.
  destruct (url link_info) as [u|];
    [|inversion Hrun; subst; discriminate Hok].
  destruct (session_get u w) as [reply w1].
  destruct reply as [e|resp]; [inversion Hrun; subst; discriminate Hok|].
  destruct (contains _ "text/html");
    [inversion Hrun; subst; discriminate Hok|].
  destruct (store_body p resp w1) as [[e|content] w2] eqn:Hs;
    [inversion Hrun; subst; discriminate Hok|].
  apply store_body_frame in Hs as (_ & _ & _ & _ & _ & Hdata).
  destruct (Hdata content eq_refl) as (data & Hfile & Htake & _).
  destruct (_is_valid_pdf (take 1024 content)) eqn:Hv; cbn [negb] in Hrun;
    [|inversion Hrun; subst; discriminate Hok].
  destruct (exists_file p w2 && (st_size p w2 >? 1000)) eqn:Hbig;
    [|inversion Hrun; subst; discriminate Hok].
  inversion Hrun; subst. cbn. repeat split; [|eauto].
  apply andb_true_iff in Hbig as [_ Hbig]. unfold st_size in Hbig.
  rewrite Hfile in Hbig. apply Z.gtb_lt in Hbig.
  exists data. rewrite Htake. auto.
Qed.

Lemma ncbi_download_success_witness :
  More.stored_document "out/A_paper_123_10.1000_xyz123_NCBI.pdf"
    (_try_ncbi_download
       (mkLinkInfo (Some "https://example.org/a.pdf") (Some "PMC"))
       "10.1000/xyz123" "out" (mkPaperInfo (Some "A paper") [] (Some "123"))
       (Spec.world_with [Spec.served "application/pdf" [More.pdf_body]])).2.
Proof.
  destruct (_try_ncbi_download
              (mkLinkInfo (Some "https://example.org/a.pdf") (Some "PMC"))
              "10.1000/xyz123" "out"
              (mkPaperInfo (Some "A paper") [] (Some "123"))
              (Spec.world_with [Spec.served "application/pdf" [More.pdf_body]]))
    as [r w'] eqn:E.
  destruct (ncbi_download_success _ _ _ _ _ _ _ E) as (_ & H & _).
  - vm_compute in E. injection E as <- _. reflexivity.
  - exact H.
Defined.

(** [_try_ncbi_download] touches no file but its target and never
    sleeps; a link without a URL fails before any request is made; and
    from a free target path every failure other than the too-small one
    leaves no file behind. *)
Theorem ncbi_download_failure (link_info : LinkInfo) (doi out : string)
    (paper_info : PaperInfo) (w w' : World) (r : Result) :
  _try_ncbi_download link_info doi out paper_info w = (r, w') ->
  More.only_touches (More.ncbi_path paper_info doi out) w w'
  /\ res_doi r = Some doi
  /\ (url link_info = None -> w' = w /\ success r = false)
  /\ (success r = false ->
      fs w !! More.ncbi_path paper_info doi out = None ->
      error r <> Some Spec.too_small_ncbi ->
      fs w' !! More.ncbi_path paper_info doi out = None).
Proof.
  intros Hrun. unfold _try_ncbi_download in Hrun.
  fold (More.ncbi_path paper_info doi out) in Hrun.
  set (p := More.ncbi_path paper_info doi out) in *.
  destruct (url link_info) as [u|].
  2:{ inversion Hrun; subst. split; [apply only_touches_refl|].
      cbn. repeat split; auto. }
  destruct (session_get u w) as [reply w1] eqn:Hget.
  apply session_get_facts in Hget as (G1 & G2 & G3 & G4 & G5).
  destruct (cleanup_frame p w1) as (C1 & C2 & C3 & C4 & C5).
  destruct reply as [e|resp].
  { inversion Hrun; subst. cbn.
    split; [eapply only_touches_trans; eauto|].
    repeat split; try discriminate. intros _ _ _. apply cleanup_absent. }
  destruct (contains _ "text/html").
  { inversion Hrun; subst. cbn.
    split; [eapply only_touches_trans; eauto|].
    repeat split; try discriminate. intros _ Hfree _. rewrite G1. exact Hfree. }
  destruct (store_body p resp w1) as [[e|content] w2] eqn:Hs;
    apply store_body_frame in Hs as (S1 & S2 & S3 & S4 & S5 & _);
    destruct (cleanup_frame p w2) as (D1 & D2 & D3 & D4 & D5).
  { inversion Hrun; subst. cbn. split.
    - eapply only_touches_trans; eauto; try congruence.
      intros q Hq. rewrite (D1 q Hq). auto.
    - repeat split; try discriminate. intros _ _ _. apply cleanup_absent. }
  destruct (negb (_is_valid_pdf (take 1024 content))).
  { change (if exists_file p w2 then unlink p w2 else w2)
      with (cleanup p w2) in Hrun.
    inversion Hrun; subst. cbn. split.
    - eapply only_touches_trans; eauto; try congruence.
      intros q Hq. rewrite (D1 q Hq). auto.
    - repeat split; try discriminate. intros _ _ _. apply cleanup_absent. }
  destruct (exists_file p w2 && (st_size p w2 >? 1000));
    inversion Hrun; subst; cbn;
    (split; [eapply only_touches_trans; eauto|]);
    repeat split; try discriminate.
  intros _ _ Hmsg. exfalso. apply Hmsg. reflexivity.
Qed.

Lemma ncbi_download_failure_witness :
  (_try_ncbi_download (mkLinkInfo None None) "10.1000/xyz123" "out"
     (mkPaperInfo None [] None) (Spec.world_with [])).2
  = Spec.world_with [].
Proof.
  destruct (_try_ncbi_download (mkLinkInfo None None) "10.1000/xyz123" "out"
              (mkPaperInfo None [] None) (Spec.world_with []))
    as [r w'] eqn:E.
  destruct (ncbi_download_failure _ _ _ _ _ _ _ E) as (_ & _ & H & _).
  destruct (H eq_refl) as [-> _]. reflexivity.
Defined.

(** ** The rate-limited adapter, on every answer *)

Lemma try_papers_facts (papers : list Paper) (doi out : string) :
  forall (w w' : World) (res : option Result),
    try_papers papers doi out w = (res, w') ->
    slept w' = slept w
    /\ (forall r, res = Some r -> success r = true /\ res_doi r = Some doi).
Proof.
  induction papers as [|paper rest IH]; intros w w' res H; cbn in H.
  - injection H as <- <-. split; [reflexivity | discriminate].
  - destruct (_try_download_paper paper doi out "CORE" w) as [r w1] eqn:E.
    apply download_paper_touches in E as ((_ & _ & Hs & _) & Hd & _).
    destruct (success r) eqn:Hok.
    + injection H as <- <-. split; [exact Hs|].
      intros r' Hr. injection Hr as <-. auto.
    + apply IH in H as [H1 H2]. split; [congruence | exact H2].
Qed.

Lemma core_attempt_cases (attempt : Z) (doi out : string) (w : World) :
  0 <= attempt ->
  match core_attempt attempt doi out w with
  | Continue w' =>
      attempt < max_retries
      /\ exists d, slept w' = (slept w ++ [d])%list
                   /\ 5 <= d <= 10 * 2 ^ attempt
  | Return r w' => slept w' = slept w /\ res_doi r = Some doi
  end.
Proof.
  intros Hpos. unfold core_attempt.
  destruct (session_get _ w) as [reply w1] eqn:Hget.
  apply session_get_facts in Hget as (_ & _ & Hs & _).
  assert (Hpow : 1 <= 2 ^ attempt) by (apply Z.pow_le_mono_r with (b := 0); lia).
  destruct (match reply with Raises e => inl e | Responds response => json response end)
    as [[status text|text|text]|data].
  - destruct (status =? 429).
    + destruct (attempt <? max_retries) eqn:E; cbn; [|auto].
      apply Z.ltb_lt in E. split; [exact E|].
      eexists. rewrite Hs. split; [reflexivity|]. unfold base_delay. lia.
    + destruct (status =? 500); [|cbn; auto].
      destruct (attempt <? max_retries) eqn:E; cbn; [|auto].
      apply Z.ltb_lt in E. split; [exact E|].
      eexists. rewrite Hs. split; [reflexivity|]. lia.
  - cbn. auto.
  - cbn. auto.
  - destruct (default 0 (totalHits data) >? 0); [|cbn; auto].
    destruct (try_papers _ doi out w1) as [[r|] w2] eqn:T;
      apply try_papers_facts in T as [T1 T2]; cbn; rewrite T1; [|auto].
    split; [exact Hs | apply (T2 r eq_refl)].
Qed.

(** [_try_core_api] returns a result on every script of answers (its
    retry loop never runs out without a [return]); the result names the
    identifier, and at most three waits were made, of at most 10, 20 and
    40 seconds. *)
Theorem core_api_returns (doi out : string) (w : World) :
  exists r w' delays,
    _try_core_api doi out w = (Some r, w')
    /\ res_doi r = Some doi
    /\ slept w' = (slept w ++ delays)%list
    /\ (length delays <= 3)%nat
    /\ Forall (fun d => 5 <= d <= 40) delays
    /\ foldr Z.add 0 delays <= 70.
Proof.
  unfold _try_core_api.
  change (range (max_retries + 1)) with [0; 1; 2; 3].
  cbn [core_loop].
  pose proof (core_attempt_cases 0 doi out w ltac:(lia)) as H0.
  destruct (core_attempt 0 doi out w) as [w1|r w1].
  2:{ destruct H0 as [Hs Hd]. exists r, w1, []. rewrite app_nil_r.
      cbn. repeat split; auto; lia. }
  destruct H0 as (_ & d0 & Hs0 & Hd0).
  pose proof (core_attempt_cases 1 doi out w1 ltac:(lia)) as H1.
  destruct (core_attempt 1 doi out w1) as [w2|r w2].
  2:{ destruct H1 as [Hs Hd]. exists r, w2, [d0]. rewrite Hs, Hs0.
      cbn in *. repeat split; auto; repeat constructor; lia. }
  destruct H1 as (_ & d1 & Hs1 & Hd1).
  pose proof (core_attempt_cases 2 doi out w2 ltac:(lia)) as H2.
  destruct (core_attempt 2 doi out w2) as [w3|r w3].
  2:{ destruct H2 as [Hs Hd]. exists r, w3, [d0; d1].
      rewrite Hs, Hs1, Hs0, <- app_assoc.
      cbn in *. repeat split; auto; repeat constructor; lia. }
  destruct H2 as (_ & d2 & Hs2 & Hd2).
  pose proof (core_attempt_cases 3 doi out w3 ltac:(lia)) as H3.
  destruct (core_attempt 3 doi out w3) as [w4|r w4].
  { destruct H3 as [H3 _]. unfold max_retries in H3. lia. }
  destruct H3 as [Hs Hd]. exists r, w4, [d0; d1; d2].
  rewrite Hs, Hs2, Hs1, Hs0, <- !app_assoc.
  cbn in *. repeat split; auto; repeat constructor; lia.
Qed.

(** ** Loading the identifier list *)

Lemma load_lines_app (l1 l2 : list string) :
  forall (acc : list string) (d : Downloader),
    load_lines (l1 ++ l2) acc d =
    load_lines l2 (load_lines l1 acc d).1 (load_lines l1 acc d).2.
Proof.
  induction l1 as [|line l1 IH]; intros acc d; [reflexivity|].
  cbn [app load_lines].
  destruct (negb _ && negb _); [|apply IH].
  destruct (Validation.validate_doi _); [|apply IH].
  destruct (bool_decide _); apply IH.
Qed.

(** Blank lines, comment lines and lines that are no valid identifier
    may be added to the file or removed from it anywhere without any
    effect on what [_load_dois] returns. *)
Theorem load_dois_ignores (l1 l2 : list string) (line : string)
    (acc : list string) (d : Downloader) :
  More.ignored_line line = true ->
  load_lines (l1 ++ line :: l2) acc d = load_lines (l1 ++ l2) acc d.
Proof.
  intros H. rewrite !load_lines_app.
  generalize (load_lines l1 acc d).1 (load_lines l1 acc d).2. intros a d1.
  cbn [load_lines]. unfold More.ignored_line in H.
  destruct (is_empty (strip line)); [reflexivity|].
  destruct (startswith (strip line) "#"); [reflexivity|].
  cbn in H |- *. apply negb_true_iff in H. rewrite H. reflexivity.
Qed.

Lemma load_dois_ignores_witness :
  load_lines ["10.1000/a1"; "# a comment"; "10.1000/a2"] [] Spec.fresh
  = load_lines ["10.1000/a1"; "10.1000/a2"] [] Spec.fresh.
Proof.
  apply (load_dois_ignores ["10.1000/a1"] ["10.1000/a2"] "# a comment").
  reflexivity.
Defined.

Lemma load_lines_listed (lines : list string) :
  forall (acc dois : list string) (d d' : Downloader),
    load_lines lines acc d = (dois, d') ->
    (exists new, dois = (acc ++ new)%list
       /\ Forall (fun x => Validation.validate_doi x = true
                           /\ x ∉ downloaded_dois d) new
       /\ Z.of_nat (length new) + (skipped (progress d') - skipped (progress d))
          <= Z.of_nat (length lines))
    /\ 0 <= skipped (progress d') - skipped (progress d)
    /\ mkDownloader (with_status (status (progress d))
                       (mkProgress (current (progress d)) (total (progress d))
                          (downloaded (progress d)) (failed (progress d))
                          (skipped (progress d'))
                          (current_doi (progress d)) (status (progress d))
                          (output_folder (progress d))
                          (start_time (progress d))))
         (stop_flag d) (downloaded_dois d) (failed_dois d) = d'.
Proof.
  induction lines as [|line lines IH]; intros acc dois d d' H;
    cbn [load_lines] in H.
  - injection H as <- <-. split.
    + exists []. rewrite app_nil_r. split; [reflexivity|].
      split; [constructor | cbn; lia].
    + split; [lia|]. destruct d as [[] ? ? ?]. reflexivity.
  - assert (Hskip : forall acc0 d0,
              load_lines lines acc0 d0 = (dois, d') ->
              acc0 = acc -> d0 = d ->
              (exists new, dois = (acc ++ new)%list
                 /\ Forall (fun x => Validation.validate_doi x = true
                                     /\ x ∉ downloaded_dois d) new
                 /\ Z.of_nat (length new)
                    + (skipped (progress d') - skipped (progress d))
                    <= Z.of_nat (length (line :: lines)))
              /\ 0 <= skipped (progress d') - skipped (progress d)
              /\ mkDownloader
                   (with_status (status (progress d))
                      (mkProgress (current (progress d)) (total (progress d))
                         (downloaded (progress d)) (failed (progress d))
                         (skipped (progress d'))
                         (current_doi (progress d)) (status (progress d))
                         (output_folder (progress d))
                         (start_time (progress d))))
                   (stop_flag d) (downloaded_dois d) (failed_dois d) = d').
    { intros acc0 d0 H0 -> ->. apply IH in H0 as ((new & E & F & L) & P & D).
      split; [|split; assumption].
      exists new. split; [exact E|]. split; [exact F|]. cbn [length]. lia. }
    destruct (negb _ && negb _); [|eapply Hskip; eauto].
    destruct (Validation.validate_doi _) eqn:Hv; [|eapply Hskip; eauto].
    destruct (bool_decide _) eqn:Hin.
    + apply IH in H as ((new & E & F & L) & P & D). cbn in *.
      split; [|split; [lia | exact D]].
      exists new. split; [exact E|]. split; [exact F | lia].
    + apply bool_decide_eq_false in Hin.
      apply IH in H as ((new & E & F & L) & P & D).
      split; [|split; assumption].
      eexists (_ :: new). rewrite E, <- app_assoc.
      split; [reflexivity|]. split; [constructor; auto|]. cbn [length]. lia.
Qed.

Lemma load_dois_listed_facts {W : Type} (read_lines : string -> W -> list string)
    (doi_file : string) (d : Downloader) (w : W) :
  let loaded := _load_dois read_lines doi_file d w in
  Forall (fun x => Validation.validate_doi x = true
                   /\ x ∉ downloaded_dois d) loaded.1
  /\ downloaded_dois loaded.2 = downloaded_dois d
  /\ failed_dois loaded.2 = failed_dois d
  /\ stop_flag loaded.2 = stop_flag d
  /\ status (progress loaded.2) = status (progress d)
  /\ 0 <= skipped (progress loaded.2) - skipped (progress d)
  /\ Z.of_nat (length loaded.1)
     + (skipped (progress loaded.2) - skipped (progress d))
     <= Z.of_nat (length (read_lines doi_file w)).
Proof.
  cbn zeta. unfold _load_dois.
  destruct (load_lines (read_lines doi_file w) [] d) as [dois d'] eqn:E.
  apply load_lines_listed in E as ((new & -> & F & L) & P & D).
  cbn in *. repeat split; auto; rewrite <- D; reflexivity.
Qed.

(** Every identifier [_load_dois] lists is accepted by [validate_doi]
    and is not in the resolved set; loading changes nothing of the
    downloader but its skipped counter, and the listed and the skipped
    identifiers together are no more than the lines read. *)
Theorem load_dois_listed {W : Type} (read_lines : string -> W -> list string)
    (doi_file : string) (d : Downloader) (w : W) :
  let loaded := _load_dois read_lines doi_file d w in
  Forall (fun x => Validation.validate_doi x = true
                   /\ x ∉ downloaded_dois d) loaded.1
  /\ downloaded_dois loaded.2 = downloaded_dois d
  /\ failed_dois loaded.2 = failed_dois d
  /\ stop_flag loaded.2 = stop_flag d
  /\ status (progress loaded.2) = status (progress d)
  /\ 0 <= skipped (progress loaded.2) - skipped (progress d)
  /\ Z.of_nat (length loaded.1)
     + (skipped (progress loaded.2) - skipped (progress d))
     <= Z.of_nat (length (read_lines doi_file w)).
Proof. exact (load_dois_listed_facts read_lines doi_file d w). Qed.

(** ** Whole batches *)

Section WholeBatches.
Context {W : Type}.
Variable resolve : string -> string -> W -> Outcome * W.
Variable sleep : Z -> W -> W.
Variable stop_request : Phase -> nat -> bool.
Variable read_lines : string -> W -> list string.
Variable mkdir : string -> W -> Exc + W.
Variable now : W -> Z.
Variable save_tracking : Downloader -> W -> W.

(** A batch whose file yields nothing to attempt (no file, no line, only
    comments, invalid or already resolved identifiers) fails with
    [No valid DOIs found in file]: nothing is resolved or saved, the
    world, the ledger, the stop flag and the status stay as they were. *)
Theorem batch_with_nothing_to_do (doi_file out : string) (d : Downloader)
    (w : W) :
  (_load_dois read_lines doi_file d w).1 = [] ->
  exists d',
    download_papers resolve sleep stop_request read_lines mkdir now
      save_tracking doi_file out d w = (More.nothing_to_do, (d', w))
    /\ downloaded_dois d' = downloaded_dois d
    /\ failed_dois d' = failed_dois d
    /\ stop_flag d' = stop_flag d
    /\ status (progress d') = status (progress d)
    /\ skipped (progress d) <= skipped (progress d').
Proof.
  intros Hnil. unfold download_papers.
  pose proof (load_dois_listed_facts read_lines doi_file d w) as H. cbn zeta in H.
  destruct (_load_dois read_lines doi_file d w) as [dois d'].
  cbn in Hnil, H. subst dois.
  destruct H as (_ & H1 & H2 & H3 & H4 & H5 & _).
  exists d'. repeat split; auto. lia.
Qed.

(** When the output folder cannot be made the batch ends in status
    [error] with the message of the exception: nothing is resolved or
    saved, the world and the ledger stay as they were. *)
Theorem batch_without_folder (doi_file out : string) (d : Downloader)
    (w : W) (e : Exc) :
  (_load_dois read_lines doi_file d w).1 <> [] ->
  mkdir out w = inl e ->
  exists d',
    download_papers resolve sleep stop_request read_lines mkdir now
      save_tracking doi_file out d w
    = (mkSummary false (Some (str_exc e)) 0 None None None, (d', w))
    /\ status (progress d') = "error"
    /\ stop_flag d' = false
    /\ downloaded_dois d' = downloaded_dois d
    /\ failed_dois d' = failed_dois d.
Proof.
  intros Hne Hmk. unfold download_papers.
  pose proof (load_dois_listed_facts read_lines doi_file d w) as H. cbn zeta in H.
  destruct (_load_dois read_lines doi_file d w) as [dois d0].
  cbn in Hne, H. destruct H as (_ & H1 & H2 & _).
  destruct dois as [|y ys]; [congruence|]. rewrite Hmk.
  eexists. split; [reflexivity|]. cbn. auto.
Qed.

Lemma process_loop_counts (n : Z) (out : string) (rest : list string) :
  forall (i : nat) (d d' : Downloader) (w w' : W),
    process_loop resolve sleep stop_request n i rest out d w = (d', w') ->
    current (progress d) = Z.of_nat i ->
    Spec.processed d' - Spec.processed d
    = current (progress d') - current (progress d)
    /\ Z.of_nat i <= current (progress d') <= Z.of_nat (i + length rest).
Proof.
  unfold Spec.processed.
  induction rest as [|doi rest IH]; intros i d d' w w' H Hc; cbn in H.
  - injection H as <- <-. cbn. lia.
  - destruct (stop_flag d); [injection H as <- <-; cbn; lia|].
    destruct (process_one resolve sleep stop_request n i doi out d w)
      as [d1 w1] eqn:E1.
    apply process_one_facts in E1 as (_ & Hc1 & Hp1 & _).
    apply IH in H as [H1 H2]; [|lia]. cbn [length]. lia.
Qed.

(** After a batch that ran, the progress counters are consistent: the
    identifiers counted as downloaded or failed are exactly the ones
    started, no more than the total, and the percentage polled by an
    observer lies between 0 and 100. *)
Theorem batch_progress_consistent (doi_file out : string)
    (d d' : Downloader) (w w' : W) (summary : Summary) :
  download_papers resolve sleep stop_request read_lines mkdir now
    save_tracking doi_file out d w = (summary, (d', w')) ->
  sum_success summary = true ->
  Spec.processed d' = current (progress d')
  /\ 0 <= current (progress d') <= total (progress d')
  /\ 0 < total (progress d')
  /\ total_requested summary = total (progress d')
  /\ exists q, progress_percent (progress d') = Some q
               /\ (0 <= q)%Q /\ (q <= 100)%Q.
Proof.
  unfold download_papers. intros H Hok.
  destruct (_load_dois read_lines doi_file d w) as [dois d0].
  destruct dois as [|y ys]; [injection H as <- _ _; discriminate Hok|].
  destruct (mkdir out w) as [e|w0]; [injection H as <- _ _; discriminate Hok|].
  unfold _process_dois in H.
  destruct (process_loop _ _ _ _ _ _ _ _ _) as [d2 w2] eqn:Hloop.
  injection H as <- <- _.
  pose proof (process_loop_total _ _ _ _ _ _ _ _ _ _ _ Hloop) as Ht.
  apply process_loop_counts in Hloop as [Hp Hc]; [|reflexivity].
  unfold Spec.processed in *. cbn in Ht, Hp, Hc |- *.
  rewrite Ht. set (n := Z.of_nat (S (length ys))) in *.
  assert (Hn : 0 < n) by (unfold n; lia).
  repeat split; try lia.
  unfold progress_percent, py_truediv. cbn. rewrite Ht. fold n.
  destruct (n =? 0) eqn:E; [apply Z.eqb_eq in E; lia|].
  eexists. split; [reflexivity|].
  assert (Hq : (0 < inject_Z n)%Q).
  { change 0%Q with (inject_Z 0). rewrite <- Zlt_Qlt. exact Hn. }
  assert (Hlo : (0 <= inject_Z (current (progress d2)))%Q).
  { change 0%Q with (inject_Z 0). rewrite <- Zle_Qle. lia. }
  assert (Hhi : (inject_Z (current (progress d2)) <= inject_Z n)%Q).
  { rewrite <- Zle_Qle. lia. }
  split.
  - apply Qmult_le_0_compat; [|discriminate].
    apply Qle_shift_div_l; [exact Hq|]. rewrite Qmult_0_l. exact Hlo.
  - rewrite <- (Qmult_1_l 100) at 2.
    apply Qmult_le_compat_r; [|discriminate].
    apply Qle_shift_div_r; [exact Hq|]. rewrite Qmult_1_l. exact Hhi.
Qed.
End WholeBatches.

Lemma batch_with_nothing_to_do_witness :
  exists d',
    Spec.run_batch Spec.always_ok Spec.never_stop
      ["# only a comment"; "not-a-doi"; ""] Spec.fresh ["10.1000/a0"]
    = (More.nothing_to_do, (d', ["10.1000/a0"])).
Proof.
  destruct (batch_with_nothing_to_do (Spec.stub_resolve Spec.always_ok)
              Spec.stub_sleep Spec.never_stop
              (Spec.stub_read ["# only a comment"; "not-a-doi"; ""])
              Spec.stub_mkdir Spec.stub_now Spec.stub_save "dois.txt" "out"
              Spec.fresh ["10.1000/a0"]) as (d' & H & _).
  { reflexivity. }
  exists d'. exact H.
Defined.

Lemma batch_without_folder_witness :
  exists d',
    download_papers (Spec.stub_resolve Spec.always_ok) Spec.stub_sleep
      Spec.never_stop (Spec.stub_read Spec.five_lines) More.failing_mkdir
      Spec.stub_now Spec.stub_save "dois.txt" "out" Spec.fresh []
    = (mkSummary false (Some "Permission denied") 0 None None None, (d', []))
    /\ status (progress d') = "error".
Proof.
  destruct (batch_without_folder (Spec.stub_resolve Spec.always_ok)
              Spec.stub_sleep Spec.never_stop (Spec.stub_read Spec.five_lines)
              More.failing_mkdir Spec.stub_now Spec.stub_save "dois.txt" "out"
              Spec.fresh [] (OtherException "Permission denied"))
    as (d' & H & Hs & _).
  { vm_compute. discriminate. }
  { reflexivity. }
  exists d'. split; [exact H | exact Hs].
Defined.

Lemma batch_progress_consistent_witness :
  exists q,
    progress_percent
      (progress (Spec.run_batch Spec.always_ok (Spec.stop_after 1)
                   Spec.five_lines Spec.fresh []).2.1) = Some q
    /\ (q <= 100)%Q.
Proof.
  destruct (Spec.run_batch Spec.always_ok (Spec.stop_after 1)
              Spec.five_lines Spec.fresh []) as [summary [d' w']] eqn:E.
  destruct (batch_progress_consistent _ _ _ _ _ _ _ _ _ _ _ _ _ _ E)
    as (_ & _ & _ & _ & q & Hq & _ & Hle).
  { vm_compute in E. injection E as <- _ _. reflexivity. }
  exists q. split; [exact Hq | exact Hle].
Defined.

Section FullBatch.
Context {W : Type}.
Variable resolve : string -> string -> W -> Outcome * W.
Variable sleep : Z -> W -> W.
Variable stop_request : Phase -> nat -> bool.
Variable read_lines : string -> W -> list string.
Variable mkdir : string -> W -> Exc + W.
Variable now : W -> Z.
Variable save_tracking : Downloader -> W -> W.

Lemma process_one_records (n : Z) (i : nat) (doi out : string)
    (d : Downloader) (w : W) :
  doi ∈ Spec.ledger (process_one resolve sleep stop_request n i doi out d w).1.
Proof.
  unfold process_one, observe, Spec.ledger.
  destruct (resolve doi out w) as [outcome w1].
  destruct outcome as [r|e]; [destruct (success r)|];
    destruct (stop_request Resolving i), (stop_request Pacing i),
      (Z.of_nat i <? n - 1); cbn;
    try (destruct (stop_flag d); cbn); set_solver.
Qed.

Lemma process_loop_records (n : Z) (out : string) (rest : list string) :
  forall (i : nat) (d d' : Downloader) (w w' : W),
    stop_flag d = false ->
    (forall ph j, stop_request ph j = false) ->
    process_loop resolve sleep stop_request n i rest out d w = (d', w') ->
    list_to_set rest ⊆ Spec.ledger d' /\ stop_flag d' = false.
Proof.
  induction rest as [|doi rest IH]; intros i d d' w w' Hf Hq H; cbn in H.
  - injection H as <- <-. split; [set_solver | exact Hf].
  - rewrite Hf in H.
    pose proof (process_one_records n i doi out d w) as Hrec.
    destruct (process_one resolve sleep stop_request n i doi out d w)
      as [d1 w1] eqn:E1.
    apply process_one_facts in E1 as (_ & _ & _ & _ & _ & _ & Hflag).
    specialize (Hflag Hf). rewrite !Hq in Hflag.
    rewrite andb_false_r in Hflag. cbn in Hflag, Hrec.
    pose proof H as H'. apply process_loop_facts in H' as (_ & Hd & Hfl & _).
    apply IH in H as [Hsub Hflag']; [|exact Hflag | exact Hq].
    split; [|exact Hflag'].
    unfold Spec.ledger in *. cbn [list_to_set].
    clear -Hrec Hd Hfl Hsub. set_solver.
Qed.

(** Without any stop request a batch goes through its whole list and
    ends in status [completed]: every identifier of the list is then in
    the ledger, the counters add up to the length of the list, and the
    pacing sleep was taken between the identifiers but not after the
    last one.  What is saved after the last resolution is the
    downloader as it is returned, but for its status: the saved ledger
    is the final ledger. *)
Theorem batch_without_stop (doi_file out : string) (d d0 : Downloader)
    (w w0 : W) (pre : list string) (doi : string) :
  _load_dois read_lines doi_file d w = ((pre ++ [doi])%list, d0) ->
  mkdir out w = inr w0 ->
  (forall ph j, stop_request ph j = false) ->
  exists summary d' dx,
    download_papers resolve sleep stop_request read_lines mkdir now
      save_tracking doi_file out d w
    = (summary,
       (d', save_tracking dx
              (resolve doi out (Spec.paced resolve sleep pre out w0)).2))
    /\ status (progress d') = "completed"
    /\ stop_flag d' = false
    /\ current (progress d') = Z.of_nat (length pre) + 1
    /\ total (progress d') = Z.of_nat (length pre) + 1
    /\ Spec.processed d' = Z.of_nat (length pre) + 1
    /\ skipped (progress d') = 0
    /\ list_to_set (pre ++ [doi]) ⊆ Spec.ledger d'
    /\ Spec.ledger d' ⊆ Spec.ledger d ∪ list_to_set (pre ++ [doi])
    /\ d' = set_progress (with_status "completed") dx
    /\ downloaded_dois dx = downloaded_dois d'
    /\ failed_dois dx = failed_dois d'.
Proof.
  intros Hload Hmk Hquiet.
  apply load_lines_facts in Hload as Hl.
  destruct Hl as (_ & Hld & Hlf & _ & _).
  set (dois := (pre ++ [doi])%list) in *.
  assert (Hlen : length dois = S (length pre))
    by (unfold dois; rewrite length_app; cbn; lia).
  set (ds := Spec.started now dois out w d0).
  destruct (process_loop resolve sleep stop_request (Z.of_nat (length dois))
              0 dois out ds w0) as [d2 w2] eqn:Hloop.
  pose proof (process_loop_total _ _ _ _ _ _ _ _ _ _ _ Hloop) as Ht.
  pose proof (process_loop_facts _ _ _ _ _ _ _ _ _ _ _ Hloop)
    as (Hs & _ & _ & Hsub).
  pose proof (process_loop_records _ _ _ _ ds _ _ _ eq_refl Hquiet Hloop)
    as [Hrec Hf2].
  pose proof (process_loop_counts _ _ _ _ _ _ _ _ _ _ _ Hloop eq_refl)
    as [Hp Hc].
  destruct (process_loop_running resolve sleep stop_request
              (Z.of_nat (length dois)) out pre 0 [doi] ds w0)
    as (d1 & Hrun & Hf1 & _ & Hp1 & _ & _ & _).
  { reflexivity. }
  { intros ph j _. apply Hquiet. }
  { lia. }
  fold dois in Hrun. rewrite Hloop in Hrun. cbn [Nat.add] in Hrun.
  cbn [process_loop] in Hrun. rewrite Hf1 in Hrun.
  pose proof (process_one_world resolve sleep stop_request
                (Z.of_nat (length dois)) (length pre) doi out d1
                (Spec.paced resolve sleep pre out w0) Hf1) as Hw.
  destruct (process_one resolve sleep stop_request (Z.of_nat (length dois))
              (length pre) doi out d1 (Spec.paced resolve sleep pre out w0))
    as [d3 w3] eqn:E3.
  apply process_one_facts in E3 as (_ & Hc3 & Hp3 & _).
  cbn in Hrun. injection Hrun as -> ->.
  assert (Hlast : (Z.of_nat (length pre) <? Z.of_nat (length dois) - 1) = false)
    by (apply Z.ltb_ge; lia).
  rewrite Hlast, andb_false_r in Hw. cbn in Hw. subst w3.
  assert (Hne : dois <> []) by (intros E; rewrite E in Hlen; discriminate).
  pose proof (download_papers_run resolve sleep stop_request read_lines
                mkdir now save_tracking doi_file out d d0 d3 w w0 _ dois
                Hload Hne Hmk Hloop) as Hbatch.
  eexists _, _, d3. split; [exact Hbatch|].
  unfold Spec.processed, Spec.ledger in *. cbn in *. rewrite Hf2. cbn.
  rewrite Hld, Hlf in Hsub.
  repeat split; try assumption; lia.
Qed.
End FullBatch.

Lemma batch_without_stop_witness :
  exists summary d',
    Spec.run_batch (Spec.only_ok "10.1000/a1") Spec.never_stop
      [Spec.line_a1; Spec.line_a2] Spec.fresh []
    = (summary, (d', ["10.1000/a1"; "10.1000/a2"]))
    /\ status (progress d') = "completed"
    /\ Spec.processed d' = 2.
Proof.
  destruct (batch_without_stop (Spec.stub_resolve (Spec.only_ok "10.1000/a1"))
              Spec.stub_sleep Spec.never_stop
              (Spec.stub_read [Spec.line_a1; Spec.line_a2])
              Spec.stub_mkdir Spec.stub_now Spec.stub_save "dois.txt" "out"
              Spec.fresh Spec.fresh [] [] ["10.1000/a1"] "10.1000/a2")
    as (summary & d' & dx & Hrun & Hst & _ & _ & _ & Hp & _).
  { vm_compute. reflexivity. }
  { reflexivity. }
  { reflexivity. }
  exists summary, d'. split; [exact Hrun|]. split; [exact Hst | exact Hp].
Defined.

(** ** The ledger files *)

Lemma ledger_files_differ (data_dir : string) :
  downloaded_file data_dir <> failed_file data_dir.
Proof.
  unfold downloaded_file, failed_file, path_join. intros H.
  apply String.app_inj in H. discriminate H.
Qed.

Lemma insert_sorted_perm (x : string) (l : list string) :
  insert_sorted x l ≡ₚ x :: l.
Proof.
  induction l as [|y l IH]; cbn; [reflexivity|].
  destruct (String.leb x y); [reflexivity|].
  rewrite IH. apply Permutation_swap.
Qed.

Lemma sorted_perm (ids : gset string) : sorted ids ≡ₚ elements ids.
Proof.
  unfold sorted. induction (elements ids) as [|x l IH]; cbn; [reflexivity|].
  rewrite insert_sorted_perm, IH. reflexivity.
Qed.

Lemma insert_sorted_ascending (x : string) (l : list string) :
  More.ascending l -> More.ascending (insert_sorted x l).
Proof.
  induction l as [|y l IH]; intros H; cbn [insert_sorted].
  - cbn. auto.
  - destruct (String.leb x y) eqn:E.
    + cbn [More.ascending]. split; [exact E | exact H].
    + assert (Hyx : String.leb y x = true).
      { destruct (String.leb_total x y) as [Hl | Hl]; [congruence | exact Hl]. }
      destruct H as [Hhead Htail]. specialize (IH Htail).
      cbn [More.ascending]. split; [|exact IH].
      destruct l as [|z l]; cbn [insert_sorted]; [exact Hyx|].
      destruct (String.leb x z); [exact Hyx | exact Hhead].
Qed.

Lemma sorted_facts (ids : gset string) :
  More.ascending (sorted ids) /\ NoDup (sorted ids)
  /\ (forall x, x ∈ sorted ids <-> x ∈ ids).
Proof.
  split; [|split].
  - unfold sorted. induction (elements ids) as [|x l IH]; cbn; [exact I|].
    apply insert_sorted_ascending, IH.
  - rewrite sorted_perm. apply NoDup_elements.
  - intros x. rewrite sorted_perm. apply elem_of_elements.
Qed.

Lemma elem_of_stripped_lines (lines : list string) (x : string) :
  x ∈ stripped_lines lines <->
  exists line, line ∈ lines /\ strip line = x /\ x <> EmptyString.
Proof.
  induction lines as [|line lines IH]; cbn [stripped_lines].
  - split; [set_solver|]. intros (l & Hl & _). apply elem_of_nil in Hl.
    destruct Hl.
  - destruct (is_empty (strip line)) eqn:E.
    + rewrite IH. split.
      * intros (l & Hl & Hx). exists l. split; [right; exact Hl | exact Hx].
      * intros (l & Hl & Hs & Hne). apply elem_of_cons in Hl as [-> | Hl].
        -- subst x. destruct (strip line); [congruence | discriminate E].
        -- eauto.
    + rewrite elem_of_union, elem_of_singleton, IH. split.
      * intros [-> | (l & Hl & Hx)].
        -- exists line. split; [left|]. split; [reflexivity|].
           intros H. rewrite H in E. discriminate E.
        -- exists l. split; [right; exact Hl | exact Hx].
      * intros (l & Hl & Hs & Hne). apply elem_of_cons in Hl as [-> | Hl].
        -- left. symmetry. exact Hs.
        -- right. eauto.
Qed.

Lemma strip_line_of_stripped (x : string) :
  strip x = x -> strip (x ++ newline_str) = x.
Proof. intros H. rewrite <- H at 1. rewrite strip_saved_line. exact H. Qed.

Lemma readlines_saved (ids : gset string) :
  More.single_line_ids ids ->
  readlines (map (fun doi => doi ++ newline_str) (sorted ids))
  = map (fun doi => doi ++ newline_str) (sorted ids).
Proof.
  intros H. apply readlines_written, Forall_forall. intros y Hy.
  apply H, sorted_facts, Hy.
Qed.

Lemma stripped_lines_saved (ids : gset string) :
  More.stripped_ids ids ->
  stripped_lines (map (fun doi => doi ++ newline_str) (sorted ids)) = ids.
Proof.
  intros Hids. apply leibniz_equiv, set_equiv. intros x.
  rewrite elem_of_stripped_lines. split.
  - intros (line & Hl & Hs & Hne).
    apply list_elem_of_fmap in Hl as (y & -> & Hy).
    apply sorted_facts in Hy. destruct (Hids y Hy) as [Hy1 _].
    rewrite (strip_line_of_stripped y Hy1) in Hs. subst. exact Hy.
  - intros Hx. destruct (Hids x Hx) as [H1 H2].
    exists (x ++ newline_str). split; [|split; [|exact H2]].
    + apply list_elem_of_fmap. exists x. split; [reflexivity|].
      apply sorted_facts, Hx.
    + apply strip_line_of_stripped, H1.
Qed.

Lemma saved_files (data_dir : string) (d : Downloader) (w : World) :
  textfiles (_save_tracking_data data_dir d w) !! downloaded_file data_dir
  = Some (map (fun doi => doi ++ newline_str) (sorted (downloaded_dois d)))
  /\ textfiles (_save_tracking_data data_dir d w) !! failed_file data_dir
     = Some (map (fun doi => doi ++ newline_str) (sorted (failed_dois d)))
  /\ (forall p, p <> downloaded_file data_dir -> p <> failed_file data_dir ->
        textfiles (_save_tracking_data data_dir d w) !! p = textfiles w !! p)
  /\ fs (_save_tracking_data data_dir d w) = fs w.
Proof.
  pose proof (ledger_files_differ data_dir) as Hne.
  unfold _save_tracking_data. cbn. split; [|split; [|split]].
  - rewrite lookup_insert_ne by congruence. apply lookup_insert_eq.
  - apply lookup_insert_eq.
  - intros p H1 H2. rewrite !lookup_insert_ne by congruence. reflexivity.
  - reflexivity.
Qed.

(** A ledger whose identifiers are not empty, carry no white space
    around them and hold no line break is the same after it is saved
    and loaded again by a new downloader. *)
Theorem ledger_round_trip (data_dir : string) (d : Downloader) (w : World) :
  More.stripped_ids (downloaded_dois d) ->
  More.stripped_ids (failed_dois d) ->
  More.single_line_ids (downloaded_dois d) ->
  More.single_line_ids (failed_dois d) ->
  let d' := new_downloader data_dir (_save_tracking_data data_dir d w) in
  downloaded_dois d' = downloaded_dois d
  /\ failed_dois d' = failed_dois d
  /\ stop_flag d' = false
  /\ progress d' = DownloadProgress_default.
Proof.
  intros H1 H2 H3 H4. cbn zeta. unfold new_downloader, _load_tracking_data.
  destruct (saved_files data_dir d w) as (F1 & F2 & _).
  rewrite F1, F2. cbn.
  rewrite (readlines_saved _ H3), (readlines_saved _ H4).
  rewrite (stripped_lines_saved _ H1), (stripped_lines_saved _ H2).
  repeat split.
Qed.

Lemma ledger_round_trip_witness :
  let d := mkDownloader DownloadProgress_default false
             {["10.1000/a2"; "10.1000/a1"]} {["10.1000/a3"]} in
  let d' := new_downloader "data"
              (_save_tracking_data "data" d (Spec.world_with [])) in
  downloaded_dois d' = {["10.1000/a2"; "10.1000/a1"]}
  /\ failed_dois d' = {["10.1000/a3"]}.
Proof.
  cbv zeta.
  destruct (ledger_round_trip "data"
              (mkDownloader DownloadProgress_default false
                 {["10.1000/a2"; "10.1000/a1"]} {["10.1000/a3"]})
              (Spec.world_with [])) as (H1 & H2 & _).
  - intros x Hx. cbn in Hx.
    apply elem_of_union in Hx as [Hx | Hx]; apply elem_of_singleton in Hx;
      subst x; split; [reflexivity | discriminate | reflexivity | discriminate].
  - intros x Hx. cbn in Hx. apply elem_of_singleton in Hx. subst x.
    split; [reflexivity | discriminate].
  - intros x Hx. cbn in Hx.
    apply elem_of_union in Hx as [Hx | Hx]; apply elem_of_singleton in Hx;
      subst x; reflexivity.
  - intros x Hx. cbn in Hx. apply elem_of_singleton in Hx. subst x.
    reflexivity.
  - split; [exact H1 | exact H2].
Defined.

(** [_save_tracking_data] writes each set of the ledger as one line per
    identifier, in ascending order and without repetition, and touches
    no other file. *)
Theorem saved_ledger_sorted (data_dir : string) (d : Downloader) (w : World) :
  exists resolved exhausted,
    textfiles (_save_tracking_data data_dir d w) !! downloaded_file data_dir
    = Some (map (fun doi => doi ++ newline_str) resolved)
    /\ textfiles (_save_tracking_data data_dir d w) !! failed_file data_dir
       = Some (map (fun doi => doi ++ newline_str) exhausted)
    /\ More.ascending resolved /\ NoDup resolved
    /\ (forall x, x ∈ resolved <-> x ∈ downloaded_dois d)
    /\ More.ascending exhausted /\ NoDup exhausted
    /\ (forall x, x ∈ exhausted <-> x ∈ failed_dois d)
    /\ (forall p, p <> downloaded_file data_dir -> p <> failed_file data_dir ->
          textfiles (_save_tracking_data data_dir d w) !! p
          = textfiles w !! p)
    /\ fs (_save_tracking_data data_dir d w) = fs w.
Proof.
  destruct (saved_files data_dir d w) as (F1 & F2 & F3 & F4).
  destruct (sorted_facts (downloaded_dois d)) as (A1 & N1 & M1).
  destruct (sorted_facts (failed_dois d)) as (A2 & N2 & M2).
  exists (sorted (downloaded_dois d)), (sorted (failed_dois d)).
  repeat split; try assumption; try apply M1; try apply M2.
Qed.

(** [clear_all_tracking] reports how many identifiers the ledger held,
    empties both sets and both files, and leaves the progress alone: a
    downloader constructed afterwards starts with an empty ledger. *)
Theorem clear_all_tracking_spec (data_dir : string) (d : Downloader)
    (w : World) :
  let '(cleared, (d', w')) := clear_all_tracking data_dir d w in
  cleared = Z.of_nat (size (downloaded_dois d))
            + Z.of_nat (size (failed_dois d))
  /\ downloaded_dois d' = ∅ /\ failed_dois d' = ∅
  /\ progress d' = progress d /\ stop_flag d' = stop_flag d
  /\ textfiles w' !! downloaded_file data_dir = Some []
  /\ textfiles w' !! failed_file data_dir = Some []
  /\ downloaded_dois (new_downloader data_dir w') = ∅
  /\ failed_dois (new_downloader data_dir w') = ∅.
Proof.
  unfold clear_all_tracking.
  set (d0 := set_failed_dois (fun _ => ∅) (set_downloaded_dois (fun _ => ∅) d)).
  destruct (saved_files data_dir d0 w) as (F1 & F2 & _).
  unfold new_downloader, _load_tracking_data. rewrite F1, F2.
  repeat split.
Qed.

(** ** The count announced for an uploaded file *)

Lemma comment_stays_comment (line : string) :
  startswith line "#" = true -> startswith (strip line) "#" = true.
Proof.
  destruct line as [|c s]; [discriminate|]. cbn [startswith].
  intros H. apply andb_true_iff in H as [H _]. apply Ascii.eqb_eq in H.
  subst c. unfold strip, strip_by. cbn [rstrip_by].
  destruct (rstrip_by isspace s); reflexivity.
Qed.

Lemma load_lines_counted (lines : list string) :
  forall (acc : list string) (d : Downloader),
    (length (load_lines lines acc d).1
     <= length acc + length (Routes.uploaded_dois lines))%nat.
Proof.
  induction lines as [|line lines IH]; intros acc d;
    cbn [load_lines Routes.uploaded_dois]; [cbn; lia|].
  destruct (is_empty (strip line)) eqn:E; cbn [negb andb]; [apply IH|].
  destruct (startswith line "#") eqn:Hc; cbn [negb].
  - rewrite (comment_stays_comment line Hc). cbn [negb]. apply IH.
  - assert (Hstep : forall acc0 d0,
              (length acc0 <= S (length acc))%nat ->
              (length (load_lines lines acc0 d0).1
               <= length acc
                  + length (strip line :: Routes.uploaded_dois lines))%nat).
    { intros acc0 d0 Hacc. specialize (IH acc0 d0). cbn [length]. lia. }
    destruct (negb (startswith (strip line) "#")); [|apply Hstep; lia].
    destruct (Validation.validate_doi _); [|apply Hstep; lia].
    destruct (bool_decide _); apply Hstep; [lia|].
    rewrite length_app. cbn. lia.
Qed.

(** The number of identifiers [download_papers_custom] announces for an
    uploaded file is never smaller than the number the batch lists: an
    upload counted as empty yields a batch with nothing to attempt. *)
Theorem announced_count_bounds_total {W : Type}
    (read_lines : string -> W -> list string) (doi_file : string)
    (d : Downloader) (w : W) :
  Z.of_nat (length (_load_dois read_lines doi_file d w).1)
  <= Routes.doi_count (read_lines doi_file w)
  /\ (Routes.doi_count (read_lines doi_file w) = 0 ->
      (_load_dois read_lines doi_file d w).1 = []).
Proof.
  unfold Routes.doi_count, _load_dois.
  pose proof (load_lines_counted (read_lines doi_file w) [] d) as H.
  cbn [length Nat.add] in H. split; [lia|].
  intros H0. destruct (load_lines _ [] d).1; [reflexivity|].
  cbn [length] in H. lia.
Qed.

(** ** The names of the stored files *)

Lemma word_char_no_slash (c : ascii) :
  is_word_char c || char_in "-_." c = true ->
  negb (Ascii.eqb c "/") = true.
Proof.
  destruct c as [[] [] [] [] [] [] [] []]; vm_compute; intros H;
    first [discriminate H | reflexivity].
Qed.

Lemma safe_title_slash_free (t : string) :
  More.slash_free (safe_title_of t) = true.
Proof.
  unfold More.slash_free, safe_title_of. apply all_chars_map. intros c.
  destruct (is_word_char c || char_in "-_." c) eqn:E; [|reflexivity].
  apply word_char_no_slash, E.
Qed.

Lemma slash_to_underscore_free (s : string) :
  More.slash_free (slash_to_underscore s) = true.
Proof.
  unfold More.slash_free, slash_to_underscore, replace_char.
  apply all_chars_map. intros c.
  destruct (Ascii.eqb c "/") eqn:E; [reflexivity|]. rewrite E. reflexivity.
Qed.

(** The file names built for CORE and arXiv contain no slash when the
    source tag has none, and the one built for NCBI when the PubMed
    identifier has none: the file is then created in the output folder
    itself, whatever the title and the identifier are. *)
Theorem stored_file_names_slash_free :
  (forall paper doi tag,
     More.slash_free tag = true ->
     More.slash_free (paper_filename paper doi tag) = true)
  /\ (forall paper_info doi,
        More.slash_free (get_str (info_pmid paper_info) "unknown") = true ->
        More.slash_free (ncbi_filename paper_info doi) = true).
Proof.
  split.
  - intros paper doi tag Htag. unfold paper_filename.
    pose proof (safe_title_slash_free
                  (slice_to 50 (get_str (title paper) "unknown"))) as H1.
    pose proof (slash_to_underscore_free doi) as H2.
    pose proof (slash_to_underscore_free (get_str (arxiv_id paper) "")) as H3.
    unfold More.slash_free in *.
    destruct (String.eqb tag "arXiv" && truthy (arxiv_id paper));
      rewrite !all_chars_app, ?H1, ?H2, ?H3, ?Htag; reflexivity.
  - intros paper_info doi Hpmid. unfold ncbi_filename.
    pose proof (safe_title_slash_free
                  (get_str (info_title paper_info) "unknown")) as H1.
    pose proof (slash_to_underscore_free doi) as H2.
    unfold More.slash_free in *.
    rewrite !all_chars_app, ?H1, ?H2, ?Hpmid. reflexivity.
Qed.

Lemma stored_file_names_slash_free_witness :
  More.slash_free
    (paper_filename (mkPaper None None (Some "../../etc/passwd") [] None)
       "10.1000/../x" "CORE") = true.
Proof.
  destruct stored_file_names_slash_free as [H _]. apply H. reflexivity.
Defined.

(** ** What the adapter and the ledger keep *)

Lemma try_papers_success (papers : list Paper) (doi out : string) :
  forall (w w' : World) (r : Result),
    try_papers papers doi out w = (Some r, w') ->
    exists paper,
      In paper papers
      /\ file_path r = Some (More.paper_path paper doi out "CORE")
      /\ More.stored_document (More.paper_path paper doi out "CORE") w'
      /\ source r = Some "CORE".
Proof.
  induction papers as [|paper rest IH]; intros w w' r H; cbn in H;
    [discriminate|].
  destruct (_try_download_paper paper doi out "CORE" w) as [r1 w1] eqn:E.
  destruct (success r1) eqn:Hok.
  - injection H as <- <-.
    destruct (download_paper_stored _ _ _ _ _ _ _ E Hok)
      as (H1 & H2 & _ & H4 & _).
    exists paper. split; [left; reflexivity | auto].
  - apply IH in H as (p & Hin & Hp). exists p. split; [right; exact Hin|].
    exact Hp.
Qed.

Lemma session_get_reply (url : string) (w w1 : World) (reply : Reply) :
  session_get url w = (reply, w1) ->
  (forall x, In x (net w1) -> In x (net w))
  /\ (forall response, reply = Responds response -> In reply (net w)).
Proof.
  unfold session_get. destruct (net w) as [|r rest] eqn:E; intros H;
    injection H as <- <-; cbn; rewrite ?E.
  - split; [intros x Hx; exact Hx|]. intros response Hr. discriminate Hr.
  - split; [intros x Hx; right; exact Hx|]. intros _ _. left. reflexivity.
Qed.

Lemma core_attempt_continue (attempt : Z) (doi out : string)
    (w w' : World) :
  core_attempt attempt doi out w = Continue w' ->
  forall x, In x (net w') -> In x (net w).
Proof.
  unfold core_attempt. intros H.
  destruct (session_get _ w) as [reply w1] eqn:G.
  apply session_get_reply in G as [Hnet _].
  destruct (match reply with Raises e => inl e | Responds response => json response end)
    as [[status text|text|text]|data].
  - destruct (status =? 429); [destruct (attempt <? max_retries)|
      destruct (status =? 500); [destruct (attempt <? max_retries)|]];
      try discriminate H; injection H as <-; exact Hnet.
  - discriminate H.
  - discriminate H.
  - destruct (default 0 (totalHits data) >? 0); [|discriminate H].
    destruct (try_papers _ doi out w1) as [[r1|] w2]; discriminate H.
Qed.

Lemma core_attempt_success (attempt : Z) (doi out : string)
    (w w' : World) (r : Result) :
  core_attempt attempt doi out w = Return r w' -> success r = true ->
  exists response data paper,
    In (Responds response) (net w)
    /\ json response = inr data
    /\ 0 < default 0 (totalHits data)
    /\ In paper (default [] (results data))
    /\ file_path r = Some (More.paper_path paper doi out "CORE")
    /\ More.stored_document (More.paper_path paper doi out "CORE") w'
    /\ source r = Some "CORE".
Proof.
  unfold core_attempt. intros H Hok.
  destruct (session_get _ w) as [reply w1] eqn:G.
  apply session_get_reply in G as [_ Hin].
  destruct reply as [e|response].
  - destruct e as [status text|text|text].
    + destruct (status =? 429); [destruct (attempt <? max_retries)|
        destruct (status =? 500); [destruct (attempt <? max_retries)|]];
        try discriminate H; injection H as <- _; discriminate Hok.
    + injection H as <- _. discriminate Hok.
    + injection H as <- _. discriminate Hok.
  - specialize (Hin response eq_refl).
    destruct (json response) as [[status text|text|text]|data] eqn:J.
    + destruct (status =? 429); [destruct (attempt <? max_retries)|
        destruct (status =? 500); [destruct (attempt <? max_retries)|]];
        try discriminate H; injection H as <- _; discriminate Hok.
    + injection H as <- _. discriminate Hok.
    + injection H as <- _. discriminate Hok.
    + destruct (default 0 (totalHits data) >? 0) eqn:Hits;
        [|injection H as <- _; discriminate Hok].
      destruct (try_papers _ doi out w1) as [[r1|] w2] eqn:T;
        [|injection H as <- _; discriminate Hok].
      injection H as <- <-.
      apply try_papers_success in T as (paper & Hp & Hrest).
      exists response, data, paper.
      split; [exact Hin|]. split; [exact J|].
      split; [apply Z.gtb_lt, Hits|]. split; [exact Hp | exact Hrest].
Qed.

(** When [_try_core_api] succeeds, one of the answers of the server was
    a search result with hits, and a document of one of its works is
    stored at the path the result reports, with the source tag
    [CORE]. *)
Theorem core_api_success (doi out : string) (w w' : World) (r : Result) :
  _try_core_api doi out w = (Some r, w') -> success r = true ->
  exists response data paper,
    In (Responds response) (net w)
    /\ json response = inr data
    /\ 0 < default 0 (totalHits data)
    /\ In paper (default [] (results data))
    /\ file_path r = Some (More.paper_path paper doi out "CORE")
    /\ More.stored_document (More.paper_path paper doi out "CORE") w'
    /\ source r = Some "CORE".
Proof.
  unfold _try_core_api.
  change (range (max_retries + 1)) with [0; 1; 2; 3].
  cbn [core_loop]. intros H Hok.
  destruct (core_attempt 0 doi out w) as [w1|r1 w1] eqn:E0.
  2:{ injection H as <- <-. exact (core_attempt_success _ _ _ _ _ _ E0 Hok). }
  pose proof (core_attempt_continue _ _ _ _ _ E0) as N0.
  destruct (core_attempt 1 doi out w1) as [w2|r2 w2] eqn:E1.
  2:{ injection H as <- <-.
      destruct (core_attempt_success _ _ _ _ _ _ E1 Hok)
        as (response & data & paper & Hin & Hrest).
      exists response, data, paper. split; [apply N0, Hin | exact Hrest]. }
  pose proof (core_attempt_continue _ _ _ _ _ E1) as N1.
  destruct (core_attempt 2 doi out w2) as [w3|r3 w3] eqn:E2.
  2:{ injection H as <- <-.
      destruct (core_attempt_success _ _ _ _ _ _ E2 Hok)
        as (response & data & paper & Hin & Hrest).
      exists response, data, paper.
      split; [apply N0, N1, Hin | exact Hrest]. }
  pose proof (core_attempt_continue _ _ _ _ _ E2) as N2.
  destruct (core_attempt 3 doi out w3) as [w4|r4 w4] eqn:E3;
    [discriminate H|].
  injection H as <- <-.
  destruct (core_attempt_success _ _ _ _ _ _ E3 Hok)
    as (response & data & paper & Hin & Hrest).
  exists response, data, paper.
  split; [apply N0, N1, N2, Hin | exact Hrest].
Qed.

Lemma core_api_success_witness :
  exists paper,
    In paper [Spec.paper_at "https://example.org/a.pdf"]
    /\ More.stored_document
         (More.paper_path paper "10.1000/xyz123" "out" "CORE")
         (_try_core_api "10.1000/xyz123" "out"
            (Spec.world_with
               [Raises (HTTPError 429 "429");
                Responds (mkResponse (Some "application/json")
                            (inr (mkCoreData (Some 1)
                                    (Some [Spec.paper_at "https://example.org/a.pdf"])))
                            [] None);
                Spec.served "application/pdf" [More.pdf_body]])).2.
Proof.
  destruct (_try_core_api "10.1000/xyz123" "out"
              (Spec.world_with
                 [Raises (HTTPError 429 "429");
                  Responds (mkResponse (Some "application/json")
                              (inr (mkCoreData (Some 1)
                                      (Some [Spec.paper_at "https://example.org/a.pdf"])))
                              [] None);
                  Spec.served "application/pdf" [More.pdf_body]]))
    as [[r|] w'] eqn:E.
  - destruct (core_api_success _ _ _ _ _ E)
      as (response & data & paper & Hin & Hj & _ & Hp & _ & H & _).
    + vm_compute in E. injection E as <- _. reflexivity.
    + exists paper. split; [|exact H].
      cbn in Hin. destruct Hin as [Hin|[Hin|[Hin|[]]]].
      * discriminate Hin.
      * injection Hin as <-. cbn in Hj. injection Hj as <-. exact Hp.
      * injection Hin as <-. discriminate Hj.
  - vm_compute in E. discriminate E.
Defined.

Lemma strip_line (y : string) : strip (y ++ newline_str) = strip y.
Proof.
  rewrite <- (append_nil_l (y ++ newline_str)). unfold strip.
  apply (strip_by_surrounded isspace EmptyString y newline_str);
    reflexivity.
Qed.

(** Saving a ledger whose identifiers hold no line break and loading it
    again strips the identifiers: the loaded sets hold exactly the
    stripped forms, when not empty, of the saved ones. *)
Theorem ledger_reload_strips (data_dir : string) (d : Downloader)
    (w : World) (x : string) :
  More.single_line_ids (downloaded_dois d) ->
  More.single_line_ids (failed_dois d) ->
  let d' := new_downloader data_dir (_save_tracking_data data_dir d w) in
  (x ∈ downloaded_dois d' <->
   exists y, y ∈ downloaded_dois d /\ strip y = x /\ x <> EmptyString)
  /\ (x ∈ failed_dois d' <->
      exists y, y ∈ failed_dois d /\ strip y = x /\ x <> EmptyString).
Proof.
  intros H1 H2. cbn zeta. unfold new_downloader, _load_tracking_data.
  destruct (saved_files data_dir d w) as (F1 & F2 & _).
  rewrite F1, F2. cbn.
  rewrite (readlines_saved _ H1), (readlines_saved _ H2).
  assert (Hset : forall ids : gset string,
            x ∈ stripped_lines
                  (map (fun doi => doi ++ newline_str) (sorted ids))
            <-> exists y, y ∈ ids /\ strip y = x /\ x <> EmptyString).
  { intros ids. rewrite elem_of_stripped_lines. split.
    - intros (line & Hl & Hs & Hne).
      apply list_elem_of_fmap in Hl as (y & -> & Hy).
      apply sorted_facts in Hy. rewrite strip_line in Hs. eauto.
    - intros (y & Hy & Hs & Hne). exists (y ++ newline_str).
      split; [|split; [rewrite strip_line; exact Hs | exact Hne]].
      apply list_elem_of_fmap. exists y. split; [reflexivity|].
      apply sorted_facts, Hy. }
  split; apply Hset.
Qed.

Lemma ledger_reload_strips_witness :
  let d := mkDownloader DownloadProgress_default false
             {[" 10.1000/a1"]} {[" "]} in
  let d' := new_downloader "data"
              (_save_tracking_data "data" d (Spec.world_with [])) in
  "10.1000/a1" ∈ downloaded_dois d' /\ " " ∉ failed_dois d'.
Proof.
  cbv zeta.
  destruct (ledger_reload_strips "data"
              (mkDownloader DownloadProgress_default false
                 {[" 10.1000/a1"]} {[" "]})
              (Spec.world_with []) "10.1000/a1") as [Hd _].
  - intros x Hx. cbn in Hx. apply elem_of_singleton in Hx. subst x.
    reflexivity.
  - intros x Hx. cbn in Hx. apply elem_of_singleton in Hx. subst x.
    reflexivity.
  - split.
    + apply Hd. exists " 10.1000/a1".
      split; [cbn; apply elem_of_singleton; reflexivity|].
      split; [reflexivity | discriminate].
    + destruct (ledger_reload_strips "data"
                  (mkDownloader DownloadProgress_default false
                     {[" 10.1000/a1"]} {[" "]})
                  (Spec.world_with []) " ") as [_ Hf].
      * intros x Hx. cbn in Hx. apply elem_of_singleton in Hx. subst x.
        reflexivity.
      * intros x Hx. cbn in Hx. apply elem_of_singleton in Hx. subst x.
        reflexivity.
      * intros Hin. apply Hf in Hin as (y & Hy & Hs & _). cbn in Hy.
        apply elem_of_singleton in Hy. subst y. discriminate Hs.
Defined.

(** An identifier that holds a line break is not recovered: the ledger
    holding the one identifier made of two lines is loaded as the
    ledger of the two lines. *)
Theorem ledger_line_break_splits (data_dir : string) (d : Downloader)
    (w : World) (x y : string) :
  strip x = x -> strip y = y -> x <> EmptyString -> y <> EmptyString ->
  More.single_line x = true -> More.single_line y = true ->
  downloaded_dois d = {[x ++ newline_str ++ y]} ->
  downloaded_dois
    (new_downloader data_dir (_save_tracking_data data_dir d w))
  = {[x; y]}.
Proof.
  intros Hx Hy Hnx Hny Lx Ly Hd. unfold new_downloader, _load_tracking_data.
  destruct (saved_files data_dir d w) as (F1 & F2 & _).
  rewrite F1, F2. cbn. rewrite Hd. unfold sorted.
  rewrite elements_singleton. cbn [foldr insert_sorted map].
  unfold readlines. cbn [fold_right].
  rewrite append_nil_r, !append_assoc.
  rewrite (universal_newlines_line _ _ Lx).
  rewrite <- (append_nil_r newline_str) at 2.
  rewrite (universal_newlines_line _ _ Ly).
  rewrite (split_lines_line _ _ Lx), (split_lines_line _ _ Ly).
  cbn [universal_newlines split_lines stripped_lines].
  rewrite (strip_line_of_stripped _ Hx), (strip_line_of_stripped _ Hy).
  destruct x as [|cx x]; [congruence|]. destruct y as [|cy y]; [congruence|].
  cbn [is_empty]. set_solver.
Qed.

Lemma ledger_line_break_splits_witness :
  downloaded_dois
    (new_downloader "data"
       (_save_tracking_data "data"
          (mkDownloader DownloadProgress_default false
             {["10.1000/a1" ++ newline_str ++ "10.1000/a2"]} ∅)
          (Spec.world_with [])))
  = {["10.1000/a1"; "10.1000/a2"]}.
Proof.
  apply (ledger_line_break_splits "data"
           (mkDownloader DownloadProgress_default false
              {["10.1000/a1" ++ newline_str ++ "10.1000/a2"]} ∅)
           (Spec.world_with []) "10.1000/a1" "10.1000/a2");
    first [reflexivity | discriminate].
Defined.
